(** * Zia (Zomato Intelligent Assistant): decision core

    A shallow embedding of the rules-and-policy core of the Zia prototype:
    - [modules/decisionEngine.js]   (verification, refund eligibility, solutions),
    - [modules/escalationManager.js] (auto-escalation and priority),
    - the session endpoints of the Express server (start / message / end),
    - the constants of [config/appConfig.js].

    Conventions of the embedding.
    - JavaScript numbers that carry money, rates and durations are exact
      rationals ([Qc]); timestamps ([Date] values) are integer milliseconds
      since the epoch ([Z]).  Rounding error of IEEE doubles and [NaN] are
      outside the model: sums and products are those of the doubles where
      these are exact, which is the case for whole numbers up to 2^53.  A
      property that rounding could break is stated for amounts in whole
      units ([decisions.wholeLines], [decisions.exactRange]).
    - [null] / [undefined] objects are [option]; reading a property of one
      raises a [TypeError], modelled by the [Completion] monad below.  A
      [try { ... } catch] is [tryCatch].
    - The clock ([new Date()]) is an explicit argument [now], read once per
      call.
    - The in-memory registry [sessions] (an object literal used as a map) is a
      [gmap string Session] for its own properties, looked up through
      [Js.getProperty], which also sees the keys inherited from
      [Object.prototype]. *)

From Stdlib Require Import ZArith QArith Qcanon Qround String Ascii List Bool Lia.
From Stdlib Require Import DecimalString Lqa.
From stdpp Require Import base option gmap strings.

Import ListNotations.
Local Open Scope Z_scope.
Local Open Scope string_scope.

(** ** JavaScript layer *)

Module Js.

Inductive Error : Type :=
| TypeError
| ExternalError (msg : string).

(** Result of evaluating a block: a value, or a thrown exception. *)
Inductive Completion (A : Type) : Type :=
| Normal (a : A)
| Throw (e : Error).
Arguments Normal {A} a.
Arguments Throw {A} e.

Definition bind {A B : Type} (c : Completion A) (k : A -> Completion B) : Completion B :=
  match c with
  | Normal a => k a
  | Throw e => Throw e
  end.

(** [obj.field] on a possibly null/undefined [obj]. *)
Definition deref {A : Type} (obj : option A) : Completion A :=
  match obj with
  | Some a => Normal a
  | None => Throw TypeError
  end.

(** [try { body } catch (error) { handler }] where both return. *)
Definition tryCatch {A : Type} (body : Completion A) (handler : Error -> A) : A :=
  match body with
  | Normal a => a
  | Throw e => handler e
  end.

Definition throws {A : Type} (c : Completion A) : Prop :=
  exists e, c = Throw e.

(** [String.prototype.toLowerCase], on the ASCII letters. *)
Definition lowerAscii (c : ascii) : ascii :=
  let n := nat_of_ascii c in
  if (Nat.leb 65 n && Nat.leb n 90)%bool then ascii_of_nat (n + 32) else c.

Fixpoint toLowerCase (s : string) : string :=
  match s with
  | EmptyString => EmptyString
  | String c s' => String (lowerAscii c) (toLowerCase s')
  end.

(** [String.prototype.includes]: [sub] occurs in [s] as a contiguous run. *)
Fixpoint includes (s sub : string) : bool :=
  if String.prefix sub s then true
  else match s with
       | EmptyString => false
       | String _ s' => includes s' sub
       end.

(** [Array.prototype.includes] on an array of strings: element equality. *)
Definition arrayIncludes (l : list string) (x : string) : bool :=
  existsb (String.eqb x) l.

(** Rational comparisons, as booleans. *)
Definition gtb (x y : Qc) : bool :=
  match (x ?= y)%Qc with Gt => true | _ => false end.
Definition ltb (x y : Qc) : bool :=
  match (x ?= y)%Qc with Lt => true | _ => false end.
Definition leb (x y : Qc) : bool :=
  match (x ?= y)%Qc with Gt => false | _ => true end.
Definition eqb (x y : Qc) : bool :=
  match (x ?= y)%Qc with Eq => true | _ => false end.

(** [Math.min] and [Math.round] (half-way cases round up). *)
Definition min (x y : Qc) : Qc := if ltb y x then y else x.
Definition round (x : Qc) : Z := Qfloor (x + Q2Qc (1 # 2))%Qc.

(** An integer inside a template literal. *)
Definition showZ (z : Z) : string := NilZero.string_of_int (Z.to_int z).

(** Difference of two dates, in milliseconds, divided by [unit]. *)
Definition elapsed (later earlier : Z) (unit : positive) : Qc :=
  Q2Qc ((later - earlier) # unit).

(** [new Date(x).getTime()] for a nullable date: [new Date(null)] is the epoch. *)
Definition dateOf (d : option Z) : Z :=
  match d with Some t => t | None => 0 end.

(** Property names that every plain object inherits from [Object.prototype]. *)
Definition objectPrototypeKeys : list string :=
  [ "constructor"; "__proto__"; "hasOwnProperty"; "isPrototypeOf";
    "propertyIsEnumerable"; "toLocaleString"; "toString"; "valueOf";
    "__defineGetter__"; "__defineSetter__"; "__lookupGetter__"; "__lookupSetter__" ].

Definition inheritedKey (key : string) : bool :=
  existsb (String.eqb key) objectPrototypeKeys.

(** What [obj[key]] finds on an object literal used as a map: a value stored
    under [key], else a built-in function or object found along the prototype
    chain (truthy, and without any of the fields of a stored value), else
    [undefined]. *)
Inductive Property (A : Type) : Type :=
| Own (a : A)
| Inherited
| Undefined.
Arguments Own {A} a.
Arguments Inherited {A}.
Arguments Undefined {A}.

Definition getProperty {A : Type} (obj : gmap string A) (key : string) : Property A :=
  match obj !! key with
  | Some a => Own a
  | None => if inheritedKey key then Inherited else Undefined
  end.

End Js.

Notation "'let!' x ':=' c 'in' k" := (Js.bind c (fun x => k))
  (at level 10, x name, c at level 100, k at level 200).
Notation "x >? y" := (Js.gtb x y) : Qc_scope.
Notation "x <? y" := (Js.ltb x y) : Qc_scope.
Notation "x <=? y" := (Js.leb x y) : Qc_scope.

(** ** config/appConfig.js *)

Module config.

Definition demoMode : bool := true.

Module verificationWindows.
Definition wrongOrder : Qc := Q2Qc 60.
Definition missingItem : Qc := Q2Qc 60.
Definition lateDeliveryHours : Qc := Q2Qc 24.
Definition qualityIssueHours : Qc := Q2Qc 2.
End verificationWindows.

Module thresholds.
Definition fraudRiskScore : Qc := Q2Qc 0.7.
Definition complaintFrequency : Z := 5.
Definition acceptableLateness : Qc := Q2Qc 10.
Definition redeliveryWindowMinutes : Qc := Q2Qc 120.
Definition refundEligibilityDays : Z := 7.
Definition maxLateFee : Qc := Q2Qc 200.
Definition maxBonusAmount : Qc := Q2Qc 100.
Definition highValueOrder : Qc := Q2Qc 1000.
End thresholds.

Module compensationRates.
Definition slightlyLate : Qc := Q2Qc 0.1.
Definition moderatelyLate : Qc := Q2Qc 0.2.
Definition veryLate : Qc := Q2Qc 0.3.
Definition premiumBonus : Qc := Q2Qc 0.2.
End compensationRates.

Module escalationThresholds.
Definition sentiment : Qc := Q2Qc (-0.5).
Definition messageCount : Z := 10.
End escalationThresholds.

End config.

(** ** Data model *)

Inductive MembershipTier : Type := REGULAR | PRO | PRO_PLUS.

Inductive IssueType : Type :=
| WRONG_ORDER | MISSING_ITEM | LATE_DELIVERY | REFUND_REQUEST
| ESCALATION_REQUEST | ORDER_STATUS | GENERAL_QUERY | OTHER_INTENT.

Inductive SolutionType : Type := REFUND | REDELIVERY | CREDIT.

Inductive Role : Type := user | assistant.

Inductive Priority : Type := HIGH | MEDIUM | LOW.

Record OrderItem : Type := mkItem {
  name : string;
  price : Qc;
  quantity : Qc }.

Record OrderDetails : Type := mkOrder {
  id : string;
  restaurantId : string;
  restaurantName : string;
  items : list OrderItem;
  totalAmount : Qc;
  deliveryFee : option Qc;
  orderedAt : Z;
  estimatedDeliveryTime : Z;
  deliveredAt : option Z;
  restaurantCloseTime : Z;
  problemFlag : bool;
  refunded : bool }.

Record CustomerInfo : Type := mkCustomer {
  customer_id : string;
  customer_name : string;
  membershipTier : MembershipTier;
  fraudRiskScore : Qc;
  complaintFrequency : Z }.

Record Entities : Type := mkEntities {
  orderId : option string;
  wrongItems : option (list string);
  missingItems : option (list string);
  issues : list string;
  entity_reason : option string;
  entity_latenessMinutes : option Qc }.

Record VerificationResult : Type := mkVerification {
  verified : bool;
  verification_reason : string;
  latenessMinutes : option Qc;
  validMissingItems : option (list string) }.

Record Eligibility : Type := mkEligibility {
  eligible : bool;
  eligibility_reason : option string;
  eligibility_amount : option Qc;
  percentage : option Z }.

Record Solution : Type := mkSolution {
  solution_type : SolutionType;
  amount : Qc;
  reason : string;
  bonusAmount : option Qc;
  estimatedTime : option Z }.

Definition isPremium (t : MembershipTier) : bool :=
  match t with
  | PRO | PRO_PLUS => true
  | REGULAR => false
  end.

(** ** modules/decisionEngine.js *)

Module decisionEngine.

Definition benefitOfDoubt : string :=
  "Verification error, giving benefit of doubt to customer".

(** The [try] block of [verifyWrongOrderIssue].  The test on
    [customerInfo.complaintFrequency] only writes a warning to the log and is
    left out. *)
Definition verifyWrongOrderIssue_try (now : Z) (orderDetails : option OrderDetails)
    (wrongItems : option (list string)) (customerInfo : option CustomerInfo)
  : Js.Completion VerificationResult :=
  let! o := Js.deref orderDetails in
  if problemFlag o then
    Js.Normal (mkVerification true "Order already flagged as problematic" None None)
  else
    let! c := Js.deref customerInfo in
    if isPremium (membershipTier c) then
      Js.Normal (mkVerification true "Trusted customer tier" None None)
    else
      let deliveryTime := Js.dateOf (deliveredAt o) in
      let minutesSinceDelivery := Js.elapsed now deliveryTime 60000 in
      if (minutesSinceDelivery >? config.verificationWindows.wrongOrder)%Qc then
        Js.Normal (mkVerification false "Complaint received too long after delivery" None None)
      else if (fraudRiskScore c >? config.thresholds.fraudRiskScore)%Qc then
        Js.Normal (mkVerification false "Customer risk score exceeds threshold" None None)
      else
        Js.Normal (mkVerification true "Customer report accepted" None None).

Definition verifyWrongOrderIssue (now : Z) (orderDetails : option OrderDetails)
    (wrongItems : option (list string)) (customerInfo : option CustomerInfo)
  : VerificationResult :=
  Js.tryCatch (verifyWrongOrderIssue_try now orderDetails wrongItems customerInfo)
    (fun _ => mkVerification true benefitOfDoubt None None).

(** The claimed items that pass the "were actually ordered" test:
    [missingItems.filter(item => orderedItems.includes(item.toLowerCase()))],
    where [orderedItems] is the array of lower-cased ordered names. *)
Definition validMissing (o : OrderDetails) (claimed : list string) : list string :=
  let orderedItems := map (fun item => Js.toLowerCase (name item)) (items o) in
  List.filter (fun item => Js.arrayIncludes orderedItems (Js.toLowerCase item)) claimed.

Definition verifyMissingItemIssue_try (now : Z) (orderDetails : option OrderDetails)
    (missingItems : option (list string)) (customerInfo : option CustomerInfo)
  : Js.Completion VerificationResult :=
  let! o := Js.deref orderDetails in
  let! claimed := Js.deref missingItems in
  let validMissingItems := validMissing o claimed in
  if (Nat.eqb (length validMissingItems) 0 && Nat.ltb 0 (length claimed))%bool then
    Js.Normal (mkVerification false
                 "Claimed missing items were not in the original order" None None)
  else if problemFlag o then
    Js.Normal (mkVerification true "Order already flagged as problematic" None None)
  else
    let! c := Js.deref customerInfo in
    if isPremium (membershipTier c) then
      Js.Normal (mkVerification true "Trusted customer tier" None None)
    else
      let deliveryTime := Js.dateOf (deliveredAt o) in
      let minutesSinceDelivery := Js.elapsed now deliveryTime 60000 in
      if (minutesSinceDelivery >? config.verificationWindows.missingItem)%Qc then
        Js.Normal (mkVerification false "Complaint received too long after delivery" None None)
      else if (fraudRiskScore c >? config.thresholds.fraudRiskScore)%Qc then
        Js.Normal (mkVerification false "Customer risk score exceeds threshold" None None)
      else
        Js.Normal (mkVerification true "Customer report accepted" None
                     (Some validMissingItems)).

Definition verifyMissingItemIssue (now : Z) (orderDetails : option OrderDetails)
    (missingItems : option (list string)) (customerInfo : option CustomerInfo)
  : VerificationResult :=
  Js.tryCatch (verifyMissingItemIssue_try now orderDetails missingItems customerInfo)
    (fun _ => mkVerification true benefitOfDoubt None None).

(** [(actualDeliveryTime - estimatedDeliveryTime) / (1000 * 60)]. *)
Definition lateness (o : OrderDetails) : Qc :=
  Js.elapsed (Js.dateOf (deliveredAt o)) (estimatedDeliveryTime o) 60000.

Definition verifyLateDeliveryIssue_try (now : Z) (orderDetails : option OrderDetails)
    (customerInfo : option CustomerInfo)
  : Js.Completion VerificationResult :=
  let! o := Js.deref orderDetails in
  let actualDeliveryTime := Js.dateOf (deliveredAt o) in
  let latenessMinutes := lateness o in
  if (latenessMinutes <=? Q2Qc 0)%Qc then
    Js.Normal (mkVerification false "Delivery was on time or early" (Some (Q2Qc 0)) None)
  else if (latenessMinutes <? config.thresholds.acceptableLateness)%Qc then
    Js.Normal (mkVerification false
                 ("Delivery was only " ++ Js.showZ (Js.round latenessMinutes)
                    ++ " minutes late, within acceptable range")
                 (Some latenessMinutes) None)
  else
    let hoursSinceDelivery := Js.elapsed now actualDeliveryTime 3600000 in
    if (hoursSinceDelivery >? config.verificationWindows.lateDeliveryHours)%Qc then
      Js.Normal (mkVerification false "Complaint received too long after delivery"
                   (Some latenessMinutes) None)
    else
      Js.Normal (mkVerification true
                   ("Delivery was " ++ Js.showZ (Js.round latenessMinutes) ++ " minutes late")
                   (Some latenessMinutes) None).

Definition verifyLateDeliveryIssue (now : Z) (orderDetails : option OrderDetails)
    (customerInfo : option CustomerInfo)
  : VerificationResult :=
  Js.tryCatch (verifyLateDeliveryIssue_try now orderDetails customerInfo)
    (fun _ => mkVerification true benefitOfDoubt (Some (Q2Qc 0)) None).

Definition checkRefundEligibility_try (now : Z) (orderDetails : option OrderDetails)
    (customerInfo : option CustomerInfo) (why : string)
  : Js.Completion Eligibility :=
  let! o := Js.deref orderDetails in
  if refunded o then
    Js.Normal (mkEligibility false (Some "Order has already been refunded") None None)
  else
    let daysSinceOrder := Js.elapsed now (orderedAt o) 86400000 in
    if (daysSinceOrder >? Q2Qc (inject_Z config.thresholds.refundEligibilityDays))%Qc then
      Js.Normal (mkEligibility false
                   (Some ("Order is more than "
                            ++ Js.showZ config.thresholds.refundEligibilityDays
                            ++ " days old")) None None)
    else
      let! c := Js.deref customerInfo in
      let refundPercentage :=
        if isPremium (membershipTier c) then 100
        else if (daysSinceOrder >? Q2Qc 3)%Qc then 50
        else if (daysSinceOrder >? Q2Qc 1)%Qc then 75
        else 100 in
      let refundAmount :=
        (totalAmount o * Q2Qc (inject_Z refundPercentage) / Q2Qc 100)%Qc in
      Js.Normal (mkEligibility true None (Some refundAmount) (Some refundPercentage)).

Definition checkRefundEligibility (now : Z) (orderDetails : option OrderDetails)
    (customerInfo : option CustomerInfo) (why : string) : Eligibility :=
  Js.tryCatch (checkRefundEligibility_try now orderDetails customerInfo why)
    (fun _ => mkEligibility false (Some "Error determining eligibility") None None).

(** [lowerCaseItemNames.some(name => item.name.toLowerCase().includes(name))] *)
Definition itemAffected (itemNames : list string) (item : OrderItem) : bool :=
  existsb (fun n => Js.includes (Js.toLowerCase (name item)) n)
          (map Js.toLowerCase itemNames).

(** The accumulator of the [forEach] loop over [orderDetails.items]:
    [totalAmount += item.price * item.quantity].  The sum is exact here; the
    doubles of the code give the same sum when every value the loop computes
    is a whole number up to 2^53 (see [decisions.wholeLines]), and may differ
    from it in the last place otherwise. *)
Definition affectedSum (itemNames : list string) (its : list OrderItem) : Qc :=
  fold_left
    (fun acc item =>
       if itemAffected itemNames item then (acc + price item * quantity item)%Qc else acc)
    its (Q2Qc 0).

Definition calculateAffectedItemsAmount (orderDetails : OrderDetails)
    (itemNames : option (list string)) : Qc :=
  match itemNames with
  | None | Some [] => Q2Qc 0
  | Some names =>
      let total := affectedSum names (items orderDetails) in
      if (Js.eqb total (Q2Qc 0) && Nat.ltb 0 (length names))%bool then
        (totalAmount orderDetails * Q2Qc 0.3)%Qc
      else total
  end.

Definition issueReason (issueType : IssueType) : string :=
  (match issueType with WRONG_ORDER => "Wrong items" | _ => "Missing items" end)
    ++ " in order".

Definition decideSolution_try (now : Z) (issueType : IssueType)
    (orderDetails : option OrderDetails) (customerInfo : option CustomerInfo)
    (entities : option Entities) : Js.Completion Solution :=
  let! o := Js.deref orderDetails in
  let deliveryTime := deliveredAt o in
  let restaurantIsOpen := Z.ltb now (restaurantCloseTime o) in
  let minutesSinceDelivery :=
    match deliveryTime with
    | Some d => Js.elapsed now d 60000
    | None => Q2Qc 0
    end in
  let redeliveryIsPossible :=
    (restaurantIsOpen
     && (minutesSinceDelivery <? config.thresholds.redeliveryWindowMinutes)%Qc)%bool in
  match issueType with
  | WRONG_ORDER | MISSING_ITEM =>
      let! e := Js.deref entities in
      let affectedAmount :=
        match issueType with
        | WRONG_ORDER =>
            match wrongItems e with
            | Some (w :: ws) => calculateAffectedItemsAmount o (Some (w :: ws))
            | _ => totalAmount o
            end
        | _ => calculateAffectedItemsAmount o (missingItems e)
        end in
      if redeliveryIsPossible then
        Js.Normal (mkSolution REDELIVERY affectedAmount (issueReason issueType)
                     None (Some 35))
      else
        let! c := Js.deref customerInfo in
        if isPremium (membershipTier c) then
          let bonus :=
            Js.min (affectedAmount * config.compensationRates.premiumBonus)%Qc
                   config.thresholds.maxBonusAmount in
          Js.Normal (mkSolution CREDIT (affectedAmount + bonus)%Qc
                       (issueReason issueType) (Some bonus) None)
        else
          Js.Normal (mkSolution REFUND affectedAmount (issueReason issueType) None None)
  | LATE_DELIVERY =>
      let! e := Js.deref entities in
      let latenessMinutes :=
        match entity_latenessMinutes e with Some l => l | None => Q2Qc 0 end in
      let compensationRate :=
        if (latenessMinutes >? Q2Qc 60)%Qc then config.compensationRates.veryLate
        else if (latenessMinutes >? Q2Qc 30)%Qc then config.compensationRates.moderatelyLate
        else if (latenessMinutes >? Q2Qc 15)%Qc then config.compensationRates.slightlyLate
        else Q2Qc 0 in
      let compensationAmount :=
        Js.min (totalAmount o * compensationRate)%Qc config.thresholds.maxLateFee in
      if (latenessMinutes >? Q2Qc 90)%Qc then
        Js.Normal (mkSolution REFUND (totalAmount o)
                     ("Extreme delivery delay (" ++ Js.showZ (Js.round latenessMinutes)
                        ++ " minutes late)") None None)
      else
        Js.Normal (mkSolution CREDIT compensationAmount
                     ("Delivery delay (" ++ Js.showZ (Js.round latenessMinutes)
                        ++ " minutes late)") None None)
  | _ =>
      Js.Normal (mkSolution CREDIT
                   (match deliveryFee o with
                    | Some f => if Js.eqb f (Q2Qc 0) then Q2Qc 50 else f
                    | None => Q2Qc 50
                    end)
                   "Compensation for inconvenience" None None)
  end.

Definition decideSolution (now : Z) (issueType : IssueType)
    (orderDetails : option OrderDetails) (customerInfo : option CustomerInfo)
    (entities : option Entities) : Solution :=
  Js.tryCatch (decideSolution_try now issueType orderDetails customerInfo entities)
    (fun _ => mkSolution CREDIT (Q2Qc 100) "Standard compensation" None None).

End decisionEngine.

(** ** Sessions *)

Inductive Status : Type := active | ended.

Record Message : Type := mkMessage {
  role : Role;
  content : string;
  timestamp : Z }.

Record Resolution : Type := mkResolution {
  resolution_type : SolutionType;
  resolution_orderId : string;
  resolution_amount : Qc;
  resolution_timestamp : Z;
  success : bool }.

Record Session : Type := mkSession {
  sessionId : string;
  customerId : string;
  customerInfo : option CustomerInfo;
  orderIds : list string;
  orderDetails : option (list OrderDetails);
  conversationHistory : list Message;
  createdAt : Z;
  lastActivityAt : Z;
  status : Status;
  escalated : bool;
  resolutions : option (list Resolution) }.

(** ** modules/escalationManager.js *)

Module escalationManager.

Definition frustrationIndicators : list string :=
  [ "speak to a human"; "speak to a person"; "talk to a manager";
    "talk to a supervisor"; "this is ridiculous"; "this is unacceptable";
    "unhelpful"; "useless"; "waste of time"; "are you a bot" ].

(** [.filter(msg => msg.role === 'user').map(msg => msg.content.toLowerCase())] *)
Definition userMessages (history : list Message) : list string :=
  map (fun msg => Js.toLowerCase (content msg))
      (List.filter (fun msg => match role msg with user => true | assistant => false end)
                   history).

Definition frustrated (indicators : list string) (message : string) : bool :=
  existsb (fun indicator => Js.includes message indicator) indicators.

(** The [reduce] that counts the messages with a frustration indicator. *)
Definition frustrationCount (indicators : list string) (messages : list string) : nat :=
  fold_left (fun count message =>
               if frustrated indicators message then S count else count)
            messages O.

(** [session.orderDetails && session.orderDetails.length > 0
     && session.orderDetails.some(order => order.totalAmount > highValueOrder)] *)
Definition highValueOrder (details : option (list OrderDetails)) : bool :=
  match details with
  | Some (o :: os) =>
      existsb (fun order => (totalAmount order >? config.thresholds.highValueOrder)%Qc)
              (o :: os)
  | _ => false
  end.

Definition shouldAutoEscalate_try (session : Session) : Js.Completion bool :=
  let! c := Js.deref (customerInfo session) in
  match membershipTier c with
  | PRO_PLUS => Js.Normal true
  | _ =>
      let messages := userMessages (conversationHistory session) in
      if Nat.leb 2 (frustrationCount frustrationIndicators messages) then Js.Normal true
      else if highValueOrder (orderDetails session) then Js.Normal true
      else match resolutions session with
           | Some rs => if Nat.leb 2 (length rs) then Js.Normal true else Js.Normal false
           | None => Js.Normal false
           end
  end.

Definition shouldAutoEscalate (session : Session) : bool :=
  Js.tryCatch (shouldAutoEscalate_try session) (fun _ => false).

Definition determinePriority_try (session : Session) : Js.Completion Priority :=
  let! c := Js.deref (customerInfo session) in
  match membershipTier c with
  | PRO_PLUS => Js.Normal HIGH
  | PRO => Js.Normal HIGH
  | REGULAR =>
      if Nat.ltb 10 (length (conversationHistory session)) then Js.Normal HIGH
      else if highValueOrder (orderDetails session) then Js.Normal HIGH
      else if Z.ltb 3 (complaintFrequency c) then Js.Normal HIGH
      else Js.Normal MEDIUM
  end.

Definition determinePriority (session : Session) : Priority :=
  Js.tryCatch (determinePriority_try session) (fun _ => MEDIUM).

End escalationManager.

(** ** The Express server: session endpoints *)

(** [Number.prototype.toFixed(2)]: two decimals, ties away from zero. *)
Definition toFixed2 (x : Qc) : string :=
  let negative := (x <? Q2Qc 0)%Qc in
  let magnitude := if negative then (- x)%Qc else x in
  let n := Qfloor (magnitude * Q2Qc 100 + Q2Qc (1 # 2))%Qc in
  (if negative then "-" else "")
    ++ Js.showZ (n / 100) ++ "."
    ++ (if Z.ltb (n mod 100) 10 then "0" else "") ++ Js.showZ (n mod 100).

Record Intent : Type := mkIntent {
  intent_type : IssueType;
  confidence : Qc }.

(** The collaborators the endpoints await.  [DB] is the state of the hosted
    database behind [modules/database.js]; every call may reject. *)
Record Collaborators (DB : Type) : Type := mkCollaborators {
  getCustomerInfo : string -> Js.Completion (option CustomerInfo);
  getOrderDetails : Z -> string -> Js.Completion OrderDetails;
  generateWelcomeMessage : Z -> option CustomerInfo -> list OrderDetails -> Js.Completion string;
  detectIntent : string -> Session -> Js.Completion Intent;
  extractEntities : string -> Session -> Js.Completion Entities;
  analyzeSentiment : string -> Js.Completion Qc;
  createSession : DB -> Session -> Js.Completion DB;
  getSession : DB -> string -> Js.Completion (option Session);
  updateSession : DB -> string -> Status -> Js.Completion DB;
  addMessageToSession : DB -> string -> Message -> Js.Completion DB;
  addResolutionToSession : DB -> string -> Resolution -> Js.Completion DB;
  logResolution : DB -> Session -> Resolution -> OrderDetails -> Entities -> Js.Completion DB }.
Arguments getCustomerInfo {DB} _.
Arguments getOrderDetails {DB} _.
Arguments generateWelcomeMessage {DB} _.
Arguments detectIntent {DB} _.
Arguments extractEntities {DB} _.
Arguments analyzeSentiment {DB} _.
Arguments createSession {DB} _.
Arguments getSession {DB} _.
Arguments updateSession {DB} _.
Arguments addMessageToSession {DB} _.
Arguments addResolutionToSession {DB} _.
Arguments logResolution {DB} _.

(** The process-wide state: the registry [sessions] and the database. *)
Record Server (DB : Type) : Type := mkServer {
  sessions : gmap string Session;
  database : DB }.
Arguments mkServer {DB} _ _.
Arguments sessions {DB} _.
Arguments database {DB} _.

Inductive Reply : Type :=
| StartOk (sessionId message : string)
| MessageOk (response : string) (escalated : bool)
| EndOk
| NotFound
| ServerError (error : string) (details : Js.Error).

Definition touch (now : Z) (s : Session) : Session :=
  mkSession (sessionId s) (customerId s) (customerInfo s) (orderIds s) (orderDetails s)
            (conversationHistory s) (createdAt s) now (status s) (escalated s)
            (resolutions s).

Definition pushMessage (m : Message) (s : Session) : Session :=
  mkSession (sessionId s) (customerId s) (customerInfo s) (orderIds s) (orderDetails s)
            (conversationHistory s ++ [m])%list (createdAt s) (lastActivityAt s) (status s)
            (escalated s) (resolutions s).

Definition setEscalated (s : Session) : Session :=
  mkSession (sessionId s) (customerId s) (customerInfo s) (orderIds s) (orderDetails s)
            (conversationHistory s) (createdAt s) (lastActivityAt s) (status s) true
            (resolutions s).

(** [session.resolutions.push(resolution)] *)
Definition pushResolution (r : Resolution) (s : Session) : Js.Completion Session :=
  let! rs := Js.deref (resolutions s) in
  Js.Normal
    (mkSession (sessionId s) (customerId s) (customerInfo s) (orderIds s) (orderDetails s)
               (conversationHistory s) (createdAt s) (lastActivityAt s) (status s)
               (escalated s) (Some (rs ++ [r])%list)).

Definition truthy (s : option string) : option string :=
  match s with
  | Some "" | None => None
  | Some x => Some x
  end.

Module responses.
Definition noRecentOrders : string :=
  "I don't see any recent orders associated with your account. Please provide your order number so I can help you better.".
Definition wrongOrder (o : OrderDetails) : string :=
  "I'm very sorry about the wrong order you received. I've processed a full refund of ₹"
    ++ toFixed2 (totalAmount o) ++ " for your order from " ++ restaurantName o
    ++ ". The refund should be credited back to your original payment method within 3-5 business days. I've also notified the restaurant about this issue to prevent it from happening again. Is there anything else I can help you with today?".
Definition technicalIssue : string :=
  "I apologize, but I'm experiencing a technical issue while processing your request. Please try again in a few moments or contact our customer support team directly.".
Definition missingItem : string :=
  "I understand there are missing items in your order. Let me help you with that. I'll process a refund for the missing items right away. You should receive the refund in your original payment method within 3-5 business days.".
Definition lateDelivery : string :=
  "I'm sorry your delivery was delayed. As compensation, I've added 100 Zomato credits to your account which you can use on your next order. These credits are valid for 3 months.".
Definition refundRequest : string :=
  "I've processed a full refund for your order. The refund should be credited back to your original payment method within 3-5 business days. I apologize for the inconvenience caused.".
Definition escalationRequest : string :=
  "I understand you'd like to speak with a human agent. I'm connecting you with our support team now. A support specialist will join this conversation shortly to assist you further.".
Definition orderStatus : string :=
  "Your order is currently being prepared by the restaurant and should be picked up by our delivery partner soon. The estimated delivery time is 30 minutes from now.".
Definition generalQuery : string :=
  "Thank you for your message. How can I assist you with your Zomato order today?".
End responses.

Module Js_list.
(** [await Promise.all(xs.map(f))]: the first rejection rejects the whole. *)
Fixpoint mapM {A B : Type} (f : A -> Js.Completion B) (xs : list A)
  : Js.Completion (list B) :=
  match xs with
  | [] => Js.Normal []
  | x :: xs' =>
      let! y := f x in
      let! ys := mapM f xs' in
      Js.Normal (y :: ys)
  end.
End Js_list.

Inductive Request : Type :=
| Start (uuid customer : string) (orders : list string)
| Post (session message : string)
| End_ (session : string).

Section Endpoints.

Variable DB : Type.
Variable env : Collaborators DB.

(** [handleWrongOrderIntent(session, entities)]: the database, the session
    object and the response text it leaves. *)
Definition handleWrongOrderIntent (now : Z) (db : DB) (session : Session)
    (entities : Entities) : DB * Session * string :=
  let orderId :=
    match truthy (orderId entities) with
    | Some i => Some i
    | None => hd_error (orderIds session)
    end in
  match truthy orderId with
  | None => (db, session, responses.noRecentOrders)
  | Some orderId =>
      match getOrderDetails env now orderId with
      | Js.Throw _ => (db, session, responses.technicalIssue)
      | Js.Normal details =>
          let resolution := mkResolution REFUND orderId (totalAmount details) now true in
          if config.demoMode then
            match pushResolution resolution session with
            | Js.Throw _ => (db, session, responses.technicalIssue)
            | Js.Normal session' => (db, session', responses.wrongOrder details)
            end
          else
            match addResolutionToSession env db (sessionId session) resolution with
            | Js.Throw _ => (db, session, responses.technicalIssue)
            | Js.Normal db1 =>
                match logResolution env db1 session resolution details entities with
                | Js.Throw _ => (db1, session, responses.technicalIssue)
                | Js.Normal db2 => (db2, session, responses.wrongOrder details)
                end
            end
      end
  end.

(** The [switch (intent.type)] of the message endpoint. *)
Definition respond (now : Z) (db : DB) (session : Session) (intent : Intent)
    (entities : Entities) : DB * Session * string :=
  match intent_type intent with
  | WRONG_ORDER => handleWrongOrderIntent now db session entities
  | MISSING_ITEM => (db, session, responses.missingItem)
  | LATE_DELIVERY => (db, session, responses.lateDelivery)
  | REFUND_REQUEST => (db, session, responses.refundRequest)
  | ESCALATION_REQUEST => (db, setEscalated session, responses.escalationRequest)
  | ORDER_STATUS => (db, session, responses.orderStatus)
  | GENERAL_QUERY | OTHER_INTENT => (db, session, responses.generalQuery)
  end.

(** [detectIntent], [extractEntities] and [analyzeSentiment], in that order. *)
Definition processMessage (message : string) (session : Session)
  : Js.Completion (Intent * Entities) :=
  let! intent := detectIntent env message session in
  let! entities := extractEntities env message session in
  let! sentiment := analyzeSentiment env message in
  Js.Normal (intent, entities).

(** [app.post('/api/conversation/start')]; [uuid] is the value of [uuidv4()]. *)
Definition startConversation (now : Z) (uuid : string) (srv : Server DB)
    (customer : string) (orders : list string) : Server DB * Reply :=
  let failed := ServerError "Failed to start conversation" in
  match (let! info := getCustomerInfo env customer in
         let! details := Js_list.mapM (getOrderDetails env now) orders in
         Js.Normal (info, details)) with
  | Js.Throw e => (srv, failed e)
  | Js.Normal (info, details) =>
      let sessionData :=
        mkSession uuid customer info orders (Some details) [] now now active false
                  (Some []) in
      if config.demoMode then
        let srv1 := mkServer (<[uuid := sessionData]> (sessions srv)) (database srv) in
        match generateWelcomeMessage env now info details with
        | Js.Throw e => (srv1, failed e)
        | Js.Normal welcome =>
            let greeted := pushMessage (mkMessage assistant welcome now) sessionData in
            (mkServer (<[uuid := greeted]> (sessions srv1)) (database srv1),
             StartOk uuid welcome)
        end
      else
        match createSession env (database srv) sessionData with
        | Js.Throw e => (srv, failed e)
        | Js.Normal db1 =>
            match generateWelcomeMessage env now info details with
            | Js.Throw e => (mkServer (sessions srv) db1, failed e)
            | Js.Normal welcome =>
                match addMessageToSession env db1 uuid (mkMessage assistant welcome now) with
                | Js.Throw e => (mkServer (sessions srv) db1, failed e)
                | Js.Normal db2 => (mkServer (sessions srv) db2, StartOk uuid welcome)
                end
            end
        end
  end.

(** [app.post('/api/conversation/message')] *)
Definition postMessage (now : Z) (srv : Server DB) (sessionId message : string)
  : Server DB * Reply :=
  let failed := ServerError "Failed to process message" in
  let userMessage := mkMessage user message now in
  if config.demoMode then
    match Js.getProperty (sessions srv) sessionId with
    | Js.Undefined => (srv, NotFound)
    | Js.Inherited =>
        (* [session.conversationHistory] is undefined: [push] cannot be read *)
        (srv, failed Js.TypeError)
    | Js.Own session =>
        let session1 := pushMessage userMessage (touch now session) in
        match processMessage message session1 with
        | Js.Throw e =>
            (mkServer (<[sessionId := session1]> (sessions srv)) (database srv), failed e)
        | Js.Normal (intent, entities) =>
            let '(db, session2, response) :=
              respond now (database srv) session1 intent entities in
            let session3 := pushMessage (mkMessage assistant response now) session2 in
            (mkServer (<[sessionId := session3]> (sessions srv)) db,
             MessageOk response (escalated session3))
        end
    end
  else
    match getSession env (database srv) sessionId with
    | Js.Throw e => (srv, failed e)
    | Js.Normal None => (srv, NotFound)
    | Js.Normal (Some session) =>
        let session1 := touch now session in
        match addMessageToSession env (database srv) sessionId userMessage with
        | Js.Throw e => (srv, failed e)
        | Js.Normal db1 =>
            match processMessage message session1 with
            | Js.Throw e => (mkServer (sessions srv) db1, failed e)
            | Js.Normal (intent, entities) =>
                let '(db2, session2, response) :=
                  respond now db1 session1 intent entities in
                match addMessageToSession env db2 sessionId
                        (mkMessage assistant response now) with
                | Js.Throw e => (mkServer (sessions srv) db2, failed e)
                | Js.Normal db3 =>
                    (mkServer (sessions srv) db3, MessageOk response (escalated session2))
                end
            end
        end
    end.

(** [app.post('/api/conversation/end')] *)
Definition endConversation (now : Z) (srv : Server DB) (sessionId : string)
  : Server DB * Reply :=
  let failed := ServerError "Failed to end conversation" in
  if config.demoMode then
    match Js.getProperty (sessions srv) sessionId with
    | Js.Undefined => (srv, NotFound)
    | Js.Inherited =>
        (* the log line reads [session.conversationHistory.length] *)
        (srv, failed Js.TypeError)
    | Js.Own session =>
        (* the log line reads [session.resolutions.length] *)
        match Js.deref (resolutions session) with
        | Js.Throw e => (srv, failed e)
        | Js.Normal _ =>
            (mkServer (delete sessionId (sessions srv)) (database srv), EndOk)
        end
    end
  else
    match getSession env (database srv) sessionId with
    | Js.Throw e => (srv, failed e)
    | Js.Normal None => (srv, NotFound)
    | Js.Normal (Some session) =>
        match updateSession env (database srv) sessionId ended with
        | Js.Throw e => (srv, failed e)
        | Js.Normal db1 =>
            match Js.deref (resolutions session) with
            | Js.Throw e => (mkServer (sessions srv) db1, failed e)
            | Js.Normal _ => (mkServer (sessions srv) db1, EndOk)
            end
        end
    end.

Definition handle (now : Z) (srv : Server DB) (request : Request) : Server DB * Reply :=
  match request with
  | Start uuid customer orders => startConversation now uuid srv customer orders
  | Post session message => postMessage now srv session message
  | End_ session => endConversation now srv session
  end.

(** The server after a sequence of timed requests. *)
Definition serve (srv : Server DB) (requests : list (Z * Request)) : Server DB :=
  fold_left (fun s r => fst (handle (fst r) s (snd r))) requests srv.

End Endpoints.

Arguments handleWrongOrderIntent {DB} env now db session entities.
Arguments processMessage {DB} env message session.
Arguments respond {DB} env now db session intent entities.
Arguments startConversation {DB} env now uuid srv customer orders.
Arguments postMessage {DB} env now srv sessionId message.
Arguments endConversation {DB} env now srv sessionId.
Arguments handle {DB} env now srv request.
Arguments serve {DB} env srv requests.

(** ** The specification's wording, for comparison with the code *)

Module spec.

(** The frustration lexicon as the specification lists it. *)
Definition frustrationLexicon : list string :=
  [ "speak to a human"; "talk to a manager"; "talk to a supervisor";
    "ridiculous"; "unacceptable"; "unhelpful"; "useless"; "waste of time";
    "are you a bot" ].

(** "true if any of: tier is PRO_PLUS; count of user messages containing a
    frustration phrase is >= 2; any order in session exceeds the high-value
    threshold; the session already has >= 2 resolutions recorded". *)
Definition shouldAutoEscalate (session : Session) : bool :=
  (match customerInfo session with
   | Some c => match membershipTier c with PRO_PLUS => true | _ => false end
   | None => false
   end)
  || Nat.leb 2 (length (List.filter (escalationManager.frustrated frustrationLexicon)
                          (escalationManager.userMessages (conversationHistory session))))
  || existsb (fun order => (totalAmount order >? Q2Qc 1000)%Qc)
       (match orderDetails session with Some l => l | None => [] end)
  || Nat.leb 2 (length (match resolutions session with Some l => l | None => [] end)).





(** The matched items of the affected-amount helper, by substring. *)
Definition matched (order : OrderDetails) (claimed : list string) : list OrderItem :=
  List.filter (decisionEngine.itemAffected claimed) (items order).

Definition sumItems (its : list OrderItem) : Qc :=
  fold_right (fun item acc => (price item * quantity item + acc)%Qc) (Q2Qc 0) its.

(** "sum unitPrice x quantity over order items whose lowercase name contains
    any claimed lowercase name; if the claim set is non-empty but nothing
    matched, 30% of order.totalAmount; if the claim set is empty, 0". *)
Definition affectedAmount (order : OrderDetails) (claimed : list string) : Qc :=
  match claimed with
  | [] => Q2Qc 0
  | _ =>
      match matched order claimed with
      | [] => (Q2Qc 0.3 * totalAmount order)%Qc
      | its => sumItems its
      end
  end.

(** The claimed items that match an ordered item's name as a substring. *)
Definition plausibleMissing (order : OrderDetails) (claimed : list string) : list string :=
  List.filter
    (fun item =>
       existsb (fun ordered => Js.includes (Js.toLowerCase (name ordered)) (Js.toLowerCase item))
               (items order))
    claimed.

(** The rate table of late-delivery compensation. *)
Definition lateRate (latenessMinutes : Qc) : Qc :=
  if (latenessMinutes >? Q2Qc 60)%Qc then Q2Qc 0.3
  else if (latenessMinutes >? Q2Qc 30)%Qc then Q2Qc 0.2
  else if (latenessMinutes >? Q2Qc 15)%Qc then Q2Qc 0.1
  else Q2Qc 0.

End spec.

(** ** Concrete sessions, orders and collaborators *)

Module examples.

Definition regular : CustomerInfo :=
  mkCustomer "cust_12345" "Rahul Sharma" REGULAR (Q2Qc 0.5) 1.

Definition proPlus : CustomerInfo :=
  mkCustomer "cust_12347" "Amit Singh" PRO_PLUS (Q2Qc 0.1) 0.

(** Ordered at 0, promised for minute 20, delivered at minute 30. *)
Definition pizzaOrder : OrderDetails :=
  mkOrder "order_67890" "rest_3" "Domino's"
          [ mkItem "Margherita Pizza" (Q2Qc 299) (Q2Qc 1) ]
          (Q2Qc 500) (Some (Q2Qc 49)) 0 1200000 (Some 1800000) 18000000 false false.

(** A flagged order, delivered on time at minute 20. *)
Definition flaggedOrder : OrderDetails :=
  mkOrder "order_67891" "rest_3" "Domino's"
          [ mkItem "Margherita Pizza" (Q2Qc 299) (Q2Qc 1) ]
          (Q2Qc 500) (Some (Q2Qc 49)) 0 1200000 (Some 1200000) 18000000 true false.

(** Promised for minute 20, delivered 4.6 minutes later. *)
Definition slightlyLateOrder : OrderDetails :=
  mkOrder "order_67893" "rest_3" "Domino's"
          [ mkItem "Margherita Pizza" (Q2Qc 299) (Q2Qc 1) ]
          (Q2Qc 500) (Some (Q2Qc 49)) 0 1200000 (Some 1476000) 18000000 false false.

(** Three days after [flaggedOrder] was delivered. *)
Definition threeDaysLater : Z := 1200000 + 3 * 86400000.

(** An order with a complimentary item. *)
Definition orderWithFreeDip : OrderDetails :=
  mkOrder "order_67892" "rest_3" "Domino's"
          [ mkItem "Margherita Pizza" (Q2Qc 299) (Q2Qc 1);
            mkItem "Garlic Dip" (Q2Qc 0) (Q2Qc 1) ]
          (Q2Qc 500) (Some (Q2Qc 49)) 0 1200000 (Some 1800000) 18000000 false false.

Definition noEntities : Entities := mkEntities None (Some []) (Some []) [] None None.

Definition session (customer : CustomerInfo) (history : list Message) : Session :=
  mkSession "session-1" (customer_id customer) (Some customer) [ "order_67890" ]
            (Some [ pizzaOrder ]) history 0 0 active false (Some []).

Definition said (text : string) : Message := mkMessage user text 0.

Definition pizzaMissing : Entities :=
  mkEntities None (Some []) (Some [ "Margherita Pizza" ]) [] None None.

(** Collaborators that classify every message as [issue], extract [entities]
    from it, and know one order. *)
Definition collaborators (issue : IssueType) (entities : Entities) : Collaborators unit :=
  mkCollaborators unit
    (fun _ => Js.Normal (Some regular))
    (fun _ _ => Js.Normal pizzaOrder)
    (fun _ _ _ => Js.Normal "Hello")
    (fun _ _ => Js.Normal (mkIntent issue (Q2Qc 0.9)))
    (fun _ _ => Js.Normal entities)
    (fun _ => Js.Normal (Q2Qc 0))
    (fun db _ => Js.Normal db)
    (fun _ _ => Js.Normal None)
    (fun db _ _ => Js.Normal db)
    (fun db _ _ => Js.Normal db)
    (fun db _ _ => Js.Normal db)
    (fun db _ _ _ _ => Js.Normal db).

Definition server : Server unit :=
  mkServer {[ "session-1" := session regular [] ]} tt.

(** Two user turns with frustration indicators, around an assistant turn. *)
Definition frustratedSession : Session :=
  session regular
    [ said "I want to SPEAK TO A HUMAN";
      mkMessage assistant "How can I help?" 0;
      said "this is a waste of time" ].

Definition annoyedOnce : Session :=
  session regular [ said "this is ridiculous" ].

(** Phrases of the specification's lexicon that the code does not list. *)
Definition specPhrasesOnly : Session :=
  session regular
    [ said "This is simply ridiculous"; said "Totally unacceptable service" ].

(** A phrase the code lists and the specification does not. *)
Definition codePhraseOnly : Session :=
  session regular
    [ said "Let me speak to a person"; said "I said: speak to a person!" ].

(** A session whose customer record is missing. *)
Definition orphanSession : Session :=
  mkSession "session-2" "cust_0" None [] (Some [ pizzaOrder; pizzaOrder ]) [] 0 0
            active false (Some []).

End examples.

(** ** Names for parts of [decideSolution], used to state its properties *)

Module decisions.

(** [restaurantIsOpen && minutesSinceDelivery < redeliveryWindowMinutes], where
    an order without [deliveredAt] counts zero minutes. *)
Definition redeliveryIsPossible (now : Z) (o : OrderDetails) : bool :=
  (Z.ltb now (restaurantCloseTime o)
   && (match deliveredAt o with
       | Some d => Js.elapsed now d 60000
       | None => Q2Qc 0
       end <? config.thresholds.redeliveryWindowMinutes)%Qc)%bool.

(** The local [affectedAmount] of the WRONG_ORDER / MISSING_ITEM branch. *)
Definition affectedAmount (issueType : IssueType) (o : OrderDetails) (e : Entities) : Qc :=
  match issueType with
  | WRONG_ORDER =>
      match wrongItems e with
      | Some (w :: ws) => decisionEngine.calculateAffectedItemsAmount o (Some (w :: ws))
      | _ => totalAmount o
      end
  | _ => decisionEngine.calculateAffectedItemsAmount o (missingItems e)
  end.

(** Every order line has a non-negative value. *)
Definition linesNonNegative (o : OrderDetails) : Prop :=
  Forall (fun item => (Q2Qc 0 <= price item * quantity item)%Qc) (items o).

(** The order lines sum to no more than the order total (which also carries
    taxes and fees). *)
Definition linesWithinTotal (o : OrderDetails) : Prop :=
  (spec.sumItems (items o) <= totalAmount o)%Qc.

(** A whole number. *)
Definition isWhole (x : Qc) : bool := Pos.eqb (Qden x) 1.

(** The order is priced in whole units: every price and quantity is a whole
    number. *)
Definition wholeLines (o : OrderDetails) : Prop :=
  Forall (fun item => isWhole (price item) = true /\ isWhole (quantity item) = true)
         (items o).

(** 2^53: up to it every whole number is a double, and sums and products of
    whole numbers that stay within it are computed exactly. *)
Definition exactRange : Qc := Q2Qc (inject_Z (2 ^ 53)).

End decisions.

(** ** Relations between the states of a session, used to state invariants *)

Module lifecycle.

(** The session a request is addressed to. *)
Definition target (request : Request) : string :=
  match request with
  | Start uuid _ _ => uuid
  | Post session _ => session
  | End_ session => session
  end.

(** [l'] continues [l]: nothing removed, nothing reordered, nothing edited. *)
Definition continues {A : Type} (l l' : list A) : Prop :=
  exists more, l' = (l ++ more)%list.

(** [s'] is a later state of the session [s]: its identity and context are
    those of [s], both logs continue those of [s], the status is unchanged and
    the escalation flag has not been taken back. *)
Definition laterStateOf (s s' : Session) : Prop :=
  sessionId s' = sessionId s
  /\ customerId s' = customerId s
  /\ customerInfo s' = customerInfo s
  /\ orderIds s' = orderIds s
  /\ orderDetails s' = orderDetails s
  /\ createdAt s' = createdAt s
  /\ status s' = status s
  /\ continues (conversationHistory s) (conversationHistory s')
  /\ match resolutions s with
     | Some rs => exists more, resolutions s' = Some (rs ++ more)%list
     | None => resolutions s' = None
     end
  /\ (escalated s = true -> escalated s' = true).

End lifecycle.

(** ** modules/orderManager.js: the demo-mode order source *)

Module orderManager.

Inductive OrderStatus : Type :=
| CONFIRMED | PREPARING | READY_FOR_PICKUP | IN_TRANSIT | DELIVERED.

Definition isDigit (c : ascii) : bool :=
  let n := nat_of_ascii c in (Nat.leb 48 n && Nat.leb n 57)%bool.

(** [orderId.replace(/\D/g, '')], as the list of digit values. *)
Fixpoint digitsOf (s : string) : list Z :=
  match s with
  | EmptyString => []
  | String c s' =>
      if isDigit c then (Z.of_nat (nat_of_ascii c) - 48) :: digitsOf s' else digitsOf s'
  end.

(** [parseInt(digits) || 12345]: no digit gives [NaN], which like [0] is
    falsy.  (Numbers are exact here; a double is, up to 2^53.) *)
Definition orderIdNum (orderId : string) : Z :=
  match digitsOf orderId with
  | [] => 12345
  | ds =>
      let n := fold_left (fun acc d => acc * 10 + d) ds 0 in
      if Z.eqb n 0 then 12345 else n
  end.

Definition statusOptions : list OrderStatus :=
  [ CONFIRMED; PREPARING; READY_FOR_PICKUP; IN_TRANSIT; DELIVERED ].

Definition restaurants : list string :=
  [ "Taco Bell"; "McDonald's"; "Pizza Hut"; "Domino's";
    "Subway"; "KFC"; "Burger King"; "Starbucks" ].

(** The [switch (restaurantName)] that picks the items. *)
Definition menu (restaurantName : string) : list OrderItem :=
  if String.eqb restaurantName "Taco Bell" then
    [ mkItem "Crunchwrap Supreme" (Q2Qc 199) (Q2Qc 1);
      mkItem "Nachos BellGrande" (Q2Qc 179) (Q2Qc 1);
      mkItem "Soft Taco" (Q2Qc 129) (Q2Qc 2) ]
  else if String.eqb restaurantName "McDonald's" then
    [ mkItem "Big Mac" (Q2Qc 189) (Q2Qc 1);
      mkItem "McChicken" (Q2Qc 159) (Q2Qc 1);
      mkItem "French Fries (Large)" (Q2Qc 99) (Q2Qc 1);
      mkItem "Coca-Cola (Medium)" (Q2Qc 79) (Q2Qc 2) ]
  else if String.eqb restaurantName "Pizza Hut" then
    [ mkItem "Pepperoni Pizza (Medium)" (Q2Qc 349) (Q2Qc 1);
      mkItem "Garlic Breadsticks" (Q2Qc 129) (Q2Qc 1);
      mkItem "Sprite (Large)" (Q2Qc 89) (Q2Qc 1) ]
  else if String.eqb restaurantName "Domino's" then
    [ mkItem "Margherita Pizza (Large)" (Q2Qc 299) (Q2Qc 1);
      mkItem "Chicken Wings" (Q2Qc 249) (Q2Qc 1);
      mkItem "Chocolate Lava Cake" (Q2Qc 99) (Q2Qc 2) ]
  else
    [ mkItem "Specialty Item 1" (Q2Qc 199) (Q2Qc 1);
      mkItem "Specialty Item 2" (Q2Qc 149) (Q2Qc 2);
      mkItem "Beverage" (Q2Qc 79) (Q2Qc 1) ].

(** What [getMockOrderDetails] returns: the fields of [OrderDetails], and the
    status, subtotal and taxes beside them.  (The customer id, payment,
    address and delivery partner of the mock record are constants that no
    rule reads.) *)
Record MockOrder : Type := mkMockOrder {
  details : OrderDetails;
  order_status : OrderStatus;
  subtotal : Qc;
  taxes : Z }.

Definition getMockOrderDetails (now : Z) (orderId : string) : MockOrder :=
  let num := orderIdNum orderId in
  let statusIndex := num mod 5 in
  let status := nth (Z.to_nat statusIndex) statusOptions CONFIRMED in
  let orderedAt := now - 60 * 60 * 1000 in
  let estimatedDeliveryTime := now + 20 * 60 * 1000 in
  let deliveredAt :=
    match status with
    | DELIVERED => Some (now - 10 * 60 * 1000)
    | _ => None
    end in
  let restaurantIndex := num mod 8 in
  let restaurantName := nth (Z.to_nat restaurantIndex) restaurants "" in
  let items := menu restaurantName in
  let totalAmount :=
    fold_left (fun total item => (total + price item * quantity item)%Qc) items (Q2Qc 0) in
  let taxes := Js.round (totalAmount * Q2Qc 0.05)%Qc in
  let deliveryFee := Q2Qc 49 in
  let grandTotal := (totalAmount + Q2Qc (inject_Z taxes) + deliveryFee)%Qc in
  mkMockOrder
    (mkOrder orderId ("rest_" ++ Js.showZ restaurantIndex) restaurantName items
             grandTotal (Some deliveryFee) orderedAt estimatedDeliveryTime deliveredAt
             (now + 5 * 60 * 60 * 1000) false false)
    status totalAmount taxes.

End orderManager.

(** ** modules/conversationManager.js: answers to a rejection *)

Module conversationManager.

Module texts.
Definition tooLate : string :=
  "I apologize, but I'm unable to process this request as it's been too long since the order was delivered. For food quality and accuracy issues, we require customers to report them within 60 minutes of delivery. Is there anything else I can help you with today?".
Definition underReview : string :=
  "I'm unable to process this request automatically at this time. I'm escalating this to our support team for further review, and someone will contact you shortly. Thank you for your patience.".
Definition itemsNotFound : string :=
  "I've checked your order details, and I don't see the items you mentioned in your original order. Could you please confirm which items from your order are missing so I can help you better?".
Definition cannotVerify : string :=
  "I'm unable to verify this issue automatically. Could you please provide more details about the problem you're experiencing with your order? This will help me assist you better.".
Definition alreadyRefunded : string :=
  "I checked our records and found that a refund for this order has already been processed. It can take 3-5 business days for the refund to appear in your account, depending on your bank's processing times. If you haven't received it after 5 business days, please let me know.".
Definition pastRefundPeriod : string :=
  "I apologize, but I'm unable to process a refund for this order as it exceeds our refund eligibility period. Our policy allows refunds for orders placed within the last 7 days. If you'd like to discuss this further, I can connect you with our support team.".
Definition refundUnderReview : string :=
  "I'm unable to process your refund request automatically at this time. I'm escalating this to our support team for further review, and someone will contact you shortly. Thank you for your patience.".
End texts.

(** [generateVerificationFailedResponse(reason)]: compares with [===] only, so
    it answers for every reason, a missing one included. *)
Definition generateVerificationFailedResponse (reason : option string) : string :=
  match reason with
  | Some r =>
      if String.eqb r "Complaint received too long after delivery" then texts.tooLate
      else if String.eqb r "Customer risk score exceeds threshold" then texts.underReview
      else if String.eqb r "Claimed missing items were not in the original order"
           then texts.itemsNotFound
      else texts.cannotVerify
  | None => texts.cannotVerify
  end.

(** [generateRefundRejectionResponse(reason)]: the second test calls
    [reason.includes], which cannot be read off a missing reason. *)
Definition generateRefundRejectionResponse (reason : option string)
  : Js.Completion string :=
  match reason with
  | Some r =>
      if String.eqb r "Order has already been refunded" then Js.Normal texts.alreadyRefunded
      else if Js.includes r "Order is more than" then Js.Normal texts.pastRefundPeriod
      else Js.Normal texts.refundUnderReview
  | None => Js.Throw Js.TypeError
  end.

End conversationManager.

(** ** utilities/logger.js *)

Module logger.

(** What [levels[name] || 1] can be: a number, or (for a name that every
    object inherits) a built-in object, which compares as [NaN]. *)
Inductive LevelValue : Type :=
| Level (n : Z)
| NotANumber.

Definition levels : list (string * Z) :=
  [ ("debug", 0); ("info", 1); ("warn", 2); ("error", 3) ].

Fixpoint lookupLevel (name : string) (table : list (string * Z)) : option Z :=
  match table with
  | [] => None
  | (k, v) :: rest => if String.eqb name k then Some v else lookupLevel name rest
  end.

(** [_getLogLevelValue(level)]: [levels[level.toLowerCase()] || 1]. *)
Definition getLogLevelValue (level : string) : LevelValue :=
  let name := Js.toLowerCase level in
  match lookupLevel name levels with
  | Some n => if Z.eqb n 0 then Level 1 else Level n
  | None => if Js.inheritedKey name then NotANumber else Level 1
  end.

(** [_getLogLevel()], for the configured level name ([undefined] or empty
    when the configuration names none). *)
Definition getLogLevel (configured : option string) : LevelValue :=
  match configured with
  | Some "" | None => getLogLevelValue "info"
  | Some level => getLogLevelValue (Js.toLowerCase level)
  end.

(** [a >= b] on what the level values can be. *)
Definition geq (a b : LevelValue) : bool :=
  match a, b with
  | Level x, Level y => Z.leb y x
  | _, _ => false
  end.

Record Logger : Type := mkLogger {
  logLevel : LevelValue;
  destination : string }.

(** [_writeLog(entry)]: what is printed on the console. *)
Definition writeLog (lg : Logger) (entry : string) (console : list string) : list string :=
  if String.eqb (destination lg) "console" then (console ++ [ entry ])%list
  else if String.eqb (destination lg) "file"
       then (console ++ [ String.append "[FILE] " entry ])%list
  else if String.eqb (destination lg) "service"
       then (console ++ [ String.append "[SERVICE] " entry ])%list
  else console.

(** The guard of the four logging methods:
    [this._getLogLevelValue(level) >= this.logLevel]. *)
Definition enabled (lg : Logger) (level : string) : bool :=
  geq (getLogLevelValue level) (logLevel lg).

(** The body shared by the four logging methods; [entry] is the formatted
    entry. *)
Definition log (lg : Logger) (level : string) (entry : string) (console : list string)
  : list string :=
  if enabled lg level then writeLog lg entry console else console.

Definition debug (lg : Logger) := log lg "debug".
Definition info (lg : Logger) := log lg "info".
Definition warn (lg : Logger) := log lg "warn".
Definition error (lg : Logger) := log lg "error".

(** [new Logger()], for the configured level name and destination. *)
Definition create (configuredLevel : option string) (configuredDestination : string)
  : Logger :=
  mkLogger (getLogLevel configuredLevel)
           (if String.eqb configuredDestination "" then "console"
            else configuredDestination).

End logger.

(** * Properties *)

(** ** Facts about the JavaScript layer *)

Lemma gtb_true (x y : Qc) : (x >? y)%Qc = true <-> (y < x)%Qc.
Proof.
  unfold Js.gtb. rewrite (Qcgt_alt x y).
  destruct (x ?= y)%Qc; split; congruence.
Qed.

Lemma gtb_false (x y : Qc) : (x >? y)%Qc = false <-> (x <= y)%Qc.
Proof.
  unfold Js.gtb. rewrite Qcle_alt.
  destruct (x ?= y)%Qc; split; congruence.
Qed.

Lemma ltb_true (x y : Qc) : (x <? y)%Qc = true <-> (x < y)%Qc.
Proof.
  unfold Js.ltb. rewrite Qclt_alt.
  destruct (x ?= y)%Qc; split; congruence.
Qed.

Lemma ltb_false (x y : Qc) : (x <? y)%Qc = false <-> (y <= x)%Qc.
Proof.
  rewrite <- not_true_iff_false, ltb_true. split.
  - apply Qcnot_lt_le.
  - apply Qcle_not_lt.
Qed.

Lemma leb_true (x y : Qc) : (x <=? y)%Qc = true <-> (x <= y)%Qc.
Proof.
  unfold Js.leb. rewrite Qcle_alt.
  destruct (x ?= y)%Qc; split; congruence.
Qed.

Lemma leb_false (x y : Qc) : (x <=? y)%Qc = false <-> (y < x)%Qc.
Proof.
  rewrite <- not_true_iff_false, leb_true. split.
  - apply Qcnot_le_lt.
  - apply Qclt_not_le.
Qed.

Lemma eqb_true (x y : Qc) : Js.eqb x y = true <-> x = y.
Proof.
  unfold Js.eqb. rewrite Qceq_alt.
  destruct (x ?= y)%Qc; split; congruence.
Qed.

(** [Math.min] returns one of its arguments, below both. *)
Lemma min_spec (x y : Qc) :
  (Js.min x y <= x)%Qc /\ (Js.min x y <= y)%Qc /\ (Js.min x y = x \/ Js.min x y = y).
Proof.
  unfold Js.min. destruct (y <? x)%Qc eqn:E.
  - apply ltb_true in E. repeat split.
    + now apply Qclt_le_weak.
    + apply Qcle_refl.
    + now right.
  - apply ltb_false in E. repeat split.
    + apply Qcle_refl.
    + exact E.
    + now left.
Qed.

Lemma tryCatch_throws {A : Type} (body : Js.Completion A) (handler : Js.Error -> A) (a : A) :
  Js.throws body -> (forall e, handler e = a) -> Js.tryCatch body handler = a.
Proof.
  intros [e ->] Hh. simpl. apply Hh.
Qed.

Lemma prefix_refl (s : string) : String.prefix s s = true.
Proof.
  induction s as [|c s IH]; simpl; [reflexivity|].
  destruct (ascii_dec c c); [exact IH | congruence].
Qed.

(** A string includes itself, so equal names also match as substrings. *)
Lemma includes_refl (s : string) : Js.includes s s = true.
Proof.
  destruct s; simpl.
  - reflexivity.
  - destruct (ascii_dec a a); [|congruence]. now rewrite prefix_refl.
Qed.

(** ** Fail-open verification, fail-closed escalation and eligibility *)

Section Faults.

Import decisionEngine escalationManager.

(** Where the [try] block of [verifyWrongOrderIssue] can fault: on a missing
    order, or on a missing customer once the order is not flagged. *)
Lemma verifyWrongOrderIssue_throws_iff now od w c :
  Js.throws (verifyWrongOrderIssue_try now od w c) <->
  od = None \/ (exists o, od = Some o /\ problemFlag o = false /\ c = None).
Proof.
  unfold verifyWrongOrderIssue_try, Js.throws. split.
  - intros [e He]. destruct od as [o|]; [|now left]. right. exists o.
    simpl in He. destruct (problemFlag o); [discriminate|].
    destruct c as [c|]; [|easy]. simpl in He.
    repeat match type of He with
           | (if ?b then _ else _) = _ => destruct b
           end; discriminate.
  - intros [-> | (o & -> & Hf & ->)]; simpl.
    + now exists Js.TypeError.
    + rewrite Hf. now exists Js.TypeError.
Qed.

(** [verifyMissingItemIssue] also reads the claim list, and reaches the
    customer only past the item check and the flag. *)
Lemma verifyMissingItemIssue_throws_iff now od missing c :
  Js.throws (verifyMissingItemIssue_try now od missing c) <->
  od = None \/ missing = None
  \/ (exists o claimed,
        od = Some o /\ missing = Some claimed
        /\ (claimed = [] \/ validMissing o claimed <> [])
        /\ problemFlag o = false /\ c = None).
Proof.
  unfold verifyMissingItemIssue_try, Js.throws. split.
  - intros [e He]. destruct od as [o|]; [|now left].
    destruct missing as [claimed|]; [|right; now left].
    right. right. exists o, claimed. simpl in He.
    destruct (validMissing o claimed) as [|v vs] eqn:Hv, claimed as [|x xs];
      simpl in He; try discriminate.
    all: destruct (problemFlag o); [discriminate|].
    all: destruct c as [c|]; [|repeat split; auto; right; congruence].
    all: simpl in He.
    all: repeat match type of He with
                | (if ?b then _ else _) = _ => destruct b
                end; discriminate.
  - intros [-> | [-> | (o & claimed & -> & -> & Hitems & Hf & ->)]]; simpl.
    + now exists Js.TypeError.
    + destruct od; now exists Js.TypeError.
    + assert (Hgate : (Nat.eqb (length (validMissing o claimed)) 0
                       && Nat.ltb 0 (length claimed))%bool = false).
      { destruct Hitems as [-> | Hv]; [reflexivity|].
        destruct (validMissing o claimed); [congruence | reflexivity]. }
      rewrite Hgate, Hf. now exists Js.TypeError.
Qed.

(** [verifyLateDeliveryIssue] reads the order only. *)
Lemma verifyLateDeliveryIssue_throws_iff now od c :
  Js.throws (verifyLateDeliveryIssue_try now od c) <-> od = None.
Proof.
  unfold verifyLateDeliveryIssue_try, Js.throws. split.
  - intros [e He]. destruct od as [o|]; [|reflexivity]. simpl in He.
    repeat match type of He with
           | (if ?b then _ else _) = _ => destruct b
           end; discriminate.
  - intros ->. now exists Js.TypeError.
Qed.

(** C4. Whenever the body of a verify operation faults (for WRONG_ORDER,
    MISSING_ITEM or LATE_DELIVERY), the operation still returns a result, with
    [verified = true] and the benefit-of-the-doubt reason: the fault is neither
    propagated nor turned into a rejection. *)
Theorem verification_fails_open (now : Z) (od : option OrderDetails)
    (wrong missing : option (list string)) (c : option CustomerInfo) :
  (Js.throws (verifyWrongOrderIssue_try now od wrong c) ->
   verifyWrongOrderIssue now od wrong c = mkVerification true benefitOfDoubt None None)
  /\ (Js.throws (verifyMissingItemIssue_try now od missing c) ->
      verifyMissingItemIssue now od missing c
      = mkVerification true benefitOfDoubt None None)
  /\ (Js.throws (verifyLateDeliveryIssue_try now od c) ->
      verifyLateDeliveryIssue now od c
      = mkVerification true benefitOfDoubt (Some (Q2Qc 0)) None).
Proof.
  repeat split; intros H.
  - unfold verifyWrongOrderIssue. now apply tryCatch_throws.
  - unfold verifyMissingItemIssue. now apply tryCatch_throws.
  - unfold verifyLateDeliveryIssue. now apply tryCatch_throws.
Qed.

Lemma verification_fails_open_witness :
  Js.throws (verifyWrongOrderIssue_try 0 None None None)
  /\ Js.throws (verifyMissingItemIssue_try 0 None None None)
  /\ Js.throws (verifyLateDeliveryIssue_try 0 None None)
  /\ verified (verifyWrongOrderIssue 0 None None None) = true
  /\ verified (verifyMissingItemIssue 0 None None None) = true
  /\ verified (verifyLateDeliveryIssue 0 None None) = true.
Proof.
  assert (T1 : Js.throws (verifyWrongOrderIssue_try 0 None None None))
    by (exists Js.TypeError; reflexivity).
  assert (T2 : Js.throws (verifyMissingItemIssue_try 0 None None None))
    by (exists Js.TypeError; reflexivity).
  assert (T3 : Js.throws (verifyLateDeliveryIssue_try 0 None None))
    by (exists Js.TypeError; reflexivity).
  destruct (verification_fails_open 0 None None None None) as (H1 & H2 & H3).
  split; [exact T1|]. split; [exact T2|]. split; [exact T3|].
  split; [now rewrite (H1 T1)|]. split; [now rewrite (H2 T2)|]. now rewrite (H3 T3).
Defined.

(** C10. Whenever its body faults, [shouldAutoEscalate] answers [false],
    [determinePriority] answers [MEDIUM] and [checkRefundEligibility] answers
    [eligible = false]: no escalation and no refund on error. *)
Theorem escalation_and_eligibility_fail_closed (now : Z) (session : Session)
    (od : option OrderDetails) (c : option CustomerInfo) (why : string) :
  (Js.throws (shouldAutoEscalate_try session) -> shouldAutoEscalate session = false)
  /\ (Js.throws (determinePriority_try session) -> determinePriority session = MEDIUM)
  /\ (Js.throws (checkRefundEligibility_try now od c why) ->
      checkRefundEligibility now od c why
      = mkEligibility false (Some "Error determining eligibility") None None).
Proof.
  repeat split; intros H.
  - unfold shouldAutoEscalate. now apply tryCatch_throws.
  - unfold determinePriority. now apply tryCatch_throws.
  - unfold checkRefundEligibility. now apply tryCatch_throws.
Qed.

Lemma escalation_and_eligibility_fail_closed_witness :
  Js.throws (shouldAutoEscalate_try examples.orphanSession)
  /\ Js.throws (determinePriority_try examples.orphanSession)
  /\ Js.throws (checkRefundEligibility_try 3600000 (Some examples.pizzaOrder) None "late")
  /\ shouldAutoEscalate examples.orphanSession = false
  /\ determinePriority examples.orphanSession = MEDIUM
  /\ eligible (checkRefundEligibility 3600000 (Some examples.pizzaOrder) None "late") = false.
Proof.
  assert (T1 : Js.throws (shouldAutoEscalate_try examples.orphanSession))
    by (exists Js.TypeError; reflexivity).
  assert (T2 : Js.throws (determinePriority_try examples.orphanSession))
    by (exists Js.TypeError; reflexivity).
  assert (T3 : Js.throws
                 (checkRefundEligibility_try 3600000 (Some examples.pizzaOrder) None "late"))
    by (exists Js.TypeError; reflexivity).
  destruct (escalation_and_eligibility_fail_closed 3600000 examples.orphanSession
              (Some examples.pizzaOrder) None "late") as (H1 & H2 & H3).
  split; [exact T1|]. split; [exact T2|]. split; [exact T3|].
  split; [exact (H1 T1)|]. split; [exact (H2 T2)|]. now rewrite (H3 T3).
Defined.

End Faults.

(** ** Verification *)

Section Verification.

Import decisionEngine.

(** When no claimed item passes the "were actually ordered" test, a
    non-empty claim is rejected before any other rule is looked at. *)
Lemma missing_item_none_valid now o claimed c :
  claimed <> [] -> validMissing o claimed = [] ->
  verifyMissingItemIssue now (Some o) (Some claimed) c
  = mkVerification false "Claimed missing items were not in the original order" None None.
Proof.
  intros Hne Hnil. unfold verifyMissingItemIssue, verifyMissingItemIssue_try. simpl.
  rewrite Hnil. destruct claimed; [congruence | reflexivity].
Qed.

(** A name that equals an ordered name also occurs in it. *)
Lemma arrayIncludes_substring (its : list OrderItem) (x : string) :
  Js.arrayIncludes (map (fun item => Js.toLowerCase (name item)) its) x = true ->
  existsb (fun ordered => Js.includes (Js.toLowerCase (name ordered)) x) its = true.
Proof.
  unfold Js.arrayIncludes. induction its as [|it its IH]; simpl; [easy|].
  intros H. apply orb_true_iff in H. apply orb_true_iff. destruct H as [H|H].
  - left. apply String.eqb_eq in H. subst x. apply includes_refl.
  - right. now apply IH.
Qed.

Lemma validMissing_plausible o claimed :
  spec.plausibleMissing o claimed = [] -> validMissing o claimed = [].
Proof.
  unfold spec.plausibleMissing, validMissing.
  induction claimed as [|x xs IH]; simpl; [easy|].
  destruct (existsb _ (items o)) eqn:E; [discriminate|]. intros H.
  destruct (Js.arrayIncludes _ (Js.toLowerCase x)) eqn:A.
  - apply arrayIncludes_substring in A. congruence.
  - now apply IH.
Qed.

(** The rejection half of the item-plausibility rule: a non-empty claim none
    of whose names occurs in an ordered name is rejected. *)
Lemma missing_item_unmatched_rejected now o claimed c :
  claimed <> [] -> spec.plausibleMissing o claimed = [] ->
  verifyMissingItemIssue now (Some o) (Some claimed) c
  = mkVerification false "Claimed missing items were not in the original order" None None.
Proof.
  intros Hne Hnil. apply missing_item_none_valid; [assumption|].
  now apply validMissing_plausible.
Qed.

(** C2 (as the code has it). A flagged order or a PRO / PRO_PLUS customer is
    verified for WRONG_ORDER whatever the delivery time and the risk score.
    For MISSING_ITEM the item check comes before the shortcut: with no
    claimed item, or a claimed item that is the name of an ordered one (up to
    case), the shortcut applies; a non-empty claim none of whose names occurs
    in the name of any ordered item is rejected all the same.  LATE_DELIVERY
    has no shortcut: its result is fixed by the promised and the actual
    delivery time alone, whatever the flag and the customer. *)
Theorem trust_shortcuts (now : Z) (o : OrderDetails) (c : CustomerInfo)
    (wrong : option (list string)) (claimed : list string)
    (o' : OrderDetails) (c' : option CustomerInfo) :
  problemFlag o = true \/ isPremium (membershipTier c) = true ->
  verified (verifyWrongOrderIssue now (Some o) wrong (Some c)) = true
  /\ (claimed = [] \/ validMissing o claimed <> [] ->
      verified (verifyMissingItemIssue now (Some o) (Some claimed) (Some c)) = true)
  /\ (claimed <> [] -> spec.plausibleMissing o claimed = [] ->
      verified (verifyMissingItemIssue now (Some o) (Some claimed) (Some c)) = false)
  /\ (estimatedDeliveryTime o' = estimatedDeliveryTime o ->
      deliveredAt o' = deliveredAt o ->
      verifyLateDeliveryIssue now (Some o) (Some c)
      = verifyLateDeliveryIssue now (Some o') c').
Proof.
  intros Htrust. repeat apply conj.
  - unfold verifyWrongOrderIssue, verifyWrongOrderIssue_try. simpl.
    destruct (problemFlag o); [reflexivity|]. simpl.
    destruct Htrust as [Hf|Hp]; [discriminate|]. now rewrite Hp.
  - intros Hitems.
    unfold verifyMissingItemIssue, verifyMissingItemIssue_try. simpl.
    assert (Hgate : (Nat.eqb (length (validMissing o claimed)) 0
                     && Nat.ltb 0 (length claimed))%bool = false).
    { destruct Hitems as [-> | Hv]; [reflexivity|].
      destruct (validMissing o claimed); [congruence | reflexivity]. }
    rewrite Hgate.
    destruct (problemFlag o); [reflexivity|]. simpl.
    destruct Htrust as [Hf|Hp]; [discriminate|]. now rewrite Hp.
  - intros Hne Hnil. now rewrite missing_item_unmatched_rejected.
  - intros He Hd. unfold verifyLateDeliveryIssue, verifyLateDeliveryIssue_try, lateness.
    simpl. now rewrite He, Hd.
Qed.

Lemma trust_shortcuts_witness :
  isPremium (membershipTier examples.proPlus) = true
  /\ verified (verifyWrongOrderIssue examples.threeDaysLater (Some examples.pizzaOrder)
                 None (Some examples.proPlus)) = true
  /\ verified (verifyMissingItemIssue examples.threeDaysLater (Some examples.pizzaOrder)
                 (Some [ "margherita PIZZA" ]) (Some examples.proPlus)) = true.
Proof.
  assert (Hp : isPremium (membershipTier examples.proPlus) = true) by reflexivity.
  destruct (trust_shortcuts examples.threeDaysLater examples.pizzaOrder examples.proPlus
              None [ "margherita PIZZA" ] examples.pizzaOrder None (or_intror Hp))
    as (H1 & H2 & _ & _).
  split; [exact Hp|]. split; [exact H1|].
  apply H2. right. vm_compute. discriminate.
Defined.

(** C2, as stated, fails: a PRO_PLUS customer reporting a late delivery three
    days after it arrived is rejected, and so is a missing-item claim on a
    flagged order that names an item that was not ordered. *)
Lemma trust_shortcut_counterexample :
  (membershipTier examples.proPlus = PRO_PLUS
   /\ verifyLateDeliveryIssue examples.threeDaysLater (Some examples.pizzaOrder)
        (Some examples.proPlus)
      = mkVerification false "Complaint received too long after delivery"
          (Some (decisionEngine.lateness examples.pizzaOrder)) None)
  /\ (problemFlag examples.flaggedOrder = true
      /\ verifyMissingItemIssue examples.threeDaysLater (Some examples.flaggedOrder)
           (Some [ "burger" ]) (Some examples.proPlus)
         = mkVerification false "Claimed missing items were not in the original order"
             None None).
Proof.
  repeat apply conj; reflexivity.
Qed.

(** C6 (as the code has it). A lateness strictly below the 10-minute
    threshold is rejected: as "on time or early" when it is not positive, and
    otherwise with the rounded lateness in the reason. *)
Theorem late_delivery_below_threshold_rejected (now : Z) (o : OrderDetails)
    (c : option CustomerInfo) :
  (lateness o < config.thresholds.acceptableLateness)%Qc ->
  verified (verifyLateDeliveryIssue now (Some o) c) = false
  /\ ((lateness o <= Q2Qc 0)%Qc ->
      verification_reason (verifyLateDeliveryIssue now (Some o) c)
      = "Delivery was on time or early")
  /\ ((Q2Qc 0 < lateness o)%Qc ->
      verification_reason (verifyLateDeliveryIssue now (Some o) c)
      = "Delivery was only " ++ Js.showZ (Js.round (lateness o))
          ++ " minutes late, within acceptable range").
Proof.
  intros Hlt. unfold verifyLateDeliveryIssue, verifyLateDeliveryIssue_try. simpl.
  apply ltb_true in Hlt. rewrite Hlt.
  destruct (lateness o <=? Q2Qc 0)%Qc eqn:Hle; simpl.
  - repeat apply conj; [reflexivity | reflexivity |].
    intros Hpos. apply leb_true in Hle. now apply Qcle_not_lt in Hle.
  - repeat apply conj; [reflexivity | | reflexivity].
    intros Hneg. apply leb_false in Hle. now apply Qcle_not_lt in Hneg.
Qed.

Lemma late_delivery_below_threshold_rejected_witness :
  (lateness examples.slightlyLateOrder < config.thresholds.acceptableLateness)%Qc
  /\ (Q2Qc 0 < lateness examples.slightlyLateOrder)%Qc
  /\ verified (verifyLateDeliveryIssue 1500000 (Some examples.slightlyLateOrder)
                 (Some examples.regular)) = false
  /\ verification_reason (verifyLateDeliveryIssue 1500000 (Some examples.slightlyLateOrder)
                            (Some examples.regular))
     = "Delivery was only 5 minutes late, within acceptable range".
Proof.
  assert (H : (lateness examples.slightlyLateOrder
               < config.thresholds.acceptableLateness)%Qc) by reflexivity.
  assert (Hpos : (Q2Qc 0 < lateness examples.slightlyLateOrder)%Qc) by reflexivity.
  destruct (late_delivery_below_threshold_rejected 1500000 examples.slightlyLateOrder
              (Some examples.regular) H) as (Hv & _ & Hr).
  split; [exact H|]. split; [exact Hpos|]. split; [exact Hv|].
  rewrite (Hr Hpos). reflexivity.
Defined.

(** C6, as stated, fails at exactly 10 minutes: the threshold test is strict,
    so the complaint goes on to the report window and is accepted. *)
Lemma late_delivery_exactly_ten_counterexample :
  lateness examples.pizzaOrder = Q2Qc 10
  /\ verifyLateDeliveryIssue 2400000 (Some examples.pizzaOrder) (Some examples.regular)
     = mkVerification true "Delivery was 10 minutes late"
         (Some (lateness examples.pizzaOrder)) None.
Proof.
  split; [apply Qc_is_canon; reflexivity | reflexivity].
Qed.

(** C7, at the input where code and claim part: "pizza" occurs in the ordered
    "Margherita Pizza", yet the filter keeps only names equal to an ordered
    name, so the claim list is filtered to nothing and the report is rejected. *)
Theorem missing_item_substring_claim_rejected :
  spec.plausibleMissing examples.pizzaOrder [ "pizza" ] = [ "pizza" ]
  /\ validMissing examples.pizzaOrder [ "pizza" ] = []
  /\ verifyMissingItemIssue 2400000 (Some examples.pizzaOrder) (Some [ "pizza" ])
       (Some examples.regular)
     = mkVerification false "Claimed missing items were not in the original order"
         None None.
Proof.
  repeat apply conj; reflexivity.
Qed.

End Verification.

(** ** Solutions *)

Section Decisions.

Import decisionEngine.

(** C5. [decideSolution] for LATE_DELIVERY with a caller-supplied lateness:
    above 90 minutes a REFUND of exactly the order total; otherwise a CREDIT of
    [min (total * rate, 200)] with the rate read off the table
    (0.3 above 60, 0.2 above 30, 0.1 above 15, else 0).  In particular a
    lateness in (60, 90] on a 500-unit order gives a CREDIT of 150. *)
Theorem decide_late_delivery (now : Z) (o : OrderDetails) (c : option CustomerInfo)
    (e : Entities) (l : Qc) :
  entity_latenessMinutes e = Some l ->
  ((Q2Qc 90 < l)%Qc ->
   solution_type (decideSolution now LATE_DELIVERY (Some o) c (Some e)) = REFUND
   /\ amount (decideSolution now LATE_DELIVERY (Some o) c (Some e)) = totalAmount o)
  /\ ((l <= Q2Qc 90)%Qc ->
      solution_type (decideSolution now LATE_DELIVERY (Some o) c (Some e)) = CREDIT
      /\ amount (decideSolution now LATE_DELIVERY (Some o) c (Some e))
         = Js.min (totalAmount o * spec.lateRate l)%Qc (Q2Qc 200))
  /\ ((Q2Qc 60 < l)%Qc -> (l <= Q2Qc 90)%Qc -> totalAmount o = Q2Qc 500 ->
      solution_type (decideSolution now LATE_DELIVERY (Some o) c (Some e)) = CREDIT
      /\ amount (decideSolution now LATE_DELIVERY (Some o) c (Some e)) = Q2Qc 150).
Proof.
  intros Hl. unfold decideSolution, decideSolution_try. simpl. rewrite Hl.
  repeat apply conj.
  - intros H. apply gtb_true in H. now rewrite H.
  - intros H. apply gtb_false in H. now rewrite H.
  - intros H60 H90 Htotal. apply gtb_true in H60. apply gtb_false in H90.
    rewrite H90, H60, Htotal. simpl. split; [reflexivity|].
    apply Qc_is_canon. reflexivity.
Qed.

Lemma decide_late_delivery_witness :
  (Q2Qc 60 < Q2Qc 75)%Qc /\ (Q2Qc 75 <= Q2Qc 90)%Qc
  /\ totalAmount examples.pizzaOrder = Q2Qc 500
  /\ solution_type (decideSolution 2400000 LATE_DELIVERY (Some examples.pizzaOrder)
                      (Some examples.regular)
                      (Some (mkEntities None None None [] None (Some (Q2Qc 75))))) = CREDIT
  /\ amount (decideSolution 2400000 LATE_DELIVERY (Some examples.pizzaOrder)
               (Some examples.regular)
               (Some (mkEntities None None None [] None (Some (Q2Qc 75))))) = Q2Qc 150.
Proof.
  assert (H60 : (Q2Qc 60 < Q2Qc 75)%Qc) by reflexivity.
  assert (H90 : (Q2Qc 75 <= Q2Qc 90)%Qc) by (apply Qcle_alt; discriminate).
  assert (Ht : totalAmount examples.pizzaOrder = Q2Qc 500) by reflexivity.
  destruct (decide_late_delivery 2400000 examples.pizzaOrder (Some examples.regular)
              (mkEntities None None None [] None (Some (Q2Qc 75))) (Q2Qc 75) eq_refl)
    as (_ & _ & H).
  split; [exact H60|]. split; [exact H90|]. split; [exact Ht|].
  exact (H H60 H90 Ht).
Defined.

(** A lateness that was not supplied counts as zero: a CREDIT of nothing. *)
Lemma decide_late_delivery_unknown now o c e :
  entity_latenessMinutes e = None ->
  decideSolution now LATE_DELIVERY (Some o) c (Some e)
  = mkSolution CREDIT (Js.min (totalAmount o * Q2Qc 0)%Qc (Q2Qc 200))
      "Delivery delay (0 minutes late)" None None.
Proof.
  intros H. unfold decideSolution, decideSolution_try. simpl. now rewrite H.
Qed.

(** The [forEach] accumulator is the sum over the matched items. *)
Lemma affectedSum_matched names its :
  affectedSum names its = spec.sumItems (List.filter (itemAffected names) its).
Proof.
  unfold affectedSum.
  assert (G : forall acc,
             fold_left
               (fun acc item =>
                  if itemAffected names item
                  then (acc + price item * quantity item)%Qc else acc) its acc
             = (acc + spec.sumItems (List.filter (itemAffected names) its))%Qc).
  { induction its as [|it its IH]; intros acc; simpl.
    - ring.
    - destruct (itemAffected names it); simpl; rewrite IH; ring. }
  rewrite G. ring.
Qed.

(** Where the helper follows the specification: when nothing matched, and
    when the matched items do not sum to zero. *)
Lemma affected_amount_agrees o claimed :
  spec.matched o claimed = [] \/ spec.sumItems (spec.matched o claimed) <> Q2Qc 0 ->
  calculateAffectedItemsAmount o (Some claimed) = spec.affectedAmount o claimed.
Proof.
  intros H. unfold calculateAffectedItemsAmount, spec.affectedAmount.
  destruct claimed as [|n ns]; [reflexivity|].
  rewrite affectedSum_matched. fold (spec.matched o (n :: ns)).
  destruct H as [H|H].
  - rewrite H. simpl. apply Qcmult_comm.
  - destruct (Js.eqb _ _) eqn:E; simpl.
    + apply eqb_true in E. contradiction.
    + destruct (spec.matched o (n :: ns)); [now elim H | reflexivity].
Qed.

(** "pizza" against an ordered "Margherita Pizza" at 299 x 1 yields 299. *)
Example affected_amount_pizza :
  calculateAffectedItemsAmount examples.pizzaOrder (Some [ "pizza" ]) = Q2Qc 299.
Proof. apply Qc_is_canon. reflexivity. Qed.

(** Away from the redelivery window a regular customer is refunded the
    affected amount, which for WRONG_ORDER without named items is the whole
    order and for MISSING_ITEM without named items is nothing. *)
Lemma decide_no_items_named now o c e :
  restaurantCloseTime o <= now -> membershipTier c = REGULAR ->
  (wrongItems e = None \/ wrongItems e = Some []) ->
  (missingItems e = None \/ missingItems e = Some []) ->
  amount (decideSolution now WRONG_ORDER (Some o) (Some c) (Some e)) = totalAmount o
  /\ amount (decideSolution now MISSING_ITEM (Some o) (Some c) (Some e)) = Q2Qc 0.
Proof.
  intros Hclosed Hreg Hw Hm. unfold decideSolution, decideSolution_try. simpl.
  apply Z.ltb_ge in Hclosed. rewrite Hclosed, Hreg. simpl.
  split.
  - destruct Hw as [-> | ->]; reflexivity.
  - destruct Hm as [-> | ->]; reflexivity.
Qed.

(** C8, at the input where code and claim part: the claimed "dip" matches the
    complimentary "Garlic Dip", whose price is 0, so the matched items sum to 0;
    the helper then takes its "nothing matched" fallback and answers 30% of the
    order total, 150. *)
Theorem affected_amount_free_item :
  spec.matched examples.orderWithFreeDip [ "dip" ]
  = [ mkItem "Garlic Dip" (Q2Qc 0) (Q2Qc 1) ]
  /\ spec.affectedAmount examples.orderWithFreeDip [ "dip" ] = Q2Qc 0
  /\ calculateAffectedItemsAmount examples.orderWithFreeDip (Some [ "dip" ]) = Q2Qc 150.
Proof.
  repeat apply conj.
  - reflexivity.
  - apply Qc_is_canon. reflexivity.
  - apply Qc_is_canon. reflexivity.
Qed.

End Decisions.

(** ** Escalation *)

Section Escalation.

Import escalationManager.

(** The [reduce] counts the messages that carry an indicator. *)
Lemma frustrationCount_filter indicators messages :
  frustrationCount indicators messages
  = length (List.filter (frustrated indicators) messages).
Proof.
  unfold frustrationCount.
  assert (G : forall n,
             fold_left (fun count message =>
                          if frustrated indicators message then S count else count)
                       messages n
             = (n + length (List.filter (frustrated indicators) messages))%nat).
  { induction messages as [|m ms IH]; intros n; simpl.
    - lia.
    - destruct (frustrated indicators m); simpl; rewrite IH; lia. }
  apply G.
Qed.

Lemma highValueOrder_true details :
  highValueOrder details = true <->
  exists os o, details = Some os /\ In o os
               /\ (config.thresholds.highValueOrder < totalAmount o)%Qc.
Proof.
  unfold highValueOrder. split.
  - destruct details as [[|o os]|]; try discriminate. intros H.
    apply existsb_exists in H as (x & Hin & Hx). apply gtb_true in Hx.
    exists (o :: os), x. auto.
  - intros (os & o & -> & Hin & Hx). destruct os as [|o' os]; [destruct Hin|].
    apply existsb_exists. exists o. split; [exact Hin | now apply gtb_true].
Qed.

(** The early returns of [shouldAutoEscalate], as one disjunction. *)
Lemma shouldAutoEscalate_orb session c :
  customerInfo session = Some c ->
  shouldAutoEscalate session
  = ((match membershipTier c with PRO_PLUS => true | _ => false end)
     || Nat.leb 2 (length (List.filter (frustrated frustrationIndicators)
                             (userMessages (conversationHistory session))))
     || highValueOrder (orderDetails session)
     || match resolutions session with
        | Some rs => Nat.leb 2 (length rs)
        | None => false
        end)%bool.
Proof.
  intros Hc. unfold shouldAutoEscalate, shouldAutoEscalate_try. rewrite Hc.
  cbn [Js.bind Js.deref]. rewrite frustrationCount_filter.
  destruct (membershipTier c),
    (Nat.leb 2 (length (List.filter (frustrated frustrationIndicators)
                          (userMessages (conversationHistory session))))),
    (highValueOrder (orderDetails session)),
    (resolutions session) as [rs|];
    try reflexivity; now destruct (Nat.leb 2 (length rs)).
Qed.

(** C9 (as the code has it). For a session with a customer record,
    [shouldAutoEscalate] is true exactly when the tier is PRO_PLUS, or at
    least two user messages contain (case-insensitively) one of the ten
    phrases of [frustrationIndicators], or some order of the session has a
    total above 1000, or at least two resolutions are recorded.  A session
    with at most one user message and none of the other three conditions is
    not escalated. *)
Theorem shouldAutoEscalate_iff (session : Session) (c : CustomerInfo) :
  customerInfo session = Some c ->
  (shouldAutoEscalate session = true <->
   membershipTier c = PRO_PLUS
   \/ (2 <= length (List.filter (frustrated frustrationIndicators)
                      (userMessages (conversationHistory session))))%nat
   \/ (exists os o, orderDetails session = Some os /\ In o os
                    /\ (config.thresholds.highValueOrder < totalAmount o)%Qc)
   \/ (exists rs, resolutions session = Some rs /\ (2 <= length rs)%nat))
  /\ (membershipTier c <> PRO_PLUS ->
      (length (userMessages (conversationHistory session)) <= 1)%nat ->
      highValueOrder (orderDetails session) = false ->
      (forall rs, resolutions session = Some rs -> (length rs < 2)%nat) ->
      shouldAutoEscalate session = false).
Proof.
  intros Hc.
  assert (Hiff : shouldAutoEscalate session = true <->
            membershipTier c = PRO_PLUS
            \/ (2 <= length (List.filter (frustrated frustrationIndicators)
                               (userMessages (conversationHistory session))))%nat
            \/ highValueOrder (orderDetails session) = true
            \/ (exists rs, resolutions session = Some rs /\ (2 <= length rs)%nat)).
  { rewrite (shouldAutoEscalate_orb session c Hc), !orb_true_iff, Nat.leb_le.
    split.
    - intros [[[H | H] | H] | H]; auto.
      + left. destruct (membershipTier c); congruence.
      + destruct (resolutions session) as [rs|]; [|discriminate].
        apply Nat.leb_le in H. right. right. right. now exists rs.
    - intros [H | [H | [H | (rs & Hrs & Hlen)]]]; auto.
      + rewrite H. auto.
      + rewrite Hrs. apply Nat.leb_le in Hlen. auto. }
  split.
  - rewrite Hiff, highValueOrder_true. reflexivity.
  - intros Htier Hone Hvalue Hres. apply not_true_iff_false. rewrite Hiff.
    intros [H | [H | [H | (rs & Hrs & Hlen)]]].
    + contradiction.
    + pose proof (filter_length_le (frustrated frustrationIndicators)
                    (userMessages (conversationHistory session))). lia.
    + congruence.
    + specialize (Hres rs Hrs). lia.
Qed.

Lemma shouldAutoEscalate_iff_witness :
  customerInfo examples.frustratedSession = Some examples.regular
  /\ shouldAutoEscalate examples.frustratedSession = true
  /\ shouldAutoEscalate examples.annoyedOnce = false.
Proof.
  split; [reflexivity|]. split.
  - apply (proj1 (shouldAutoEscalate_iff examples.frustratedSession examples.regular
                    eq_refl)).
    right. left. vm_compute. lia.
  - apply (proj2 (shouldAutoEscalate_iff examples.annoyedOnce examples.regular eq_refl)).
    + discriminate.
    + vm_compute. lia.
    + reflexivity.
    + intros rs [= <-]. simpl. lia.
Defined.

(** C9, as stated, fails in both directions: two messages with "ridiculous"
    and "unacceptable" carry phrases of the specification's lexicon but none of
    the code's, and "speak to a person" is in the code's lexicon only. *)
Lemma lexicon_counterexample :
  (spec.shouldAutoEscalate examples.specPhrasesOnly = true
   /\ shouldAutoEscalate examples.specPhrasesOnly = false)
  /\ (spec.shouldAutoEscalate examples.codePhraseOnly = false
      /\ shouldAutoEscalate examples.codePhraseOnly = true).
Proof.
  repeat apply conj; reflexivity.
Qed.

End Escalation.

(** ** Session endpoints *)

Lemma getProperty_own {A : Type} (obj : gmap string A) (key : string) (a : A) :
  Js.getProperty obj key = Js.Own a <-> obj !! key = Some a.
Proof.
  unfold Js.getProperty. destruct (obj !! key) as [b|].
  - split; congruence.
  - destruct (Js.inheritedKey key); split; discriminate.
Qed.

Lemma getProperty_undefined {A : Type} (obj : gmap string A) (key : string) :
  obj !! key = None -> Js.inheritedKey key = false ->
  Js.getProperty obj key = Js.Undefined.
Proof.
  intros H1 H2. unfold Js.getProperty. now rewrite H1, H2.
Qed.

Section Sessions.

Variable DB : Type.
Variable env : Collaborators DB.

(** A request that does not start session [sid] leaves it unknown. *)
Lemma unknown_preserved (now : Z) (srv : Server DB) (sid : string) (request : Request) :
  sessions srv !! sid = None ->
  (forall u c o, request = Start u c o -> u <> sid) ->
  sessions (fst (handle env now srv request)) !! sid = None.
Proof.
  intros Hnone Hfresh. destruct request as [u c o | s m | s]; simpl.
  - specialize (Hfresh u c o eq_refl).
    unfold startConversation. cbn [config.demoMode].
    destruct (Js.bind _ _) as [[info details]|e]; [|exact Hnone].
    destruct (generateWelcomeMessage env now info details); simpl;
      rewrite ?lookup_insert_ne by assumption; exact Hnone.
  - unfold postMessage. cbn [config.demoMode].
    destruct (Js.getProperty (sessions srv) s) as [session| |] eqn:Hs;
      [|exact Hnone..].
    apply getProperty_own in Hs. assert (s <> sid) by congruence.
    destruct (processMessage env m _) as [[intent entities]|e]; simpl.
    + destruct (respond env now (database srv) _ intent entities) as [[db s2] r].
      simpl. now rewrite lookup_insert_ne.
    + now rewrite lookup_insert_ne.
  - unfold endConversation. cbn [config.demoMode].
    destruct (Js.getProperty (sessions srv) s) as [session| |] eqn:Hs;
      [|exact Hnone..].
    apply getProperty_own in Hs. assert (s <> sid) by congruence.
    destruct (Js.deref (resolutions session)); simpl; [|exact Hnone].
    now rewrite lookup_delete_ne.
Qed.

Lemma unknown_after (srv : Server DB) (sid : string) (later : list (Z * Request)) :
  sessions srv !! sid = None ->
  (forall t u c o, In (t, Start u c o) later -> u <> sid) ->
  sessions (serve env srv later) !! sid = None.
Proof.
  revert srv. induction later as [|[t r] later IH]; intros srv Hnone Hfresh; simpl.
  - exact Hnone.
  - apply IH.
    + apply unknown_preserved; [exact Hnone|].
      intros u c o ->. apply (Hfresh t u c o). now left.
    + intros t' u c o Hin. apply (Hfresh t' u c o). now right.
Qed.

Lemma postMessage_unknown (now : Z) (srv : Server DB) (sid message : string) :
  sessions srv !! sid = None -> Js.inheritedKey sid = false ->
  postMessage env now srv sid message = (srv, NotFound).
Proof.
  intros H Hk. unfold postMessage. cbn [config.demoMode].
  now rewrite getProperty_undefined.
Qed.

Lemma endConversation_unknown (now : Z) (srv : Server DB) (sid : string) :
  sessions srv !! sid = None -> Js.inheritedKey sid = false ->
  endConversation env now srv sid = (srv, NotFound).
Proof.
  intros H Hk. unfold endConversation. cbn [config.demoMode].
  now rewrite getProperty_undefined.
Qed.

(** A successful end removes the session from the registry. *)
Lemma endConversation_removes (now : Z) (srv : Server DB) (sid : string) :
  snd (endConversation env now srv sid) = EndOk ->
  sessions (fst (endConversation env now srv sid)) !! sid = None.
Proof.
  unfold endConversation. cbn [config.demoMode].
  destruct (Js.getProperty (sessions srv) sid) as [session| |]; [|discriminate..].
  destruct (Js.deref (resolutions session)); [|discriminate].
  intros _. simpl. apply lookup_delete_eq.
Qed.

(** Session ids that no object inherits (every uuid is one): on an unknown id
    both [endConversation] and [postMessage] answer [NotFound] and leave the
    server as it was; and once [endConversation] has succeeded on a session,
    every later [postMessage] on that id answers [NotFound] and changes
    nothing, whatever requests came in between (short of a new session being
    started under the very same id).  The id "lastActivityAt" is left out: a
    message addressed to "__proto__" stores that property on the object all
    objects inherit from before it fails, a write on a built-in that the
    registry does not record, and from then on that id is inherited too. *)
Lemma ended_sessions_not_found (now : Z) (srv : Server DB) (sid : string) :
  Js.inheritedKey sid = false ->
  sid <> "lastActivityAt" ->
  (sessions srv !! sid = None ->
   endConversation env now srv sid = (srv, NotFound)
   /\ forall now' message, postMessage env now' srv sid message = (srv, NotFound))
  /\ (snd (endConversation env now srv sid) = EndOk ->
      forall later : list (Z * Request),
        (forall t u c o, In (t, Start u c o) later -> u <> sid) ->
        forall now' message,
          postMessage env now' (serve env (fst (endConversation env now srv sid)) later)
            sid message
          = (serve env (fst (endConversation env now srv sid)) later, NotFound)).
Proof.
  intros Hk _. split.
  - intros H. split.
    + now apply endConversation_unknown.
    + intros now' message. now apply postMessage_unknown.
  - intros Hend later Hfresh now' message.
    apply postMessage_unknown; [|exact Hk].
    apply unknown_after; [|exact Hfresh].
    now apply endConversation_removes.
Qed.

(** C3, at the inputs where code and claim part.  The registry is an object
    literal, so an id such as "constructor", under which no session was ever
    stored, still finds the function every object inherits: the handlers take
    it for a session, fail on its missing history, and answer with the
    server error of their [catch] branch instead of [NotFound]. *)
Theorem inherited_key_not_NotFound (now : Z) (db : DB) (message : string) :
  postMessage env now (mkServer ∅ db) "constructor" message
  = (mkServer ∅ db, ServerError "Failed to process message" Js.TypeError)
  /\ endConversation env now (mkServer ∅ db) "constructor"
     = (mkServer ∅ db, ServerError "Failed to end conversation" Js.TypeError).
Proof.
  unfold postMessage, endConversation, Js.getProperty.
  cbn [config.demoMode sessions]. rewrite lookup_empty. split; reflexivity.
Qed.

End Sessions.

Example ended_sessions_not_found_example :
  endConversation (examples.collaborators GENERAL_QUERY examples.noEntities) 10
    examples.server "session-0"
  = (examples.server, NotFound)
  /\ snd (endConversation (examples.collaborators GENERAL_QUERY examples.noEntities) 10
            examples.server "session-1") = EndOk
  /\ snd (postMessage (examples.collaborators GENERAL_QUERY examples.noEntities) 30
            (serve (examples.collaborators GENERAL_QUERY examples.noEntities)
               (fst (endConversation
                       (examples.collaborators GENERAL_QUERY examples.noEntities) 10
                       examples.server "session-1"))
               [ (20, Start "session-2" "cust_12345" []);
                 (25, Post "session-1" "hello?") ])
            "session-1" "anyone there?") = NotFound.
Proof.
  assert (Hend : snd (endConversation
                        (examples.collaborators GENERAL_QUERY examples.noEntities) 10
                        examples.server "session-1") = EndOk) by reflexivity.
  destruct (ended_sessions_not_found unit
              (examples.collaborators GENERAL_QUERY examples.noEntities) 10
              examples.server "session-0" eq_refl ltac:(discriminate)) as [Hunknown _].
  destruct (ended_sessions_not_found unit
              (examples.collaborators GENERAL_QUERY examples.noEntities) 10
              examples.server "session-1" eq_refl ltac:(discriminate)) as [_ Hafter].
  split; [exact (proj1 (Hunknown eq_refl))|]. split; [exact Hend|].
  rewrite (Hafter Hend); [reflexivity|].
  intros t u c o [H | [H | []]]; [|discriminate].
  injection H as _ <- _ _. discriminate.
Qed.

(** ** The message pipeline *)

Section Pipeline.

Variable DB : Type.
Variable env : Collaborators DB.


End Pipeline.



(** * Further properties of the decision engine *)

Lemma Q2Qc_le (a b : Q) : (Q2Qc a <= Q2Qc b)%Qc <-> (a <= b)%Q.
Proof. unfold Qcle. simpl. now rewrite !Qred_correct. Qed.

Lemma Q2Qc_lt (a b : Q) : (Q2Qc a < Q2Qc b)%Qc <-> (a < b)%Q.
Proof. unfold Qclt. simpl. now rewrite !Qred_correct. Qed.

Section VerificationRules.

Import decisionEngine.

(** A wrong-order report on a known order by a known customer is verified
    exactly when the order is flagged, or the customer is PRO / PRO_PLUS, or
    the report comes within the 60-minute window from a customer whose risk
    score does not exceed 0.7. *)
Theorem verifyWrongOrderIssue_verified_iff (now : Z) (o : OrderDetails)
    (wrong : option (list string)) (c : CustomerInfo) :
  verified (verifyWrongOrderIssue now (Some o) wrong (Some c)) = true <->
  problemFlag o = true \/ isPremium (membershipTier c) = true
  \/ ((Js.elapsed now (Js.dateOf (deliveredAt o)) 60000
       <= config.verificationWindows.wrongOrder)%Qc
      /\ (fraudRiskScore c <= config.thresholds.fraudRiskScore)%Qc).
Proof.
  unfold verifyWrongOrderIssue, verifyWrongOrderIssue_try. simpl.
  destruct (problemFlag o); simpl; [split; auto|].
  destruct (isPremium (membershipTier c)); simpl; [split; auto|].
  destruct (_ >? config.verificationWindows.wrongOrder)%Qc eqn:Hw; simpl.
  - apply gtb_true in Hw. split; [discriminate|].
    intros [H | [H | [H _]]]; try discriminate. now apply Qcle_not_lt in H.
  - apply gtb_false in Hw.
    destruct (fraudRiskScore c >? config.thresholds.fraudRiskScore)%Qc eqn:Hf; simpl.
    + apply gtb_true in Hf. split; [discriminate|].
      intros [H | [H | [_ H]]]; try discriminate. now apply Qcle_not_lt in H.
    + apply gtb_false in Hf. split; auto.
Qed.

(** The claimed items kept by the item check are those claimed names that
    equal the name of an ordered item up to the case of ASCII letters. *)
Theorem validMissing_In (o : OrderDetails) (claimed : list string) (x : string) :
  In x (validMissing o claimed) <->
  In x claimed
  /\ exists item, In item (items o) /\ Js.toLowerCase (name item) = Js.toLowerCase x.
Proof.
  unfold validMissing. rewrite filter_In. unfold Js.arrayIncludes.
  rewrite existsb_exists. split.
  - intros (Hin & y & Hy & Heq). split; [exact Hin|].
    apply in_map_iff in Hy as (item & <- & Hitem). apply String.eqb_eq in Heq.
    exists item. auto.
  - intros (Hin & item & Hitem & Heq). split; [exact Hin|].
    exists (Js.toLowerCase (name item)). split.
    + apply in_map_iff. now exists item.
    + apply String.eqb_eq. now rewrite Heq.
Qed.

(** A missing-item report is verified exactly when the item check passes (no
    item is named, or some named item was ordered) and the order is flagged,
    or the customer is PRO / PRO_PLUS, or the report is within 60 minutes and
    the risk score is at most 0.7. *)
Theorem verifyMissingItemIssue_verified_iff (now : Z) (o : OrderDetails)
    (claimed : list string) (c : CustomerInfo) :
  verified (verifyMissingItemIssue now (Some o) (Some claimed) (Some c)) = true <->
  (claimed = [] \/ validMissing o claimed <> [])
  /\ (problemFlag o = true \/ isPremium (membershipTier c) = true
      \/ ((Js.elapsed now (Js.dateOf (deliveredAt o)) 60000
           <= config.verificationWindows.missingItem)%Qc
          /\ (fraudRiskScore c <= config.thresholds.fraudRiskScore)%Qc)).
Proof.
  assert (Hgate : (Nat.eqb (length (validMissing o claimed)) 0
                   && Nat.ltb 0 (length claimed))%bool = false
                  <-> (claimed = [] \/ validMissing o claimed <> [])).
  { rewrite andb_false_iff, Nat.eqb_neq, Nat.ltb_ge. split; intros [H|H].
    - right. intros E. now rewrite E in H.
    - left. destruct claimed; [reflexivity | simpl in H; lia].
    - right. subst claimed. simpl. lia.
    - left. destruct (validMissing o claimed); [congruence | discriminate]. }
  unfold verifyMissingItemIssue, verifyMissingItemIssue_try. simpl.
  destruct (Nat.eqb _ _ && _)%bool; simpl.
  { split; [discriminate|]. intros [H _]. apply Hgate in H. discriminate. }
  assert (Hitems : claimed = [] \/ validMissing o claimed <> []) by now apply Hgate.
  destruct (problemFlag o); simpl; [split; auto|].
  destruct (isPremium (membershipTier c)); simpl; [split; auto|].
  destruct (_ >? config.verificationWindows.missingItem)%Qc eqn:Hw; simpl.
  - apply gtb_true in Hw. split; [discriminate|].
    intros [_ [H | [H | [H _]]]]; try discriminate. now apply Qcle_not_lt in H.
  - apply gtb_false in Hw.
    destruct (fraudRiskScore c >? config.thresholds.fraudRiskScore)%Qc eqn:Hf; simpl.
    + apply gtb_true in Hf. split; [discriminate|].
      intros [_ [H | [H | [_ H]]]]; try discriminate. now apply Qcle_not_lt in H.
    + apply gtb_false in Hf. split; auto.
Qed.

(** The list of valid items is reported only on the ordinary path: a result
    that carries [validMissingItems] is an accepted one, for an unflagged order
    and a regular customer, and the list is the filtered claim. *)
Theorem validMissingItems_reported (now : Z) (o : OrderDetails) (claimed : list string)
    (c : CustomerInfo) (l : list string) :
  validMissingItems (verifyMissingItemIssue now (Some o) (Some claimed) (Some c)) = Some l ->
  l = validMissing o claimed
  /\ verified (verifyMissingItemIssue now (Some o) (Some claimed) (Some c)) = true
  /\ problemFlag o = false /\ membershipTier c = REGULAR.
Proof.
  unfold verifyMissingItemIssue, verifyMissingItemIssue_try. simpl.
  destruct (Nat.eqb _ _ && _)%bool; simpl; [discriminate|].
  destruct (problemFlag o); simpl; [discriminate|].
  destruct (membershipTier c); simpl; try discriminate.
  destruct (_ >? config.verificationWindows.missingItem)%Qc; simpl; [discriminate|].
  destruct (_ >? config.thresholds.fraudRiskScore)%Qc; simpl; [discriminate|].
  intros [= <-]. auto.
Qed.

Lemma validMissingItems_reported_witness :
  validMissingItems (verifyMissingItemIssue 2400000 (Some examples.pizzaOrder)
                       (Some [ "MARGHERITA pizza"; "fries" ]) (Some examples.regular))
  = Some [ "MARGHERITA pizza" ].
Proof.
  assert (H : validMissingItems
                (verifyMissingItemIssue 2400000 (Some examples.pizzaOrder)
                   (Some [ "MARGHERITA pizza"; "fries" ]) (Some examples.regular))
              = Some [ "MARGHERITA pizza" ]) by reflexivity.
  destruct (validMissingItems_reported 2400000 examples.pizzaOrder
              [ "MARGHERITA pizza"; "fries" ] examples.regular [ "MARGHERITA pizza" ] H)
    as (_ & _ & _ & _).
  exact H.
Defined.

(** A late-delivery report is verified exactly when the delivery was at least
    10 minutes late and the report comes within 24 hours of it.  The result
    always carries a lateness: 0 for a delivery that was not late, the computed
    lateness otherwise. *)
Theorem verifyLateDeliveryIssue_verified_iff (now : Z) (o : OrderDetails)
    (c : option CustomerInfo) :
  (verified (verifyLateDeliveryIssue now (Some o) c) = true <->
   (config.thresholds.acceptableLateness <= lateness o)%Qc
   /\ (Js.elapsed now (Js.dateOf (deliveredAt o)) 3600000
       <= config.verificationWindows.lateDeliveryHours)%Qc)
  /\ latenessMinutes (verifyLateDeliveryIssue now (Some o) c)
     = Some (if (lateness o <=? Q2Qc 0)%Qc then Q2Qc 0 else lateness o).
Proof.
  unfold verifyLateDeliveryIssue, verifyLateDeliveryIssue_try. simpl.
  destruct (lateness o <=? Q2Qc 0)%Qc eqn:H0; simpl.
  - split; [|reflexivity]. apply leb_true in H0. split; [discriminate|].
    intros [H _]. exfalso.
    apply (Qcle_not_lt _ _ (Qcle_trans _ _ _ H H0)). reflexivity.
  - destruct (lateness o <? config.thresholds.acceptableLateness)%Qc eqn:H10; simpl.
    + split; [|reflexivity]. apply ltb_true in H10. split; [discriminate|].
      intros [H _]. now apply Qcle_not_lt in H.
    + apply ltb_false in H10.
      destruct (_ >? config.verificationWindows.lateDeliveryHours)%Qc eqn:H24; simpl.
      * split; [|reflexivity]. apply gtb_true in H24. split; [discriminate|].
        intros [_ H]. now apply Qcle_not_lt in H.
      * split; [|reflexivity]. apply gtb_false in H24. split; auto.
Qed.

(** An order that has not been delivered ([deliveredAt] is null) counts as
    delivered at the epoch.  A late-delivery report on it is rejected as
    "on time or early", and a wrong-order report by a regular customer on an
    unflagged order is rejected as made too long after delivery. *)
Theorem undelivered_order_rejected (now : Z) (o : OrderDetails) (c : CustomerInfo)
    (wrong : option (list string)) :
  deliveredAt o = None ->
  0 <= estimatedDeliveryTime o ->
  3600000 < now ->
  verifyLateDeliveryIssue now (Some o) (Some c)
  = mkVerification false "Delivery was on time or early" (Some (Q2Qc 0)) None
  /\ (problemFlag o = false -> membershipTier c = REGULAR ->
      verifyWrongOrderIssue now (Some o) wrong (Some c)
      = mkVerification false "Complaint received too long after delivery" None None).
Proof.
  intros Hd He Hnow. split.
  - unfold verifyLateDeliveryIssue, verifyLateDeliveryIssue_try, lateness. simpl.
    rewrite Hd. simpl.
    assert (H : (Js.elapsed 0 (estimatedDeliveryTime o) 60000 <=? Q2Qc 0)%Qc = true).
    { apply leb_true. unfold Js.elapsed. apply Q2Qc_le.
      unfold Qle. simpl. lia. }
    now rewrite H.
  - intros Hf Ht.
    unfold verifyWrongOrderIssue, verifyWrongOrderIssue_try. simpl.
    rewrite Hf, Ht, Hd. simpl.
    assert (H : (Js.elapsed now 0 60000 >? config.verificationWindows.wrongOrder)%Qc
                = true).
    { apply gtb_true. unfold Js.elapsed, config.verificationWindows.wrongOrder.
      apply Q2Qc_lt. unfold Qlt. simpl. lia. }
    now rewrite H.
Qed.

Lemma undelivered_order_rejected_witness :
  verified (verifyLateDeliveryIssue 7200000
              (Some (mkOrder "order_1" "rest_1" "McDonald's" [] (Q2Qc 684) (Some (Q2Qc 49))
                       0 4800000 None 21600000 false false))
              (Some examples.regular)) = false.
Proof.
  destruct (undelivered_order_rejected 7200000
              (mkOrder "order_1" "rest_1" "McDonald's" [] (Q2Qc 684) (Some (Q2Qc 49))
                 0 4800000 None 21600000 false false)
              examples.regular None eq_refl ltac:(simpl; lia) ltac:(lia)) as [H _].
  now rewrite H.
Defined.

End VerificationRules.

Ltac qc_to_q :=
  unfold Qcle, Qclt, Qcdiv, Qcinv, Qcmult, Qcplus, Qcopp, Q2Qc in *; cbn [this] in *;
  rewrite ?Qred_correct in *; unfold inject_Z in *; cbn [Qinv Qnum Qden] in *.

Section SolutionRules.

Import decisionEngine.

(** The WRONG_ORDER / MISSING_ITEM branch, on an order and entities that are
    present. *)
Lemma decideSolution_items now t o c e :
  t = WRONG_ORDER \/ t = MISSING_ITEM ->
  decideSolution now t (Some o) c (Some e)
  = if decisions.redeliveryIsPossible now o then
      mkSolution REDELIVERY (decisions.affectedAmount t o e) (issueReason t) None (Some 35)
    else
      match c with
      | None => mkSolution CREDIT (Q2Qc 100) "Standard compensation" None None
      | Some c =>
          if isPremium (membershipTier c) then
            mkSolution CREDIT
              (decisions.affectedAmount t o e
               + Js.min (decisions.affectedAmount t o e * config.compensationRates.premiumBonus)
                        config.thresholds.maxBonusAmount)%Qc
              (issueReason t)
              (Some (Js.min (decisions.affectedAmount t o e
                             * config.compensationRates.premiumBonus)%Qc
                            config.thresholds.maxBonusAmount))
              None
          else mkSolution REFUND (decisions.affectedAmount t o e) (issueReason t) None None
      end.
Proof.
  intros [-> | ->]; unfold decideSolution, decideSolution_try,
    decisions.redeliveryIsPossible, decisions.affectedAmount; simpl.
  all: destruct (Z.ltb now (restaurantCloseTime o) && _)%bool; simpl; [reflexivity|].
  all: destruct c as [c|]; simpl; [|reflexivity].
  all: now destruct (isPremium (membershipTier c)).
Qed.

(** REDELIVERY is offered only for a WRONG_ORDER or MISSING_ITEM report while
    the restaurant is still open and less than 120 minutes after the delivery
    (or before it): never for a late delivery, never for another issue type,
    never on a fault, never at or after closing time. *)
Theorem redelivery_iff (now : Z) (t : IssueType) (od : option OrderDetails)
    (c : option CustomerInfo) (e : option Entities) :
  solution_type (decideSolution now t od c e) = REDELIVERY <->
  exists o, od = Some o /\ e <> None
            /\ (t = WRONG_ORDER \/ t = MISSING_ITEM)
            /\ now < restaurantCloseTime o
            /\ (deliveredAt o = None
                \/ exists d, deliveredAt o = Some d
                             /\ (Js.elapsed now d 60000
                                 < config.thresholds.redeliveryWindowMinutes)%Qc).
Proof.
  split.
  - destruct od as [o|]; [|discriminate]. destruct e as [e|].
    + destruct t; try (unfold decideSolution, decideSolution_try; simpl;
                       repeat match goal with
                              | |- context [if ?b then _ else _] => destruct b
                              end; discriminate).
      all: rewrite decideSolution_items by auto.
      all: destruct (decisions.redeliveryIsPossible now o) eqn:Hr;
        [ | destruct c as [c|]; [destruct (isPremium (membershipTier c))|];
            discriminate ].
      all: intros _; exists o; unfold decisions.redeliveryIsPossible in Hr.
      all: apply andb_true_iff in Hr as [Hopen Hwin];
        apply Z.ltb_lt in Hopen; apply ltb_true in Hwin.
      all: repeat split; auto; try discriminate.
      all: destruct (deliveredAt o) as [d|]; [right; now exists d | now left].
    + destruct t; unfold decideSolution, decideSolution_try; simpl; discriminate.
  - intros (o & -> & He & Ht & Hopen & Hwin). destruct e as [e|]; [|congruence].
    rewrite decideSolution_items by exact Ht.
    assert (Hr : decisions.redeliveryIsPossible now o = true).
    { unfold decisions.redeliveryIsPossible. apply andb_true_iff. split.
      - now apply Z.ltb_lt.
      - apply ltb_true. destruct Hwin as [-> | (d & -> & H)]; [reflexivity | exact H]. }
    now rewrite Hr.
Qed.

(** A bonus is only ever part of a CREDIT to a PRO / PRO_PLUS customer for a
    WRONG_ORDER or MISSING_ITEM report; it never exceeds the configured maximum
    of 100, and the credit is the affected amount plus the bonus. *)
Theorem bonus_bounded (now : Z) (t : IssueType) (od : option OrderDetails)
    (c : option CustomerInfo) (e : option Entities) (b : Qc) :
  bonusAmount (decideSolution now t od c e) = Some b ->
  (b <= config.thresholds.maxBonusAmount)%Qc
  /\ solution_type (decideSolution now t od c e) = CREDIT
  /\ exists o e' c',
      od = Some o /\ e = Some e' /\ c = Some c'
      /\ isPremium (membershipTier c') = true
      /\ amount (decideSolution now t od c e) = (decisions.affectedAmount t o e' + b)%Qc.
Proof.
  destruct od as [o|]; [|discriminate]. destruct e as [e|].
  - destruct t; try (unfold decideSolution, decideSolution_try; simpl;
                     repeat match goal with
                            | |- context [if ?b then _ else _] => destruct b
                            end; discriminate).
    all: rewrite decideSolution_items by auto.
    all: destruct (decisions.redeliveryIsPossible now o); [discriminate|].
    all: destruct c as [c|]; [|discriminate].
    all: destruct (isPremium (membershipTier c)) eqn:Hp; [|discriminate].
    all: simpl; intros [= <-]; split; [apply min_spec|]; split; [reflexivity|].
    all: exists o, e, c; auto.
  - destruct t; unfold decideSolution, decideSolution_try; simpl; discriminate.
Qed.

Lemma bonus_bounded_witness :
  bonusAmount (decideSolution examples.threeDaysLater WRONG_ORDER (Some examples.pizzaOrder)
                 (Some examples.proPlus) (Some examples.noEntities)) = Some (Q2Qc 100)
  /\ amount (decideSolution examples.threeDaysLater WRONG_ORDER (Some examples.pizzaOrder)
               (Some examples.proPlus) (Some examples.noEntities)) = Q2Qc 600.
Proof.
  assert (H : bonusAmount
                (decideSolution examples.threeDaysLater WRONG_ORDER
                   (Some examples.pizzaOrder) (Some examples.proPlus)
                   (Some examples.noEntities)) = Some (Q2Qc 100)).
  { cbv [decideSolution]. simpl. f_equal. apply Qc_is_canon. reflexivity. }
  destruct (bonus_bounded _ _ _ _ _ _ H) as (_ & _ & o & e' & c' & [= <-] & [= <-] & _ & _ & Ha).
  split; [exact H|]. rewrite Ha. apply Qc_is_canon. reflexivity.
Defined.

Lemma min_nonneg (x y : Qc) :
  (Q2Qc 0 <= x)%Qc -> (Q2Qc 0 <= y)%Qc -> (Q2Qc 0 <= Js.min x y)%Qc.
Proof.
  intros Hx Hy. destruct (min_spec x y) as (_ & _ & [-> | ->]); assumption.
Qed.

Lemma share_bounds (total : Qc) :
  (Q2Qc 0 <= total)%Qc ->
  (Q2Qc 0 <= total * Q2Qc 0.3)%Qc /\ (total * Q2Qc 0.3 <= total)%Qc.
Proof. intros H. split; qc_to_q; lra. Qed.

Lemma filter_all {A : Type} (l : list A) : List.filter (fun _ => true) l = l.
Proof. induction l as [|a l IH]; simpl; [reflexivity | now rewrite IH]. Qed.

(** The matched lines sum to something between zero and the sum of all lines. *)
Lemma matched_sum_bounds (f : OrderItem -> bool) (its : list OrderItem) :
  Forall (fun item => (Q2Qc 0 <= price item * quantity item)%Qc) its ->
  (Q2Qc 0 <= spec.sumItems (List.filter f its))%Qc
  /\ (spec.sumItems (List.filter f its) <= spec.sumItems its)%Qc.
Proof.
  induction 1 as [|it its Hit Hits [IH0 IH1]]; simpl.
  - split; apply Qcle_refl.
  - destruct (f it); simpl.
    + split.
      * replace (Q2Qc 0) with (Q2Qc 0 + Q2Qc 0)%Qc by ring.
        now apply Qcplus_le_compat.
      * apply Qcplus_le_compat; [apply Qcle_refl | exact IH1].
    + split; [exact IH0|].
      replace (spec.sumItems (List.filter f its))
        with (Q2Qc 0 + spec.sumItems (List.filter f its))%Qc by ring.
      now apply Qcplus_le_compat.
Qed.

(** The affected amount of priced lines is never negative, and is at most the
    sum of all lines unless it is the 30% share of the total. *)
Lemma calculateAffectedItemsAmount_bounds (o : OrderDetails) (names : option (list string)) :
  decisions.linesNonNegative o -> (Q2Qc 0 <= totalAmount o)%Qc ->
  (Q2Qc 0 <= calculateAffectedItemsAmount o names)%Qc
  /\ ((calculateAffectedItemsAmount o names <= spec.sumItems (items o))%Qc
      \/ calculateAffectedItemsAmount o names = (totalAmount o * Q2Qc 0.3)%Qc).
Proof.
  intros Hlines Htotal.
  destruct (matched_sum_bounds (itemAffected (default [] names)) (items o) Hlines)
    as [H0 H1].
  pose proof (matched_sum_bounds (fun _ => true) (items o) Hlines) as [Hall _].
  rewrite filter_all in Hall.
  unfold calculateAffectedItemsAmount. destruct names as [[|n ns]|]; simpl in *.
  - split; [apply Qcle_refl | now left].
  - rewrite affectedSum_matched. destruct (Js.eqb _ _); simpl.
    + split; [apply share_bounds; exact Htotal | now right].
    + split; [exact H0 | now left].
  - split; [apply Qcle_refl | now left].
Qed.

(** On an order whose lines and total are not negative, and whose delivery
    fee (if any) is not negative, every solution has a non-negative amount:
    for every issue type, customer and entities, present or not. *)
Theorem amount_nonneg (now : Z) (t : IssueType) (o : OrderDetails)
    (c : option CustomerInfo) (e : option Entities) :
  decisions.linesNonNegative o ->
  (Q2Qc 0 <= totalAmount o)%Qc ->
  (forall f, deliveryFee o = Some f -> (Q2Qc 0 <= f)%Qc) ->
  (Q2Qc 0 <= amount (decideSolution now t (Some o) c e))%Qc.
Proof.
  intros Hlines Htotal Hfee.
  assert (Hpos : forall q : Q, (0 <= q)%Q -> (Q2Qc 0 <= Q2Qc q)%Qc)
    by (intros q Hq; now apply Q2Qc_le).
  assert (Haff : forall t e', (Q2Qc 0 <= decisions.affectedAmount t o e')%Qc).
  { intros t' e'. unfold decisions.affectedAmount.
    destruct t'; try apply calculateAffectedItemsAmount_bounds; auto.
    destruct (wrongItems e') as [[|w ws]|]; auto.
    apply calculateAffectedItemsAmount_bounds; auto. }
  assert (Hitems : t = WRONG_ORDER \/ t = MISSING_ITEM ->
                   (Q2Qc 0 <= amount (decideSolution now t (Some o) c e))%Qc).
  { intros Ht. destruct e as [e|].
    - rewrite decideSolution_items by exact Ht.
      destruct (decisions.redeliveryIsPossible now o); simpl; [apply Haff|].
      destruct c as [c|]; simpl; [|now apply Hpos].
      destruct (isPremium (membershipTier c)); simpl; [|apply Haff].
      replace (Q2Qc 0) with (Q2Qc 0 + Q2Qc 0)%Qc by ring.
      apply Qcplus_le_compat; [apply Haff|]. apply min_nonneg; [|now apply Hpos].
      specialize (Haff t e). unfold config.compensationRates.premiumBonus.
      qc_to_q. nra.
    - destruct Ht as [-> | ->]; now apply Hpos. }
  destruct t; auto.
  - (* LATE_DELIVERY *)
    destruct e as [e|]; [|now apply Hpos].
    unfold decideSolution, decideSolution_try. simpl.
    destruct (_ >? Q2Qc 90)%Qc; simpl; [exact Htotal|].
    apply min_nonneg; [|now apply Hpos].
    unfold config.compensationRates.veryLate, config.compensationRates.moderatelyLate,
      config.compensationRates.slightlyLate.
    repeat match goal with
           | |- context [if ?b then _ else _] => destruct b
           end; qc_to_q; lra.
  - all: unfold decideSolution, decideSolution_try; simpl.
    destruct (deliveryFee o) as [f|] eqn:Hf; [|now apply Hpos].
    destruct (Js.eqb f (Q2Qc 0)); [now apply Hpos | now apply Hfee].
  - unfold decideSolution, decideSolution_try; simpl.
    destruct (deliveryFee o) as [f|] eqn:Hf; [|now apply Hpos].
    destruct (Js.eqb f (Q2Qc 0)); [now apply Hpos | now apply Hfee].
  - unfold decideSolution, decideSolution_try; simpl.
    destruct (deliveryFee o) as [f|] eqn:Hf; [|now apply Hpos].
    destruct (Js.eqb f (Q2Qc 0)); [now apply Hpos | now apply Hfee].
  - unfold decideSolution, decideSolution_try; simpl.
    destruct (deliveryFee o) as [f|] eqn:Hf; [|now apply Hpos].
    destruct (Js.eqb f (Q2Qc 0)); [now apply Hpos | now apply Hfee].
  - unfold decideSolution, decideSolution_try; simpl.
    destruct (deliveryFee o) as [f|] eqn:Hf; [|now apply Hpos].
    destruct (Js.eqb f (Q2Qc 0)); [now apply Hpos | now apply Hfee].
Qed.

Lemma amount_nonneg_witness :
  decisions.linesNonNegative examples.orderWithFreeDip
  /\ (Q2Qc 0 <= amount (decideSolution examples.threeDaysLater MISSING_ITEM
                          (Some examples.orderWithFreeDip) (Some examples.regular)
                          (Some examples.pizzaMissing)))%Qc.
Proof.
  assert (Hlines : decisions.linesNonNegative examples.orderWithFreeDip).
  { repeat constructor; vm_compute; discriminate. }
  split; [exact Hlines|].
  apply amount_nonneg; [exact Hlines | vm_compute; discriminate |].
  intros f [= <-]. vm_compute. discriminate.
Defined.

Lemma isWhole_inject (z : Z) : decisions.isWhole (Q2Qc (inject_Z z)) = true.
Proof.
  unfold decisions.isWhole. cbn [Q2Qc this].
  rewrite Qred_identity; [reflexivity|]. simpl. apply Z.gcd_1_r.
Qed.

Lemma isWhole_eq (x : Qc) :
  decisions.isWhole x = true -> x = Q2Qc (inject_Z (Qnum x)).
Proof.
  destruct x as [[n d] Hc]. unfold decisions.isWhole. cbn [this Qden Qnum].
  intros H. apply Pos.eqb_eq in H. subst d.
  apply Qc_is_canon. cbn [Q2Qc this]. rewrite Qred_correct. reflexivity.
Qed.

Lemma isWhole_plus (x y : Qc) :
  decisions.isWhole x = true -> decisions.isWhole y = true ->
  decisions.isWhole (x + y)%Qc = true.
Proof.
  intros Hx Hy. rewrite (isWhole_eq x Hx), (isWhole_eq y Hy).
  replace (Q2Qc (inject_Z (Qnum x)) + Q2Qc (inject_Z (Qnum y)))%Qc
    with (Q2Qc (inject_Z (Qnum x + Qnum y))); [apply isWhole_inject|].
  apply Qc_is_canon. unfold Qcplus. cbn [Q2Qc this]. rewrite !Qred_correct.
  rewrite inject_Z_plus. reflexivity.
Qed.

Lemma isWhole_mult (x y : Qc) :
  decisions.isWhole x = true -> decisions.isWhole y = true ->
  decisions.isWhole (x * y)%Qc = true.
Proof.
  intros Hx Hy. rewrite (isWhole_eq x Hx), (isWhole_eq y Hy).
  replace (Q2Qc (inject_Z (Qnum x)) * Q2Qc (inject_Z (Qnum y)))%Qc
    with (Q2Qc (inject_Z (Qnum x * Qnum y))); [apply isWhole_inject|].
  apply Qc_is_canon. unfold Qcmult. cbn [Q2Qc this]. rewrite !Qred_correct.
  rewrite inject_Z_mult. reflexivity.
Qed.

Lemma sumItems_app (l1 l2 : list OrderItem) :
  spec.sumItems (l1 ++ l2)%list = (spec.sumItems l1 + spec.sumItems l2)%Qc.
Proof.
  induction l1 as [|it l1 IH]; simpl; [ring|]. rewrite IH. ring.
Qed.

(** The matched lines of whole-unit lines sum to a whole number. *)
Lemma matched_sum_whole (f : OrderItem -> bool) (its : list OrderItem) :
  Forall (fun item => decisions.isWhole (price item) = true
                      /\ decisions.isWhole (quantity item) = true) its ->
  decisions.isWhole (spec.sumItems (List.filter f its)) = true.
Proof.
  induction 1 as [|it its [Hp Hq] Hits IH]; simpl; [reflexivity|].
  destruct (f it); simpl; [|exact IH].
  apply isWhole_plus; [now apply isWhole_mult | exact IH].
Qed.

(** On an order priced in whole units, whose lines are not negative and sum
    to no more than its total, itself between 0 and 2^53: every value the
    affected-items loop computes (each line value, and the accumulator after
    any number of lines) is a whole number between 0 and 2^53, where the
    sums and products of doubles are exact; and a REFUND never exceeds the
    order total, whatever the issue type, the customer and the entities. *)
Theorem refund_within_total (now : Z) (t : IssueType) (o : OrderDetails)
    (c : option CustomerInfo) (e : option Entities) :
  decisions.linesNonNegative o ->
  decisions.linesWithinTotal o ->
  decisions.wholeLines o ->
  (Q2Qc 0 <= totalAmount o)%Qc ->
  (totalAmount o <= decisions.exactRange)%Qc ->
  (forall names done item rest,
      items o = (done ++ item :: rest)%list ->
      (decisions.isWhole (price item * quantity item) = true
       /\ (Q2Qc 0 <= price item * quantity item)%Qc
       /\ (price item * quantity item <= decisions.exactRange)%Qc)
      /\ (decisions.isWhole (affectedSum names (done ++ [item])) = true
          /\ (Q2Qc 0 <= affectedSum names (done ++ [item]))%Qc
          /\ (affectedSum names (done ++ [item]) <= decisions.exactRange)%Qc))
  /\ (solution_type (decideSolution now t (Some o) c e) = REFUND ->
      (amount (decideSolution now t (Some o) c e) <= totalAmount o)%Qc).
Proof.
  intros Hlines Hwithin Hwhole Htotal Hrange. split.
  - intros names done item rest Hitems.
    unfold decisions.linesNonNegative, decisions.wholeLines, decisions.linesWithinTotal in *.
    replace (done ++ item :: rest)%list with ((done ++ [item]) ++ rest)%list in Hitems
      by now rewrite <- app_assoc.
    rewrite Hitems in *.
    apply List.Forall_app in Hlines as [Hpre Hpost].
    apply List.Forall_app in Hwhole as [Hwpre _].
    pose proof (matched_sum_bounds (fun _ => true) rest Hpost) as [Hrest _].
    rewrite filter_all in Hrest.
    assert (Hsum : (spec.sumItems (done ++ [item]) <= totalAmount o)%Qc).
    { apply Qcle_trans with (spec.sumItems ((done ++ [item]) ++ rest)); [|exact Hwithin].
      rewrite (sumItems_app (done ++ [item]) rest).
      replace (spec.sumItems (done ++ [item]))
        with (spec.sumItems (done ++ [item]) + Q2Qc 0)%Qc at 1 by ring.
      apply Qcplus_le_compat; [apply Qcle_refl | exact Hrest]. }
    split.
    + apply List.Forall_app in Hpre as [Hdone Hitem].
      apply List.Forall_app in Hwpre as [_ Hwitem].
      inversion Hitem as [|? ? Hi _]; subst. inversion Hwitem as [|? ? [Hp Hq] _]; subst.
      split; [now apply isWhole_mult|]. split; [exact Hi|].
      apply Qcle_trans with (totalAmount o); [|exact Hrange].
      apply Qcle_trans with (spec.sumItems (done ++ [item])); [|exact Hsum].
      rewrite sumItems_app. simpl.
      pose proof (matched_sum_bounds (fun _ => true) done Hdone) as [Hd _].
      rewrite filter_all in Hd.
      replace (price item * quantity item)%Qc
        with (Q2Qc 0 + (price item * quantity item + Q2Qc 0))%Qc at 1 by ring.
      apply Qcplus_le_compat; [exact Hd | apply Qcle_refl].
    + rewrite affectedSum_matched.
      destruct (matched_sum_bounds (itemAffected names) (done ++ [item]) Hpre) as [H0 H1].
      split; [now apply matched_sum_whole|]. split; [exact H0|].
      apply Qcle_trans with (totalAmount o); [|exact Hrange].
      exact (Qcle_trans _ _ _ H1 Hsum).
  - assert (Hcalc : forall names,
               (calculateAffectedItemsAmount o names <= totalAmount o)%Qc).
    { intros names.
      destruct (calculateAffectedItemsAmount_bounds o names Hlines Htotal) as [_ [H | ->]].
      - exact (Qcle_trans _ _ _ H Hwithin).
      - now apply share_bounds. }
    assert (Haff : forall t e', (decisions.affectedAmount t o e' <= totalAmount o)%Qc).
    { intros t' e'. unfold decisions.affectedAmount.
      destruct t'; try apply Hcalc.
      destruct (wrongItems e') as [[|w ws]|]; try apply Qcle_refl. apply Hcalc. }
    destruct e as [e|].
    + destruct t; try (unfold decideSolution, decideSolution_try; simpl; discriminate).
      * rewrite decideSolution_items by auto.
        destruct (decisions.redeliveryIsPossible now o); [discriminate|].
        destruct c as [c|]; [|discriminate].
        destruct (isPremium (membershipTier c)); [discriminate|]. intros _. apply Haff.
      * rewrite decideSolution_items by auto.
        destruct (decisions.redeliveryIsPossible now o); [discriminate|].
        destruct c as [c|]; [|discriminate].
        destruct (isPremium (membershipTier c)); [discriminate|]. intros _. apply Haff.
      * unfold decideSolution, decideSolution_try. simpl.
        destruct (_ >? Q2Qc 90)%Qc; simpl; [|discriminate]. intros _. apply Qcle_refl.
    + destruct t; unfold decideSolution, decideSolution_try; simpl; discriminate.
Qed.

Lemma refund_within_total_witness :
  solution_type (decideSolution examples.threeDaysLater MISSING_ITEM
                   (Some examples.pizzaOrder) (Some examples.regular)
                   (Some examples.pizzaMissing)) = REFUND
  /\ (amount (decideSolution examples.threeDaysLater MISSING_ITEM
                (Some examples.pizzaOrder) (Some examples.regular)
                (Some examples.pizzaMissing)) <= Q2Qc 500)%Qc.
Proof.
  split; [reflexivity|].
  apply (refund_within_total examples.threeDaysLater MISSING_ITEM examples.pizzaOrder
           (Some examples.regular) (Some examples.pizzaMissing)).
  - repeat constructor; vm_compute; discriminate.
  - vm_compute. discriminate.
  - repeat constructor.
  - vm_compute. discriminate.
  - vm_compute. discriminate.
  - reflexivity.
Defined.

(** Where [decideSolution] faults, and what it then answers: on a missing
    order; on missing entities for the three complaint types; on a missing
    customer once a WRONG_ORDER / MISSING_ITEM report is past redelivery.  The
    answer is then a CREDIT of 100 as "Standard compensation", not the
    delivery-fee credit of the unmatched issue types. *)
Theorem decideSolution_fault (now : Z) (t : IssueType) (od : option OrderDetails)
    (c : option CustomerInfo) (e : option Entities) :
  (Js.throws (decideSolution_try now t od c e) <->
   od = None
   \/ (e = None /\ (t = WRONG_ORDER \/ t = MISSING_ITEM \/ t = LATE_DELIVERY))
   \/ (exists o, od = Some o /\ c = None /\ (t = WRONG_ORDER \/ t = MISSING_ITEM)
                 /\ decisions.redeliveryIsPossible now o = false))
  /\ (Js.throws (decideSolution_try now t od c e) ->
      decideSolution now t od c e
      = mkSolution CREDIT (Q2Qc 100) "Standard compensation" None None).
Proof.
  split.
  - unfold Js.throws. split.
    + intros [err Herr]. destruct od as [o|]; [|now left]. right.
      destruct e as [e|].
      * right. exists o. unfold decideSolution_try in Herr. cbn [Js.bind Js.deref] in Herr.
        fold (decisions.redeliveryIsPossible now o) in Herr.
        destruct t; cbn [Js.bind Js.deref] in Herr;
          try (repeat match type of Herr with
                      | (if ?b then _ else _) = _ => destruct b
                      | Js.Normal _ = _ => discriminate
                      end; fail).
        all: destruct (decisions.redeliveryIsPossible now o); [discriminate|].
        all: destruct c as [c|]; [|auto].
        all: cbn [Js.bind Js.deref] in Herr;
          destruct (isPremium (membershipTier c)); discriminate.
      * left. split; [reflexivity|].
        destruct t; auto; unfold decideSolution_try in Herr; simpl in Herr; discriminate.
    + intros [-> | [[-> Ht] | (o & -> & -> & Ht & Hr)]].
      * now exists Js.TypeError.
      * destruct od as [o|]; [|now exists Js.TypeError].
        destruct Ht as [-> | [-> | ->]]; now exists Js.TypeError.
      * destruct e as [e|].
        -- unfold decideSolution_try. cbn [Js.bind Js.deref].
           fold (decisions.redeliveryIsPossible now o). rewrite Hr.
           destruct Ht as [-> | ->]; now exists Js.TypeError.
        -- destruct Ht as [-> | ->]; now exists Js.TypeError.
  - intros H. unfold decideSolution. now apply tryCatch_throws.
Qed.

Lemma decideSolution_fault_witness :
  Js.throws (decideSolution_try examples.threeDaysLater WRONG_ORDER
               (Some examples.pizzaOrder) None (Some examples.noEntities))
  /\ amount (decideSolution examples.threeDaysLater WRONG_ORDER
               (Some examples.pizzaOrder) None (Some examples.noEntities)) = Q2Qc 100.
Proof.
  assert (H : Js.throws (decideSolution_try examples.threeDaysLater WRONG_ORDER
                           (Some examples.pizzaOrder) None (Some examples.noEntities))).
  { apply (proj1 (decideSolution_fault _ _ _ _ _)). right. right.
    exists examples.pizzaOrder. repeat split; auto. }
  split; [exact H|].
  now rewrite (proj2 (decideSolution_fault _ _ _ _ _) H).
Defined.

Ltac split_gtb :=
  repeat match goal with
         | |- context [(?a >? ?b)%Qc] =>
             let H := fresh "H" in
             destruct (a >? b)%Qc eqn:H; [apply gtb_true in H | apply gtb_false in H]
         end.

(** The amount of the LATE_DELIVERY branch. *)
Lemma decide_late_amount now o c e l :
  entity_latenessMinutes e = Some l ->
  amount (decideSolution now LATE_DELIVERY (Some o) c (Some e))
  = if (l >? Q2Qc 90)%Qc then totalAmount o
    else Js.min (totalAmount o * spec.lateRate l)%Qc config.thresholds.maxLateFee.
Proof.
  intros Hl. unfold decideSolution, decideSolution_try. simpl. rewrite Hl.
  now destruct (l >? Q2Qc 90)%Qc.
Qed.

Lemma lateRate_bounds (l : Qc) :
  (Q2Qc 0 <= spec.lateRate l)%Qc /\ (spec.lateRate l <= Q2Qc 0.3)%Qc.
Proof. unfold spec.lateRate. split_gtb; split; qc_to_q; lra. Qed.

Lemma lateRate_mono (l1 l2 : Qc) :
  (l1 <= l2)%Qc -> (spec.lateRate l1 <= spec.lateRate l2)%Qc.
Proof. intros H. unfold spec.lateRate. split_gtb; qc_to_q; lra. Qed.

Lemma min_mono (x y cap : Qc) : (x <= y)%Qc -> (Js.min x cap <= Js.min y cap)%Qc.
Proof.
  intros H. unfold Js.min.
  destruct (cap <? x)%Qc eqn:Hx; [apply ltb_true in Hx | apply ltb_false in Hx];
    (destruct (cap <? y)%Qc eqn:Hy; [apply ltb_true in Hy | apply ltb_false in Hy]);
    qc_to_q; lra.
Qed.

(** Late-delivery compensation grows with the lateness: on an order with a
    non-negative total, a longer delay never earns a smaller amount, across
    the rate table and the switch to a full refund above 90 minutes; and a
    CREDIT for lateness never exceeds the maximum late fee of 200. *)
Theorem late_compensation_monotone (now : Z) (o : OrderDetails)
    (c : option CustomerInfo) (e1 e2 : Entities) (l1 l2 : Qc) :
  (Q2Qc 0 <= totalAmount o)%Qc ->
  entity_latenessMinutes e1 = Some l1 ->
  entity_latenessMinutes e2 = Some l2 ->
  (l1 <= l2)%Qc ->
  (amount (decideSolution now LATE_DELIVERY (Some o) c (Some e1))
   <= amount (decideSolution now LATE_DELIVERY (Some o) c (Some e2)))%Qc
  /\ (solution_type (decideSolution now LATE_DELIVERY (Some o) c (Some e1)) = CREDIT ->
      (amount (decideSolution now LATE_DELIVERY (Some o) c (Some e1))
       <= config.thresholds.maxLateFee)%Qc).
Proof.
  intros Htotal H1 H2 Hle. split.
  - rewrite (decide_late_amount now o c e1 l1 H1), (decide_late_amount now o c e2 l2 H2).
    destruct (lateRate_bounds l1) as [Hr0 Hr3].
    assert (Hshare : (totalAmount o * spec.lateRate l1 <= totalAmount o)%Qc).
    { replace (totalAmount o) with (totalAmount o * Q2Qc 1)%Qc at 2 by ring.
      rewrite (Qcmult_comm (totalAmount o)), (Qcmult_comm (totalAmount o) (Q2Qc 1)).
      apply Qcmult_le_compat_r; [|exact Htotal].
      apply (Qcle_trans _ _ _ Hr3). qc_to_q. lra. }
    destruct (l1 >? Q2Qc 90)%Qc eqn:G1; [apply gtb_true in G1 | apply gtb_false in G1];
      (destruct (l2 >? Q2Qc 90)%Qc eqn:G2;
       [apply gtb_true in G2 | apply gtb_false in G2]).
    + apply Qcle_refl.
    + exfalso. qc_to_q. lra.
    + apply (Qcle_trans _ (totalAmount o * spec.lateRate l1)%Qc); [apply min_spec|].
      exact Hshare.
    + apply min_mono.
      rewrite (Qcmult_comm (totalAmount o)), (Qcmult_comm (totalAmount o) (spec.lateRate l2)).
      apply Qcmult_le_compat_r; [now apply lateRate_mono | exact Htotal].
  - rewrite (decide_late_amount now o c e1 l1 H1).
    unfold decideSolution, decideSolution_try. simpl. rewrite H1.
    destruct (l1 >? Q2Qc 90)%Qc; simpl; [discriminate|]. intros _. apply min_spec.
Qed.

Lemma late_compensation_monotone_witness :
  (amount (decideSolution 0 LATE_DELIVERY (Some examples.pizzaOrder) None
             (Some (mkEntities None None None [] None (Some (Q2Qc 45)))))
   <= amount (decideSolution 0 LATE_DELIVERY (Some examples.pizzaOrder) None
                (Some (mkEntities None None None [] None (Some (Q2Qc 95))))))%Qc.
Proof.
  apply (late_compensation_monotone 0 examples.pizzaOrder None
           (mkEntities None None None [] None (Some (Q2Qc 45)))
           (mkEntities None None None [] None (Some (Q2Qc 95)))
           (Q2Qc 45) (Q2Qc 95)); try reflexivity; vm_compute; discriminate.
Defined.

(** What an accepted late-delivery report hands on: a lateness of at least 10
    minutes, the one computed from the order. *)
Lemma verifyLateDeliveryIssue_accepted now o c :
  verified (verifyLateDeliveryIssue now (Some o) c) = true ->
  (config.thresholds.acceptableLateness <= lateness o)%Qc
  /\ latenessMinutes (verifyLateDeliveryIssue now (Some o) c) = Some (lateness o).
Proof.
  unfold verifyLateDeliveryIssue, verifyLateDeliveryIssue_try. simpl.
  destruct (lateness o <=? Q2Qc 0)%Qc; simpl; [discriminate|].
  destruct (lateness o <? config.thresholds.acceptableLateness)%Qc eqn:H10; simpl;
    [discriminate|].
  apply ltb_false in H10.
  destruct (_ >? config.verificationWindows.lateDeliveryHours)%Qc; simpl;
    [discriminate|]. auto.
Qed.

(** Verification and decision do not meet between 10 and 15 minutes: a late
    delivery that verification accepts but that was at most 15 minutes late
    is compensated with a CREDIT of zero, when the verified lateness is what
    the decision is given. *)
Theorem short_delay_credit_is_zero (now now' : Z) (o : OrderDetails)
    (c c' : option CustomerInfo) (e : Entities) :
  verified (verifyLateDeliveryIssue now (Some o) c) = true ->
  (lateness o <= Q2Qc 15)%Qc ->
  entity_latenessMinutes e = latenessMinutes (verifyLateDeliveryIssue now (Some o) c) ->
  solution_type (decideSolution now' LATE_DELIVERY (Some o) c' (Some e)) = CREDIT
  /\ amount (decideSolution now' LATE_DELIVERY (Some o) c' (Some e)) = Q2Qc 0.
Proof.
  intros Hv H15 He.
  destruct (verifyLateDeliveryIssue_accepted now o c Hv) as [H10 Hl].
  rewrite Hl in He.
  assert (G15 : (lateness o >? Q2Qc 15)%Qc = false) by now apply gtb_false.
  assert (G30 : (lateness o >? Q2Qc 30)%Qc = false)
    by (apply gtb_false; qc_to_q; lra).
  assert (G60 : (lateness o >? Q2Qc 60)%Qc = false)
    by (apply gtb_false; qc_to_q; lra).
  assert (G90 : (lateness o >? Q2Qc 90)%Qc = false)
    by (apply gtb_false; qc_to_q; lra).
  unfold decideSolution, decideSolution_try. simpl. rewrite He, G15, G30, G60, G90.
  simpl. split; [reflexivity|].
  replace (totalAmount o * Q2Qc 0)%Qc with (Q2Qc 0) by ring.
  apply Qc_is_canon. reflexivity.
Qed.

Lemma short_delay_credit_is_zero_witness :
  verified (verifyLateDeliveryIssue 2400000 (Some examples.pizzaOrder) None) = true
  /\ amount (decideSolution 2400000 LATE_DELIVERY (Some examples.pizzaOrder) None
               (Some (mkEntities None None None [] None
                        (Some (lateness examples.pizzaOrder))))) = Q2Qc 0.
Proof.
  assert (Hv : verified (verifyLateDeliveryIssue 2400000 (Some examples.pizzaOrder) None)
               = true) by reflexivity.
  split; [exact Hv|].
  apply (short_delay_credit_is_zero 2400000 2400000 examples.pizzaOrder None None
           (mkEntities None None None [] None (Some (lateness examples.pizzaOrder))) Hv).
  - vm_compute. discriminate.
  - reflexivity.
Defined.

End SolutionRules.

Section RefundEligibility.

Import decisionEngine.

(** A refund is eligible exactly when the order has not been refunded yet and
    is at most 7 days old; the stated reason plays no part. *)
Theorem checkRefundEligibility_eligible_iff (now : Z) (o : OrderDetails)
    (c : CustomerInfo) (why : string) :
  eligible (checkRefundEligibility now (Some o) (Some c) why) = true <->
  refunded o = false
  /\ (Js.elapsed now (orderedAt o) 86400000
      <= Q2Qc (inject_Z config.thresholds.refundEligibilityDays))%Qc.
Proof.
  unfold checkRefundEligibility, checkRefundEligibility_try. simpl.
  destruct (refunded o); simpl; [split; [discriminate | intros [H _]; discriminate]|].
  destruct (_ >? Q2Qc (inject_Z config.thresholds.refundEligibilityDays))%Qc eqn:Hd; simpl.
  - apply gtb_true in Hd. split; [discriminate|].
    intros [_ H]. now apply Qcle_not_lt in H.
  - apply gtb_false in Hd. split; auto.
Qed.



End RefundEligibility.

Section AffectedItems.

Import decisionEngine.

Lemma lowerAscii_idem (c : ascii) : Js.lowerAscii (Js.lowerAscii c) = Js.lowerAscii c.
Proof. destruct c as [[] [] [] [] [] [] [] []]; reflexivity. Qed.

Lemma toLowerCase_idem (s : string) : Js.toLowerCase (Js.toLowerCase s) = Js.toLowerCase s.
Proof.
  induction s as [|c s IH]; simpl; [reflexivity|]. now rewrite lowerAscii_idem, IH.
Qed.

Lemma itemAffected_ext (names names' : list string) (item : OrderItem) :
  (forall x, In x (map Js.toLowerCase names) <-> In x (map Js.toLowerCase names')) ->
  itemAffected names item = itemAffected names' item.
Proof.
  intros H. unfold itemAffected. apply eq_true_iff_eq.
  rewrite !existsb_exists. split; intros (x & Hin & Hx); exists x; split; auto;
    now apply H.
Qed.

(** The affected amount depends on the claimed names only through the set of
    their lower-cased forms: repeating a name, reordering the names or
    changing their case changes nothing, and a line that matches several
    names is counted once. *)
Theorem affected_amount_by_name_set (o : OrderDetails) (names names' : list string) :
  (forall x, In x (map Js.toLowerCase names) <-> In x (map Js.toLowerCase names')) ->
  calculateAffectedItemsAmount o (Some names) = calculateAffectedItemsAmount o (Some names').
Proof.
  intros H.
  assert (Hsum : affectedSum names (items o) = affectedSum names' (items o)).
  { rewrite !affectedSum_matched. f_equal. apply filter_ext.
    intros item. now apply itemAffected_ext. }
  unfold calculateAffectedItemsAmount.
  destruct names as [|n ns], names' as [|n' ns']; try reflexivity.
  - exfalso. apply (proj2 (H (Js.toLowerCase n'))). now left.
  - exfalso. apply (proj1 (H (Js.toLowerCase n))). now left.
  - now rewrite Hsum.
Qed.

Lemma affected_amount_by_name_set_witness :
  calculateAffectedItemsAmount examples.pizzaOrder (Some [ "Pizza"; "PIZZA"; "pizza" ])
  = calculateAffectedItemsAmount examples.pizzaOrder (Some [ "pizza" ]).
Proof.
  apply affected_amount_by_name_set. intros x. simpl. tauto.
Defined.

Lemma includes_empty (s : string) : Js.includes s "" = true.
Proof. destruct s; reflexivity. Qed.

(** An empty claimed name occurs in every item name: it claims the whole
    order, so the affected amount is the sum of all lines (or, when that sum
    is zero, the 30% share of the total). *)
Theorem empty_name_claims_everything (o : OrderDetails) (names : list string) :
  In "" names ->
  calculateAffectedItemsAmount o (Some names)
  = if Js.eqb (spec.sumItems (items o)) (Q2Qc 0)
    then (totalAmount o * Q2Qc 0.3)%Qc
    else spec.sumItems (items o).
Proof.
  intros Hin.
  assert (Hall : forall item, itemAffected names item = true).
  { intros item. unfold itemAffected. apply existsb_exists. exists "".
    split; [|apply includes_empty].
    change "" with (Js.toLowerCase ""). now apply in_map. }
  unfold calculateAffectedItemsAmount. destruct names as [|n ns]; [destruct Hin|].
  rewrite affectedSum_matched.
  rewrite (filter_ext _ (fun _ => true) Hall), filter_all. simpl.
  now rewrite andb_true_r.
Qed.

Lemma empty_name_claims_everything_witness :
  calculateAffectedItemsAmount examples.orderWithFreeDip (Some [ "burger"; "" ])
  = Q2Qc 299.
Proof.
  rewrite (empty_name_claims_everything examples.orderWithFreeDip [ "burger"; "" ]).
  - apply Qc_is_canon. reflexivity.
  - simpl. auto.
Defined.

End AffectedItems.

(** * Further properties of the escalation policy *)

Section EscalationRules.

Import escalationManager.

(** [determinePriority] never answers LOW; for a session with a customer
    record it answers HIGH exactly when the customer is PRO or PRO_PLUS, or
    the conversation has more than 10 messages, or an order exceeds the
    high-value threshold, or the customer complains more than 3 times a
    month. *)
Theorem determinePriority_high_iff (session : Session) :
  determinePriority session <> LOW
  /\ forall c, customerInfo session = Some c ->
       (determinePriority session = HIGH <->
        isPremium (membershipTier c) = true
        \/ (10 < length (conversationHistory session))%nat
        \/ highValueOrder (orderDetails session) = true
        \/ 3 < complaintFrequency c).
Proof.
  unfold determinePriority, determinePriority_try. split.
  - destruct (customerInfo session) as [c|]; simpl; [|discriminate].
    destruct (membershipTier c); try discriminate.
    repeat match goal with
           | |- context [if ?b then _ else _] => destruct b
           end; discriminate.
  - intros c ->. simpl. destruct (membershipTier c); simpl; try (split; auto; fail).
    destruct (Nat.ltb 10 _) eqn:Hn; simpl.
    { apply Nat.ltb_lt in Hn. split; auto. }
    apply Nat.ltb_ge in Hn.
    destruct (highValueOrder (orderDetails session)); simpl; [split; auto|].
    destruct (Z.ltb 3 (complaintFrequency c)) eqn:Hf; simpl.
    { apply Z.ltb_lt in Hf. split; auto. }
    apply Z.ltb_ge in Hf. split; [discriminate|].
    intros [H | [H | [H | H]]]; try discriminate; lia.
Qed.

Lemma determinePriority_high_iff_witness :
  customerInfo (examples.session examples.proPlus []) = Some examples.proPlus
  /\ determinePriority (examples.session examples.proPlus []) = HIGH.
Proof.
  split; [reflexivity|].
  apply (proj2 (determinePriority_high_iff (examples.session examples.proPlus []))
               examples.proPlus eq_refl).
  left. reflexivity.
Defined.

Lemma userMessages_app (h : list Message) (m : Message) :
  userMessages (h ++ [m])%list
  = (userMessages h
       ++ match role m with
          | user => [ Js.toLowerCase (content m) ]
          | assistant => []
          end)%list.
Proof.
  unfold userMessages. rewrite List.filter_app, List.map_app. simpl. now destruct (role m).
Qed.

(** The escalation decision is monotone in the session: once
    [shouldAutoEscalate] holds it keeps holding after any further message and
    any further resolution is appended. *)
Theorem shouldAutoEscalate_monotone (session : Session) (m : Message) (r : Resolution) :
  shouldAutoEscalate session = true ->
  shouldAutoEscalate (pushMessage m session) = true
  /\ forall session', pushResolution r session = Js.Normal session' ->
                      shouldAutoEscalate session' = true.
Proof.
  intros H.
  destruct (customerInfo session) as [c|] eqn:Hc;
    [|unfold shouldAutoEscalate, shouldAutoEscalate_try in H; rewrite Hc in H;
      discriminate].
  rewrite (shouldAutoEscalate_orb session c Hc) in H.
  apply orb_true_iff in H as [H | Hres].
  - split.
    + rewrite (shouldAutoEscalate_orb (pushMessage m session) c Hc).
      cbn [pushMessage conversationHistory orderDetails resolutions].
      apply orb_true_iff. left.
      apply orb_true_iff in H as [H | H]; [|now rewrite H, orb_true_r].
      apply orb_true_iff in H as [H | H]; [now rewrite H|].
      apply orb_true_iff. left. apply orb_true_iff. right.
      apply Nat.leb_le in H. apply Nat.leb_le.
      rewrite userMessages_app, List.filter_app, List.length_app. lia.
    + intros session'. unfold pushResolution.
      destruct (resolutions session) as [rs|]; [|discriminate]. intros [= <-].
      erewrite shouldAutoEscalate_orb by (simpl; exact Hc).
      cbn [conversationHistory orderDetails resolutions].
      apply orb_true_iff. now left.
  - destruct (resolutions session) as [rs|] eqn:Hrs; [|discriminate]. split.
    + rewrite (shouldAutoEscalate_orb (pushMessage m session) c Hc).
      cbn [pushMessage conversationHistory orderDetails resolutions].
      rewrite Hrs, Hres. apply orb_true_r.
    + intros session'. unfold pushResolution. rewrite Hrs. intros [= <-].
      erewrite shouldAutoEscalate_orb by (simpl; exact Hc).
      cbn [conversationHistory orderDetails resolutions].
      apply orb_true_iff. right. apply Nat.leb_le in Hres. apply Nat.leb_le.
      rewrite List.length_app. simpl. lia.
Qed.

Lemma shouldAutoEscalate_monotone_witness :
  shouldAutoEscalate examples.frustratedSession = true
  /\ shouldAutoEscalate
       (pushMessage (mkMessage user "thank you" 5) examples.frustratedSession) = true.
Proof.
  assert (H : shouldAutoEscalate examples.frustratedSession = true) by reflexivity.
  split; [exact H|].
  exact (proj1 (shouldAutoEscalate_monotone examples.frustratedSession
                  (mkMessage user "thank you" 5)
                  (mkResolution REFUND "order_67890" (Q2Qc 500) 5 true) H)).
Defined.

(** Only what the customer writes counts: appending an assistant message, or
    a user message without a frustration indicator, leaves the escalation
    decision as it was. *)
Theorem shouldAutoEscalate_ignores (session : Session) (m : Message) :
  role m = assistant
  \/ frustrated frustrationIndicators (Js.toLowerCase (content m)) = false ->
  shouldAutoEscalate (pushMessage m session) = shouldAutoEscalate session.
Proof.
  intros H.
  destruct (customerInfo session) as [c|] eqn:Hc.
  - rewrite (shouldAutoEscalate_orb (pushMessage m session) c Hc),
      (shouldAutoEscalate_orb session c Hc).
    cbn [pushMessage conversationHistory orderDetails resolutions].
    rewrite userMessages_app, List.filter_app, List.length_app.
    destruct (role m) eqn:Hr.
    + destruct H as [H | H]; [discriminate|]. cbn [List.filter]. rewrite H.
      cbn [length]. now rewrite Nat.add_0_r.
    + cbn [List.filter length]. now rewrite Nat.add_0_r.
  - unfold shouldAutoEscalate, shouldAutoEscalate_try.
    cbn [pushMessage customerInfo]. now rewrite Hc.
Qed.

Lemma shouldAutoEscalate_ignores_witness :
  shouldAutoEscalate
    (pushMessage (mkMessage assistant responses.escalationRequest 5) examples.annoyedOnce)
  = false.
Proof.
  rewrite (shouldAutoEscalate_ignores examples.annoyedOnce
             (mkMessage assistant responses.escalationRequest 5)); [reflexivity|].
  now left.
Defined.

End EscalationRules.

(** * Further properties of the session endpoints *)

Lemma laterStateOf_refl (s : Session) : lifecycle.laterStateOf s s.
Proof.
  unfold lifecycle.laterStateOf, lifecycle.continues. repeat split; auto.
  - exists []. now rewrite app_nil_r.
  - destruct (resolutions s) as [rs|]; [|reflexivity]. exists []. now rewrite app_nil_r.
Qed.

Lemma laterStateOf_trans (s1 s2 s3 : Session) :
  lifecycle.laterStateOf s1 s2 -> lifecycle.laterStateOf s2 s3 ->
  lifecycle.laterStateOf s1 s3.
Proof.
  unfold lifecycle.laterStateOf, lifecycle.continues.
  intros (A1 & A2 & A3 & A4 & A5 & A6 & A7 & (m1 & A8) & A9 & A10)
         (B1 & B2 & B3 & B4 & B5 & B6 & B7 & (m2 & B8) & B9 & B10).
  repeat split; try congruence; auto.
  - exists (m1 ++ m2)%list. now rewrite B8, A8, app_assoc.
  - destruct (resolutions s1) as [r1|].
    + destruct A9 as (more1 & A9). rewrite A9 in B9. destruct B9 as (more2 & B9).
      exists (more1 ++ more2)%list. now rewrite B9, app_assoc.
    + rewrite A9 in B9. exact B9.
Qed.

Lemma laterStateOf_touch (now : Z) (s : Session) : lifecycle.laterStateOf s (touch now s).
Proof.
  unfold lifecycle.laterStateOf, lifecycle.continues, touch. simpl. repeat split; auto.
  - exists []. now rewrite app_nil_r.
  - destruct (resolutions s) as [rs|]; [|reflexivity]. exists []. now rewrite app_nil_r.
Qed.

Lemma laterStateOf_pushMessage (m : Message) (s : Session) :
  lifecycle.laterStateOf s (pushMessage m s).
Proof.
  unfold lifecycle.laterStateOf, lifecycle.continues, pushMessage. simpl.
  repeat split; auto.
  - now exists [m].
  - destruct (resolutions s) as [rs|]; [|reflexivity]. exists []. now rewrite app_nil_r.
Qed.

Lemma laterStateOf_setEscalated (s : Session) : lifecycle.laterStateOf s (setEscalated s).
Proof.
  unfold lifecycle.laterStateOf, lifecycle.continues, setEscalated. simpl.
  repeat split; auto.
  - exists []. now rewrite app_nil_r.
  - destruct (resolutions s) as [rs|]; [|reflexivity]. exists []. now rewrite app_nil_r.
Qed.

Lemma laterStateOf_pushResolution (r : Resolution) (s s' : Session) :
  pushResolution r s = Js.Normal s' -> lifecycle.laterStateOf s s'.
Proof.
  unfold pushResolution. destruct (resolutions s) as [rs|] eqn:Hrs; [|discriminate].
  intros [= <-]. unfold lifecycle.laterStateOf, lifecycle.continues. simpl.
  rewrite Hrs. repeat split; auto.
  - exists []. now rewrite app_nil_r.
  - now exists [r].
Qed.

Section Lifecycle.

Variable DB : Type.
Variable env : Collaborators DB.

Lemma handleWrongOrderIntent_later now db s entities :
  lifecycle.laterStateOf s (snd (fst (handleWrongOrderIntent env now db s entities))).
Proof.
  unfold handleWrongOrderIntent. cbn [config.demoMode].
  destruct (truthy _) as [oid|]; [|apply laterStateOf_refl].
  destruct (getOrderDetails env now oid) as [details|e]; [|apply laterStateOf_refl].
  destruct (pushResolution _ s) as [s'|e] eqn:Hp; simpl.
  - now apply laterStateOf_pushResolution in Hp.
  - apply laterStateOf_refl.
Qed.

Lemma respond_later now db s intent entities :
  lifecycle.laterStateOf s (snd (fst (respond env now db s intent entities))).
Proof.
  unfold respond. destruct (intent_type intent); simpl;
    try apply laterStateOf_refl.
  - apply handleWrongOrderIntent_later.
  - apply laterStateOf_setEscalated.
Qed.

(** One request, seen from a session it does not start: the session is still
    there in a later state, or the request ended it. *)
Lemma handle_later (now : Z) (srv : Server DB) (request : Request) (sid : string)
    (s : Session) :
  sessions srv !! sid = Some s ->
  (forall u c o, request = Start u c o -> u <> sid) ->
  match sessions (fst (handle env now srv request)) !! sid with
  | Some s' => lifecycle.laterStateOf s s'
  | None => request = End_ sid
  end.
Proof.
  intros Hs Hfresh.
  assert (Hsame : match sessions srv !! sid with
                  | Some s' => lifecycle.laterStateOf s s'
                  | None => request = End_ sid
                  end) by (rewrite Hs; apply laterStateOf_refl).
  destruct request as [u c o | s0 m | s0]; simpl.
  - specialize (Hfresh u c o eq_refl).
    unfold startConversation. cbn [config.demoMode].
    destruct (Js.bind _ _) as [[info details]|e]; [|exact Hsame].
    destruct (generateWelcomeMessage env now info details); simpl;
      rewrite ?lookup_insert_ne by assumption; exact Hsame.
  - unfold postMessage. cbn [config.demoMode].
    destruct (Js.getProperty (sessions srv) s0) as [session| |] eqn:Hg;
      [|exact Hsame..].
    apply getProperty_own in Hg.
    destruct (decide (s0 = sid)) as [-> | Hne].
    + assert (session = s) by congruence. subst session.
      assert (H1 : lifecycle.laterStateOf s
                     (pushMessage (mkMessage user m now) (touch now s))).
      { eapply laterStateOf_trans;
          [apply laterStateOf_touch | apply laterStateOf_pushMessage]. }
      destruct (processMessage env m _) as [[intent entities]|e]; simpl.
      * pose proof (respond_later now (database srv)
                      (pushMessage (mkMessage user m now) (touch now s))
                      intent entities) as H2.
        destruct (respond env now (database srv) _ intent entities) as [[db s2] r].
        simpl in *. rewrite lookup_insert_eq.
        eapply laterStateOf_trans; [exact H1|].
        eapply laterStateOf_trans; [exact H2 | apply laterStateOf_pushMessage].
      * now rewrite lookup_insert_eq.
    + destruct (processMessage env m _) as [[intent entities]|e]; simpl.
      * destruct (respond env now (database srv) _ intent entities) as [[db s2] r].
        simpl. now rewrite lookup_insert_ne.
      * now rewrite lookup_insert_ne.
  - unfold endConversation. cbn [config.demoMode].
    destruct (Js.getProperty (sessions srv) s0) as [session| |] eqn:Hg;
      [|exact Hsame..].
    destruct (Js.deref (resolutions session)); simpl; [|exact Hsame].
    destruct (decide (s0 = sid)) as [-> | Hne].
    + now rewrite lookup_delete_eq.
    + now rewrite lookup_delete_ne.
Qed.

Lemma serve_later (srv : Server DB) (requests : list (Z * Request)) (sid : string)
    (s : Session) :
  sessions srv !! sid = Some s ->
  (forall t u c o, In (t, Start u c o) requests -> u <> sid) ->
  match sessions (serve env srv requests) !! sid with
  | Some s' => lifecycle.laterStateOf s s'
  | None => exists t, In (t, End_ sid) requests
  end.
Proof.
  revert srv s. induction requests as [|[t r] requests IH]; intros srv s Hs Hfresh; simpl.
  - rewrite Hs. apply laterStateOf_refl.
  - assert (Hstep := handle_later t srv r sid s Hs).
    destruct (sessions (fst (handle env t srv r)) !! sid) as [s1|] eqn:H1.
    + assert (L1 : lifecycle.laterStateOf s s1).
      { apply Hstep. intros u c o ->. apply (Hfresh t u c o). now left. }
      assert (Hrest := IH (fst (handle env t srv r)) s1 H1).
      unfold serve in *.
      destruct (sessions (fold_left _ requests _) !! sid) as [s'|].
      * eapply laterStateOf_trans; [exact L1|]. apply Hrest.
        intros t' u c o Hin. apply (Hfresh t' u c o). now right.
      * destruct Hrest as [t' Hin].
        { intros t' u c o Hin. apply (Hfresh t' u c o). now right. }
        exists t'. now right.
    + assert (r = End_ sid).
      { apply Hstep. intros u c o ->. apply (Hfresh t u c o). now left. }
      subst r.
      assert (Hgone : sessions (serve env (fst (handle env t srv (End_ sid))) requests)
                        !! sid = None).
      { apply unknown_after; [exact H1|].
        intros t' u c o Hin. apply (Hfresh t' u c o). now right. }
      unfold serve in *. rewrite Hgone. exists t. now left.
Qed.

End Lifecycle.

Lemma mapM_length {A B : Type} (f : A -> Js.Completion B) (xs : list A) (ys : list B) :
  Js_list.mapM f xs = Js.Normal ys -> length ys = length xs.
Proof.
  revert ys. induction xs as [|x xs IH]; intros ys; simpl.
  - now intros [= <-].
  - destruct (f x) as [y|e]; simpl; [|discriminate].
    destruct (Js_list.mapM f xs) as [ys'|e]; simpl; [|discriminate].
    intros [= <-]. simpl. now rewrite (IH ys').
Qed.

Section SessionProperties.

Variable DB : Type.
Variable env : Collaborators DB.

(** The switch on the intent leaves history and activity time alone. *)
Lemma respond_keeps_history now db s intent entities :
  conversationHistory (snd (fst (respond env now db s intent entities)))
  = conversationHistory s
  /\ lastActivityAt (snd (fst (respond env now db s intent entities))) = lastActivityAt s.
Proof.
  unfold respond. destruct (intent_type intent); simpl; auto.
  unfold handleWrongOrderIntent. cbn [config.demoMode].
  destruct (truthy _) as [oid|]; [|auto].
  destruct (getOrderDetails env now oid) as [details|e]; [|auto].
  unfold pushResolution. destruct (resolutions s); simpl; auto.
Qed.

(** Sessions only grow.  Across any sequence of requests that does not start
    a session under the same id again, a session either is still registered,
    and then with the same identity, customer, orders and status, with both
    logs continuing the old ones entry for entry and with an escalation flag
    that has not been taken back; or it is gone, and then one of the requests
    ended it. *)
Theorem session_only_grows (srv : Server DB) (requests : list (Z * Request))
    (sid : string) (s : Session) :
  sessions srv !! sid = Some s ->
  (forall t u c o, In (t, Start u c o) requests -> u <> sid) ->
  match sessions (serve env srv requests) !! sid with
  | Some s' => lifecycle.laterStateOf s s'
  | None => exists t, In (t, End_ sid) requests
  end.
Proof. apply serve_later. Qed.

(** Requests are isolated: a request addressed to one session id leaves the
    registry entry of every other id exactly as it was. *)
Theorem other_sessions_untouched (now : Z) (srv : Server DB) (request : Request)
    (sid : string) :
  lifecycle.target request <> sid ->
  sessions (fst (handle env now srv request)) !! sid = sessions srv !! sid.
Proof.
  intros Hne. destruct request as [u c o | s0 m | s0]; simpl in *.
  - unfold startConversation. cbn [config.demoMode].
    destruct (Js.bind _ _) as [[info details]|e]; [|reflexivity].
    destruct (generateWelcomeMessage env now info details); simpl;
      now rewrite ?lookup_insert_ne by assumption.
  - unfold postMessage. cbn [config.demoMode].
    destruct (Js.getProperty (sessions srv) s0) as [session| |]; [|reflexivity..].
    destruct (processMessage env m _) as [[intent entities]|e]; simpl.
    + destruct (respond env now (database srv) _ intent entities) as [[db s2] r].
      simpl. now rewrite lookup_insert_ne.
    + now rewrite lookup_insert_ne.
  - unfold endConversation. cbn [config.demoMode].
    destruct (Js.getProperty (sessions srv) s0) as [session| |]; [|reflexivity..].
    destruct (Js.deref (resolutions session)); simpl; [|reflexivity].
    now rewrite lookup_delete_ne.
Qed.

(** A successful start registers, under the generated id, an active session
    that is not escalated, has no resolution, knows one order record per
    requested order id, and whose history is the welcome message alone. *)
Theorem start_creates_session (now : Z) (uuid : string) (srv : Server DB)
    (customer : string) (orders : list string) (id welcome : string) :
  snd (startConversation env now uuid srv customer orders) = StartOk id welcome ->
  id = uuid
  /\ exists info details,
      length details = length orders
      /\ sessions (fst (startConversation env now uuid srv customer orders)) !! uuid
         = Some (mkSession uuid customer info orders (Some details)
                   [ mkMessage assistant welcome now ] now now active false (Some [])).
Proof.
  unfold startConversation. cbn [config.demoMode].
  destruct (getCustomerInfo env customer) as [info|e]; simpl; [|discriminate].
  destruct (Js_list.mapM (getOrderDetails env now) orders) as [details|e] eqn:Hm;
    simpl; [|discriminate].
  destruct (generateWelcomeMessage env now info details) as [w|e]; simpl;
    [|discriminate].
  intros [= <- <-]. split; [reflexivity|]. exists info, details. split.
  - now apply mapM_length in Hm.
  - now rewrite lookup_insert_eq.
Qed.

(** Start and end undo each other: ending a session right after it was
    started under an id that was not in use succeeds and leaves the server
    exactly as it was before the start. *)
Theorem start_then_end (now now' : Z) (uuid : string) (srv : Server DB)
    (customer : string) (orders : list string) (id welcome : string) :
  sessions srv !! uuid = None ->
  snd (startConversation env now uuid srv customer orders) = StartOk id welcome ->
  endConversation env now' (fst (startConversation env now uuid srv customer orders)) id
  = (srv, EndOk).
Proof.
  intros Hfree. unfold startConversation. cbn [config.demoMode].
  destruct (getCustomerInfo env customer) as [info|e]; simpl; [|discriminate].
  destruct (Js_list.mapM (getOrderDetails env now) orders) as [details|e];
    simpl; [|discriminate].
  destruct (generateWelcomeMessage env now info details) as [w|e]; simpl;
    [|discriminate].
  intros [= <- <-]. unfold endConversation, Js.getProperty. cbn [config.demoMode].
  simpl. rewrite lookup_insert_eq. simpl.
  rewrite insert_insert_eq, delete_insert_id by exact Hfree. now destruct srv.
Qed.

(** Every message to a registered session is recorded, even when handling it
    fails: the session's activity time becomes the time of the request; on
    success the history grows by exactly the user message followed by the
    assistant message carrying the response, and the reply reports the stored
    escalation flag; when language processing fails the reply is a server
    error, yet the user message stays appended, with the resolutions and the
    escalation flag untouched. *)
Theorem postMessage_records (now : Z) (srv : Server DB) (sid message : string)
    (s : Session) :
  sessions srv !! sid = Some s ->
  exists s',
    sessions (fst (postMessage env now srv sid message)) !! sid = Some s'
    /\ lastActivityAt s' = now
    /\ match snd (postMessage env now srv sid message) with
       | MessageOk response esc =>
           conversationHistory s'
           = (conversationHistory s
                ++ [ mkMessage user message now; mkMessage assistant response now ])%list
           /\ esc = escalated s'
       | ServerError _ _ =>
           conversationHistory s'
           = (conversationHistory s ++ [ mkMessage user message now ])%list
           /\ resolutions s' = resolutions s /\ escalated s' = escalated s
       | _ => False
       end.
Proof.
  intros Hs. unfold postMessage. cbn [config.demoMode].
  apply getProperty_own in Hs. rewrite Hs.
  destruct (processMessage env message _) as [[intent entities]|e]; simpl.
  - pose proof (respond_keeps_history now (database srv)
                  (pushMessage (mkMessage user message now) (touch now s))
                  intent entities) as [Hh Ht].
    destruct (respond env now (database srv) _ intent entities) as [[db s2] r].
    simpl in *. eexists. split; [apply lookup_insert_eq|]. simpl.
    split; [exact Ht|]. split; [|reflexivity].
    now rewrite Hh, <- app_assoc.
  - eexists. split; [apply lookup_insert_eq|]. simpl. auto.
Qed.

(** Escalation is additive and sticky.  A message classified as an escalation
    request is answered with the escalated flag set and leaves the session
    registered, with its status, logs and orders as they were; and once a
    session is escalated, every later successful message on it reports
    [escalated = true], whatever requests came in between. *)
Theorem escalation_sticks (now : Z) (srv : Server DB) (sid message : string)
    (s : Session) (intent : Intent) (entities : Entities) :
  sessions srv !! sid = Some s ->
  (processMessage env message (pushMessage (mkMessage user message now) (touch now s))
   = Js.Normal (intent, entities) ->
   intent_type intent = ESCALATION_REQUEST ->
   snd (postMessage env now srv sid message)
   = MessageOk responses.escalationRequest true
   /\ exists s', sessions (fst (postMessage env now srv sid message)) !! sid = Some s'
                 /\ escalated s' = true /\ status s' = status s
                 /\ resolutions s' = resolutions s)
  /\ (escalated s = true ->
      forall later : list (Z * Request),
        (forall t u c o, In (t, Start u c o) later -> u <> sid) ->
        forall now' message' response esc,
          snd (postMessage env now' (serve env srv later) sid message')
          = MessageOk response esc ->
          esc = true).
Proof.
  intros Hs. split.
  - intros Hp Hi. unfold postMessage. cbn [config.demoMode].
    apply getProperty_own in Hs. rewrite Hs, Hp. unfold respond. rewrite Hi. simpl.
    split; [reflexivity|]. eexists. split; [apply lookup_insert_eq|]. auto.
  - intros Hesc later Hfresh now' message' response esc Hreply.
    pose proof (serve_later DB env srv later sid s Hs Hfresh) as Hlater.
    destruct (sessions (serve env srv later) !! sid) as [s1|] eqn:H1.
    + destruct Hlater as (_ & _ & _ & _ & _ & _ & _ & _ & _ & Hflag).
      specialize (Hflag Hesc).
      assert (Hstep := handle_later DB env now' (serve env srv later)
                         (Post sid message') sid s1 H1).
      simpl in Hstep. unfold postMessage in *. cbn [config.demoMode] in *.
      apply getProperty_own in H1. rewrite H1 in *.
      destruct (processMessage env message' _) as [[intent' entities']|e];
        simpl in *; [|discriminate].
      destruct (respond env now' _ _ intent' entities') as [[db s2] r]. simpl in *.
      rewrite lookup_insert_eq in Hstep. injection Hreply as _ <-.
      assert (L : lifecycle.laterStateOf s1
                    (pushMessage (mkMessage assistant r now') s2))
        by (apply Hstep; discriminate).
      destruct L as (_ & _ & _ & _ & _ & _ & _ & _ & _ & L). now apply L.
    + unfold postMessage in Hreply. cbn [config.demoMode] in Hreply.
      unfold Js.getProperty in Hreply. rewrite H1 in Hreply.
      destruct (Js.inheritedKey sid); discriminate.
Qed.

End SessionProperties.

Lemma session_only_grows_witness :
  exists s',
    sessions (serve (examples.collaborators WRONG_ORDER examples.noEntities) examples.server
                [ (10, Post "session-1" "wrong food");
                  (20, Start "session-2" "cust_12345" []);
                  (30, Post "session-1" "still wrong") ]) !! "session-1" = Some s'
    /\ lifecycle.laterStateOf (examples.session examples.regular []) s'
    /\ length (conversationHistory s') = 4%nat.
Proof.
  pose proof (session_only_grows unit
                (examples.collaborators WRONG_ORDER examples.noEntities) examples.server
                [ (10, Post "session-1" "wrong food");
                  (20, Start "session-2" "cust_12345" []);
                  (30, Post "session-1" "still wrong") ]
                "session-1" (examples.session examples.regular []) eq_refl) as H.
  destruct (sessions _ !! "session-1") as [s'|] eqn:Hs'; [|discriminate].
  exists s'. split; [reflexivity|]. split.
  - apply H. intros t u c o [E | [E | [E | []]]]; try discriminate.
    injection E as _ <- _ _. discriminate.
  - vm_compute in Hs'. now injection Hs' as <-.
Defined.

Lemma other_sessions_untouched_witness :
  sessions (fst (handle (examples.collaborators WRONG_ORDER examples.noEntities) 10
                   examples.server (End_ "session-1"))) !! "session-7"
  = sessions examples.server !! "session-7".
Proof.
  apply other_sessions_untouched. simpl. discriminate.
Defined.

Lemma start_creates_session_witness :
  exists info details,
    length details = 2%nat
    /\ sessions (fst (startConversation
                       (examples.collaborators GENERAL_QUERY examples.noEntities) 10
                       "session-2" examples.server "cust_12345" [ "order_1"; "order_2" ]))
         !! "session-2"
       = Some (mkSession "session-2" "cust_12345" info [ "order_1"; "order_2" ]
                 (Some details) [ mkMessage assistant "Hello" 10 ] 10 10 active false
                 (Some [])).
Proof.
  destruct (start_creates_session unit
              (examples.collaborators GENERAL_QUERY examples.noEntities) 10 "session-2"
              examples.server "cust_12345" [ "order_1"; "order_2" ] "session-2" "Hello"
              eq_refl) as (_ & info & details & Hlen & Hlook).
  exists info, details. split; [exact Hlen | exact Hlook].
Defined.

Lemma start_then_end_witness :
  endConversation (examples.collaborators GENERAL_QUERY examples.noEntities) 20
    (fst (startConversation (examples.collaborators GENERAL_QUERY examples.noEntities) 10
            "session-2" examples.server "cust_12345" [ "order_1" ]))
    "session-2"
  = (examples.server, EndOk).
Proof.
  apply (start_then_end unit (examples.collaborators GENERAL_QUERY examples.noEntities)
           10 20 "session-2" examples.server "cust_12345" [ "order_1" ] "session-2"
           "Hello"); reflexivity.
Defined.

Lemma postMessage_records_witness :
  exists s',
    sessions (fst (postMessage (examples.collaborators ORDER_STATUS examples.noEntities) 10
                     examples.server "session-1" "where is my order"))
      !! "session-1" = Some s'
    /\ lastActivityAt s' = 10.
Proof.
  destruct (postMessage_records unit
              (examples.collaborators ORDER_STATUS examples.noEntities) 10 examples.server
              "session-1" "where is my order" (examples.session examples.regular [])
              eq_refl) as (s' & Hlook & Htime & _).
  exists s'. split; [exact Hlook | exact Htime].
Defined.

Lemma escalation_sticks_witness :
  snd (postMessage (examples.collaborators ESCALATION_REQUEST examples.noEntities) 10
         examples.server "session-1" "let me talk to a supervisor")
  = MessageOk responses.escalationRequest true.
Proof.
  destruct (escalation_sticks unit
              (examples.collaborators ESCALATION_REQUEST examples.noEntities) 10
              examples.server "session-1" "let me talk to a supervisor"
              (examples.session examples.regular [])
              (mkIntent ESCALATION_REQUEST (Q2Qc 0.9)) examples.noEntities eq_refl)
    as [Hreq _].
  exact (proj1 (Hreq eq_refl eq_refl)).
Defined.

(** * Properties of the demo-mode orders *)

Section MockOrders.

Import orderManager.

Lemma menu_cases (r : string) :
  menu r = menu "Taco Bell" \/ menu r = menu "McDonald's" \/ menu r = menu "Pizza Hut"
  \/ menu r = menu "Domino's" \/ menu r = menu "".
Proof.
  unfold menu.
  destruct (String.eqb r "Taco Bell"); [left; reflexivity|].
  destruct (String.eqb r "McDonald's"); [right; left; reflexivity|].
  destruct (String.eqb r "Pizza Hut"); [right; right; left; reflexivity|].
  destruct (String.eqb r "Domino's"); [right; right; right; left; reflexivity|].
  right; right; right; right; reflexivity.
Qed.

Lemma digits_value_nonneg (ds : list Z) (acc : Z) :
  0 <= acc -> Forall (fun d => 0 <= d) ds ->
  0 <= fold_left (fun acc d => acc * 10 + d) ds acc.
Proof.
  revert acc. induction ds as [|d ds IH]; intros acc Hacc Hds; simpl; [exact Hacc|].
  inversion Hds; subst. apply IH; [lia | assumption].
Qed.

Lemma digitsOf_nonneg (s : string) : Forall (fun d => 0 <= d) (digitsOf s).
Proof.
  induction s as [|c s IH]; simpl; [constructor|].
  destruct (isDigit c) eqn:Hd; [|exact IH]. constructor; [|exact IH].
  unfold isDigit in Hd. apply andb_true_iff in Hd as [H _]. apply Nat.leb_le in H. lia.
Qed.

(** The number read off an order id is positive, so [%] is [mod] on it. *)
Lemma orderIdNum_pos (orderId : string) : 0 < orderIdNum orderId.
Proof.
  unfold orderIdNum. destruct (digitsOf orderId) as [|d ds] eqn:E; [lia|].
  pose proof (digits_value_nonneg (d :: ds) 0 ltac:(lia)) as H.
  rewrite <- E in H. specialize (H (digitsOf_nonneg orderId)). rewrite E in H.
  destruct (Z.eqb _ 0) eqn:Hz; [lia|]. apply Z.eqb_neq in Hz. lia.
Qed.

(** Whatever the order id and the time, the order the demo source returns is
    priced consistently: its lines are not negative and sum to the subtotal,
    its total is subtotal plus taxes plus the delivery fee of 49, the lines
    stay within the total, and the total lies strictly between 0 and the
    high-value threshold of 1000. *)
Theorem mock_order_priced (now : Z) (orderId : string) :
  decisions.linesNonNegative (details (getMockOrderDetails now orderId))
  /\ subtotal (getMockOrderDetails now orderId)
     = spec.sumItems (items (details (getMockOrderDetails now orderId)))
  /\ totalAmount (details (getMockOrderDetails now orderId))
     = (subtotal (getMockOrderDetails now orderId)
        + Q2Qc (inject_Z (taxes (getMockOrderDetails now orderId))) + Q2Qc 49)%Qc
  /\ decisions.linesWithinTotal (details (getMockOrderDetails now orderId))
  /\ (Q2Qc 0 < totalAmount (details (getMockOrderDetails now orderId)))%Qc
  /\ (totalAmount (details (getMockOrderDetails now orderId))
      < config.thresholds.highValueOrder)%Qc
  /\ escalationManager.highValueOrder
       (Some [ details (getMockOrderDetails now orderId) ]) = false.
Proof.
  unfold getMockOrderDetails, decisions.linesNonNegative, decisions.linesWithinTotal,
    escalationManager.highValueOrder.
  cbn [details subtotal taxes items totalAmount existsb].
  destruct (menu_cases (nth (Z.to_nat (orderIdNum orderId mod 8)) restaurants ""))
    as [-> | [-> | [-> | [-> | ->]]]].
  all: repeat apply conj;
    try (repeat constructor; vm_compute; discriminate);
    try (apply Qc_is_canon; reflexivity);
    try (vm_compute; discriminate); try reflexivity.
Qed.

(** No order of the demo source can be verified as late: a delivered one was
    delivered 30 minutes before its promised time, and one that is not yet
    delivered counts as delivered at the epoch.  Every late-delivery report on
    it is rejected as "on time or early", whenever it is made. *)
Theorem mock_order_never_late (now now' : Z) (orderId : string)
    (c : option CustomerInfo) :
  0 <= now ->
  decisionEngine.verifyLateDeliveryIssue now'
    (Some (details (getMockOrderDetails now orderId))) c
  = mkVerification false "Delivery was on time or early" (Some (Q2Qc 0)) None.
Proof.
  intros Hnow.
  unfold decisionEngine.verifyLateDeliveryIssue, decisionEngine.verifyLateDeliveryIssue_try.
  cbn [Js.bind Js.deref].
  assert (H : (decisionEngine.lateness (details (getMockOrderDetails now orderId))
               <=? Q2Qc 0)%Qc = true).
  { apply leb_true. unfold decisionEngine.lateness, getMockOrderDetails, Js.elapsed.
    cbn [details deliveredAt estimatedDeliveryTime].
    apply Q2Qc_le. unfold Qle. cbn [Qnum Qden].
    destruct (nth _ statusOptions CONFIRMED); cbn [Js.dateOf]; lia. }
  now rewrite H.
Qed.

Lemma mock_order_never_late_witness :
  order_status (getMockOrderDetails 7200000 "order_67894") = DELIVERED
  /\ verified (decisionEngine.verifyLateDeliveryIssue 9000000
                 (Some (details (getMockOrderDetails 7200000 "order_67894")))
                 (Some examples.proPlus)) = false.
Proof.
  split; [reflexivity|].
  rewrite (mock_order_never_late 7200000 9000000 "order_67894" (Some examples.proPlus));
    [reflexivity | lia].
Defined.

End MockOrders.

(** * Properties of the replies to a rejection *)

Section RejectionReplies.

Import conversationManager.

Lemma verifyWrongOrderIssue_rejected_reason (now : Z) (o : OrderDetails)
    (wrong : option (list string)) (c : CustomerInfo) :
  verified (decisionEngine.verifyWrongOrderIssue now (Some o) wrong (Some c)) = false ->
  verification_reason (decisionEngine.verifyWrongOrderIssue now (Some o) wrong (Some c))
  = if (Js.elapsed now (Js.dateOf (deliveredAt o)) 60000
          >? config.verificationWindows.wrongOrder)%Qc
    then "Complaint received too long after delivery"
    else "Customer risk score exceeds threshold".
Proof.
  unfold decisionEngine.verifyWrongOrderIssue, decisionEngine.verifyWrongOrderIssue_try.
  cbn [Js.bind Js.deref].
  destruct (problemFlag o); [simpl; discriminate|].
  destruct (isPremium (membershipTier c)); [simpl; discriminate|].
  destruct (_ >? config.verificationWindows.wrongOrder)%Qc; [reflexivity|].
  destruct (_ >? _)%Qc; [reflexivity | simpl; discriminate].
Qed.

(** A report that [verifyLateDeliveryIssue] rejects has one of three reasons:
    on time, late by less than the threshold (with the rounded minutes in the
    text), or reported after the window. *)
Lemma verifyLateDeliveryIssue_rejected_reason (now : Z) (o : OrderDetails)
    (c : option CustomerInfo) :
  verified (decisionEngine.verifyLateDeliveryIssue now (Some o) c) = false ->
  verification_reason (decisionEngine.verifyLateDeliveryIssue now (Some o) c)
  = if (decisionEngine.lateness o <=? Q2Qc 0)%Qc then "Delivery was on time or early"
    else if (decisionEngine.lateness o <? config.thresholds.acceptableLateness)%Qc
    then "Delivery was only " ++ Js.showZ (Js.round (decisionEngine.lateness o))
           ++ " minutes late, within acceptable range"
    else "Complaint received too long after delivery".
Proof.
  unfold decisionEngine.verifyLateDeliveryIssue, decisionEngine.verifyLateDeliveryIssue_try.
  cbn [Js.bind Js.deref].
  destruct (_ <=? Q2Qc 0)%Qc; [reflexivity|].
  destruct (_ <? config.thresholds.acceptableLateness)%Qc; [reflexivity|].
  destruct (_ >? _)%Qc; [reflexivity | simpl; discriminate].
Qed.

(** A rejected report, answered by [generateVerificationFailedResponse] on the
    reason of the rejection.  A wrong-order or missing-item report never gets
    the generic "unable to verify" text: it gets "too long since the order was
    delivered" exactly when more than 60 minutes have passed since delivery
    (for a missing-item report: and the item check passed), "I don't see the
    items" exactly when the item check failed, and the escalation text in the
    remaining case.  A late-delivery report gets the generic text when the
    delivery was less than 10 minutes late, and otherwise (it was reported
    after the 24-hour window) the same "within 60 minutes of delivery" text. *)
Theorem rejected_report_reply (now : Z) (o : OrderDetails) (claimed : list string)
    (wrong : option (list string)) (c : CustomerInfo) :
  (verified (decisionEngine.verifyWrongOrderIssue now (Some o) wrong (Some c)) = false ->
   generateVerificationFailedResponse
     (Some (verification_reason
              (decisionEngine.verifyWrongOrderIssue now (Some o) wrong (Some c))))
   = if (Js.elapsed now (Js.dateOf (deliveredAt o)) 60000 >? Q2Qc 60)%Qc
     then texts.tooLate else texts.underReview)
  /\ (verified (decisionEngine.verifyMissingItemIssue now (Some o) (Some claimed) (Some c))
      = false ->
      generateVerificationFailedResponse
        (Some (verification_reason
                 (decisionEngine.verifyMissingItemIssue now (Some o) (Some claimed)
                    (Some c))))
      = match claimed, decisionEngine.validMissing o claimed with
        | _ :: _, [] => texts.itemsNotFound
        | _, _ =>
            if (Js.elapsed now (Js.dateOf (deliveredAt o)) 60000 >? Q2Qc 60)%Qc
            then texts.tooLate else texts.underReview
        end)
  /\ (verified (decisionEngine.verifyLateDeliveryIssue now (Some o) (Some c)) = false ->
      generateVerificationFailedResponse
        (Some (verification_reason
                 (decisionEngine.verifyLateDeliveryIssue now (Some o) (Some c))))
      = if (decisionEngine.lateness o <? Q2Qc 10)%Qc
        then texts.cannotVerify else texts.tooLate).
Proof.
  split; [|split].
  - intros H. rewrite (verifyWrongOrderIssue_rejected_reason _ _ _ _ H).
    change config.verificationWindows.wrongOrder with (Q2Qc 60).
    destruct (_ >? Q2Qc 60)%Qc; reflexivity.
  - unfold decisionEngine.verifyMissingItemIssue, decisionEngine.verifyMissingItemIssue_try.
    cbn [Js.bind Js.deref].
    change config.verificationWindows.missingItem with (Q2Qc 60).
    destruct claimed as [|x claimed]; destruct (decisionEngine.validMissing o _) as [|y ys];
      cbn [length Nat.eqb Nat.ltb Nat.leb andb]; try reflexivity;
      try (destruct (problemFlag o); [simpl; discriminate|];
           destruct (isPremium (membershipTier c)); [simpl; discriminate|];
           destruct (_ >? Q2Qc 60)%Qc; [reflexivity|];
           destruct (_ >? _)%Qc; [reflexivity | simpl; discriminate]).
  - intros H. rewrite (verifyLateDeliveryIssue_rejected_reason _ _ _ H).
    change config.thresholds.acceptableLateness with (Q2Qc 10).
    destruct (_ <=? Q2Qc 0)%Qc eqn:H0.
    + apply leb_true in H0.
      assert (Hlt : (decisionEngine.lateness o <? Q2Qc 10)%Qc = true).
      { apply ltb_true. apply Qcle_lt_trans with (Q2Qc 0); [exact H0|].
        vm_compute. reflexivity. }
      rewrite Hlt. reflexivity.
    + destruct (_ <? Q2Qc 10)%Qc; reflexivity.
Qed.

Lemma rejected_report_reply_witness :
  verified (decisionEngine.verifyWrongOrderIssue examples.threeDaysLater
              (Some examples.pizzaOrder) None (Some examples.regular)) = false
  /\ generateVerificationFailedResponse
       (Some (verification_reason
                (decisionEngine.verifyWrongOrderIssue examples.threeDaysLater
                   (Some examples.pizzaOrder) None (Some examples.regular))))
     = texts.tooLate.
Proof.
  split; [reflexivity|].
  exact (proj1 (rejected_report_reply examples.threeDaysLater examples.pizzaOrder []
                  None examples.regular) eq_refl).
Defined.

(** A rejected refund request, answered by [generateRefundRejectionResponse]
    on the reason [checkRefundEligibility] gives: the reply never faults, and
    says "already been processed" for a refunded order, names the 7-day
    period for an order older than that, and escalates when the eligibility
    check itself failed.  On the result for an eligible request, which has no
    reason, it faults. *)
Theorem rejected_refund_reply (now : Z) (od : option OrderDetails)
    (c : option CustomerInfo) (why : string) :
  (eligible (decisionEngine.checkRefundEligibility now od c why) = false ->
   generateRefundRejectionResponse
     (eligibility_reason (decisionEngine.checkRefundEligibility now od c why))
   = Js.Normal
       match od with
       | Some o =>
           if refunded o then texts.alreadyRefunded
           else if (Js.elapsed now (orderedAt o) 86400000 >? Q2Qc 7)%Qc
                then texts.pastRefundPeriod
                else texts.refundUnderReview
       | None => texts.refundUnderReview
       end)
  /\ (eligible (decisionEngine.checkRefundEligibility now od c why) = true ->
      generateRefundRejectionResponse
        (eligibility_reason (decisionEngine.checkRefundEligibility now od c why))
      = Js.Throw Js.TypeError).
Proof.
  unfold decisionEngine.checkRefundEligibility, decisionEngine.checkRefundEligibility_try.
  destruct od as [o|]; cbn [Js.bind Js.deref Js.tryCatch];
    [|split; [reflexivity | simpl; discriminate]].
  destruct (refunded o); [split; [reflexivity | simpl; discriminate]|].
  change (Q2Qc (inject_Z config.thresholds.refundEligibilityDays)) with (Q2Qc 7).
  destruct (_ >? Q2Qc 7)%Qc; [split; [reflexivity | simpl; discriminate]|].
  destruct c as [c|]; cbn [Js.bind Js.deref Js.tryCatch];
    [|split; [reflexivity | simpl; discriminate]].
  split; [simpl; discriminate | reflexivity].
Qed.

Lemma rejected_refund_reply_witness :
  eligible (decisionEngine.checkRefundEligibility examples.threeDaysLater
              (Some examples.pizzaOrder) None "late") = false
  /\ generateRefundRejectionResponse
       (eligibility_reason
          (decisionEngine.checkRefundEligibility examples.threeDaysLater
             (Some examples.pizzaOrder) None "late"))
     = Js.Normal texts.refundUnderReview.
Proof.
  split; [reflexivity|].
  exact (proj1 (rejected_refund_reply examples.threeDaysLater (Some examples.pizzaOrder)
                  None "late") eq_refl).
Defined.

End RejectionReplies.

(** * Properties of the logger *)

Section LogLevels.

Import logger.

Lemma lookupLevel_cases (name : string) :
  lookupLevel name levels = None
  \/ exists n, lookupLevel name levels = Some n /\ 0 <= n <= 3
               /\ Js.inheritedKey name = false.
Proof.
  unfold levels. cbn [lookupLevel].
  destruct (String.eqb name "debug") eqn:E0;
    [apply String.eqb_eq in E0; subst; right; exists 0; repeat split; lia|].
  destruct (String.eqb name "info") eqn:E1;
    [apply String.eqb_eq in E1; subst; right; exists 1; repeat split; lia|].
  destruct (String.eqb name "warn") eqn:E2;
    [apply String.eqb_eq in E2; subst; right; exists 2; repeat split; lia|].
  destruct (String.eqb name "error") eqn:E3;
    [apply String.eqb_eq in E3; subst; right; exists 3; repeat split; lia|].
  now left.
Qed.

(** A level value is a number from 1 to 3, or not a number, the latter
    exactly for the names every object inherits. *)
Lemma getLogLevelValue_cases (level : string) :
  (getLogLevelValue level = NotANumber
   /\ Js.inheritedKey (Js.toLowerCase level) = true)
  \/ (exists n, getLogLevelValue level = Level n /\ 1 <= n <= 3
                /\ (lookupLevel (Js.toLowerCase level) levels = None ->
                    Js.inheritedKey (Js.toLowerCase level) = false)).
Proof.
  unfold getLogLevelValue.
  destruct (lookupLevel_cases (Js.toLowerCase level)) as [-> | (n & -> & Hn & Hk)].
  - destruct (Js.inheritedKey _); [now left|]. right. exists 1. repeat split; lia.
  - right. destruct (Z.eqb n 0) eqn:E.
    + exists 1. repeat split; try lia. intros _. exact Hk.
    + apply Z.eqb_neq in E. exists n. repeat split; try lia. intros _. exact Hk.
Qed.

Lemma getLogLevel_cases (configured : option string) :
  (getLogLevel configured = NotANumber
   /\ exists level, configured = Some level
                    /\ Js.inheritedKey (Js.toLowerCase level) = true)
  \/ (exists n, getLogLevel configured = Level n /\ 1 <= n <= 3
                /\ forall level, configured = Some level ->
                                 Js.inheritedKey (Js.toLowerCase level) = false).
Proof.
  destruct configured as [level|]; [|right; exists 1; repeat split; [lia..|discriminate]].
  destruct level as [|a level];
    [right; exists 1; repeat split; [lia..|intros ? [= <-]; reflexivity]|].
  change (getLogLevel (Some (String a level)))
    with (getLogLevelValue (Js.toLowerCase (String a level))).
  destruct (getLogLevelValue_cases (Js.toLowerCase (String a level)))
    as [[H Hk] | (n & H & Hn & Hk)]; rewrite toLowerCase_idem in *.
  - left. split; [exact H|]. now exists (String a level).
  - right. exists n. repeat split; try lia; try exact H.
    intros l [= <-].
    unfold getLogLevelValue in H. rewrite toLowerCase_idem in H.
    destruct (lookupLevel _ levels) eqn:E.
    + destruct (lookupLevel_cases (Js.toLowerCase (String a level)))
        as [E' | (m & _ & _ & Hm)]; [congruence | exact Hm].
    + now apply Hk.
Qed.

(** Whatever level and destination are configured, debug entries are written
    exactly when info entries are (the level "debug" has the value 0, which
    [||] replaces by 1); an enabled level enables the more severe ones; and
    error entries are suppressed exactly when the configured level name is,
    lower-cased, a property every object inherits (such as "constructor"), in
    which case no method writes anything. *)
Theorem log_levels (configuredLevel : option string) (configuredDestination : string) :
  let lg := create configuredLevel configuredDestination in
  enabled lg "debug" = enabled lg "info"
  /\ (enabled lg "info" = true -> enabled lg "warn" = true)
  /\ (enabled lg "warn" = true -> enabled lg "error" = true)
  /\ (enabled lg "error" = false <->
      exists level, configuredLevel = Some level
                    /\ Js.inheritedKey (Js.toLowerCase level) = true)
  /\ (enabled lg "error" = false ->
      forall level entry console, log lg level entry console = console).
Proof.
  cbv zeta. unfold enabled, log, enabled, create. cbn [logLevel].
  change (getLogLevelValue "debug") with (Level 1).
  change (getLogLevelValue "info") with (Level 1).
  change (getLogLevelValue "warn") with (Level 2).
  change (getLogLevelValue "error") with (Level 3).
  destruct (getLogLevel_cases configuredLevel) as [[-> Hk] | (n & -> & Hn & Hk)].
  - repeat split; try discriminate; try (intros; exact Hk).
    intros _ level entry console. now destruct (getLogLevelValue level).
  - cbn [geq]. repeat split.
    + intros H. apply Z.leb_le in H. apply Z.leb_le. lia.
    + intros H. apply Z.leb_le in H. apply Z.leb_le. lia.
    + intros H. apply Z.leb_gt in H. lia.
    + intros (level & Hc & Hi). rewrite (Hk level Hc) in Hi. discriminate.
    + intros H. apply Z.leb_gt in H. lia.
Qed.

Lemma log_levels_witness :
  enabled (create (Some "Constructor") "console") "error" = false
  /\ error (create (Some "Constructor") "console") "disk full" [] = [].
Proof.
  pose proof (log_levels (Some "Constructor") "console") as H. cbv zeta in H.
  destruct H as (_ & _ & _ & Hiff & Hsilent).
  assert (Hoff : enabled (create (Some "Constructor") "console") "error" = false).
  { apply Hiff. exists "Constructor". split; reflexivity. }
  split; [exact Hoff|].
  exact (Hsilent Hoff "error" "disk full" []).
Defined.

End LogLevels.
